(** * ARRS: analysis pipeline orchestrator and multi-engine scoring

    A shallow embedding of the scoring engines (ADE, ARCE, TRE), the
    composite scorer, the gap aggregation and the pipeline of
    [arrs/core/orchestrator.py], together with the parts of the parsers,
    the repository and the report generator they rely on.

    Conventions of the embedding:
    - Python [float] values are exact rationals ([Q]); [round(x, 2)] is
      rounding to the nearest multiple of 1/100, ties to even.
    - Python [str] is [string]; [len] counts its characters.
    - A raised exception is [Raise msg], [msg] being [str(e)].
    - Values of dynamic type (JSON-LD objects, detail maps) are [pyval].
    - uuid4 identifiers and timestamps of scores, gaps and pages are left
      out; the identifier of the analysis is supplied by the environment.
    - Logging is not modelled. *)

From Stdlib Require Import String Ascii List ZArith QArith Qround Qabs Lqa Lia Bool.
From Stdlib Require Import Permutation Sorted.
Import ListNotations.
Local Open Scope string_scope.
Local Open Scope Q_scope.

(* ===================================================================== *)
(** * Python values and helpers *)
(* ===================================================================== *)

(** The outcome of a call that may raise. *)
Inductive Result (A : Type) : Type :=
| Ok (a : A)
| Raise (e : string).
Arguments Ok {A} a.
Arguments Raise {A} e.

Definition rbind {A B} (r : Result A) (f : A -> Result B) : Result B :=
  match r with
  | Ok a => f a
  | Raise e => Raise e
  end.

Declare Scope result_scope.
Delimit Scope result_scope with result.
Notation "'let?' x ':=' r 'in' k" := (rbind r (fun x => k))
  (at level 10, x name, r at level 100, k at level 200) : result_scope.

(** A value of dynamic type: what [json.loads] and the detail maps hold. *)
#[local] Unset Elimination Schemes.
Inductive pyval : Type :=
| PNone
| PBool (b : bool)
| PInt (z : Z)
| PNum (q : Q)
| PStr (s : string)
| PList (l : list pyval)
| PDict (d : list (string * pyval)).
#[local] Set Elimination Schemes.

Definition pydict := list (string * pyval).

(** [d.get(k)]: the first binding of [k]. *)
Fixpoint dict_get {V : Type} (d : list (string * V)) (k : string) : option V :=
  match d with
  | [] => None
  | (k', v) :: d' => if String.eqb k' k then Some v else dict_get d' k
  end.

(** [d.get(k, default)]. *)
Definition dict_get_default {V : Type} (d : list (string * V)) (k : string) (default : V) : V :=
  match dict_get d k with
  | Some v => v
  | None => default
  end.

(** [bool(v)]. *)
Definition truthy (v : pyval) : bool :=
  match v with
  | PNone => false
  | PBool b => b
  | PInt z => negb (Z.eqb z 0)
  | PNum q => negb (Qeq_bool q 0)
  | PStr s => negb (String.eqb s "")
  | PList l => match l with [] => false | _ => true end
  | PDict d => match d with [] => false | _ => true end
  end.

(** [bool(s)] for a string. *)
Definition str_truthy (s : string) : bool := negb (String.eqb s "").

(** [bool(o)] for an [Optional[str]]. *)
Definition opt_truthy (o : option string) : bool :=
  match o with
  | Some s => str_truthy s
  | None => false
  end.

(** [a or b]. *)
Definition py_or (a b : pyval) : pyval := if truthy a then a else b.

(** [len(v)]; raises [TypeError] on a value without a length. *)
Definition py_len (v : pyval) : Result nat :=
  match v with
  | PStr s => Ok (String.length s)
  | PList l => Ok (List.length l)
  | PDict d => Ok (List.length d)
  | PNone => Raise "object of type 'NoneType' has no len()"
  | PBool _ => Raise "object of type 'bool' has no len()"
  | PInt _ => Raise "object of type 'int' has no len()"
  | PNum _ => Raise "object of type 'float' has no len()"
  end.

(** [v.get(k)] on a value that should be a dict; raises [AttributeError]
    otherwise. *)
Definition py_get (v : pyval) (k : string) : Result pyval :=
  match v with
  | PDict d => Ok (dict_get_default d k PNone)
  | _ => Raise "object has no attribute 'get'"
  end.

(** The number a value stands for in a comparison, if it is one. *)
Definition py_num (v : pyval) : option Q :=
  match v with
  | PInt z => Some (inject_Z z)
  | PNum q => Some q
  | PBool b => Some (if b then 1 else 0)
  | _ => None
  end.

(** [sum(xs)] over floats: accumulates from 0, left to right. *)
Definition py_sum (xs : list Q) : Q := fold_left Qplus xs 0.

(** [min(a, b)]: the second argument only when it is strictly smaller. *)
Definition py_min (a b : Q) : Q := if Qle_bool a b then a else b.

(** [max(a, b)]. *)
Definition py_max (a b : Q) : Q := if Qle_bool b a then a else b.

Definition Qltb (a b : Q) : bool := negb (Qle_bool b a).

(** [v < c] for a number [c]; raises [TypeError] when [v] is no number. *)
Definition py_lt (v : pyval) (c : Q) : Result bool :=
  match py_num v with
  | Some q => Ok (Qltb q c)
  | None => Raise "'<' not supported between these instances"
  end.

(** [v == c] for a number [c]. *)
Definition py_eq_num (v : pyval) (c : Q) : bool :=
  match py_num v with
  | Some q => Qeq_bool q c
  | None => false
  end.

Definition Q_of_nat (n : nat) : Q := inject_Z (Z.of_nat n).

(** Rounding of an exact value to the nearest integer, ties to even. *)
Definition round_half_even (x : Q) : Z :=
  let f := Qfloor x in
  let r := x - inject_Z f in
  if Qltb r (1 # 2) then f
  else if Qltb (1 # 2) r then (f + 1)%Z
  else if Z.even f then f else (f + 1)%Z.

(** [round(x, 2)]. *)
Definition py_round2 (x : Q) : Q := inject_Z (round_half_even (x * 100)) / 100.

(** ** Strings *)

Definition lower_ascii (c : ascii) : ascii :=
  let n := nat_of_ascii c in
  if andb (Nat.leb 65 n) (Nat.leb n 90) then ascii_of_nat (n + 32)%nat else c.

(** [s.lower()], on ASCII letters. *)
Fixpoint py_lower (s : string) : string :=
  match s with
  | EmptyString => EmptyString
  | String c s' => String (lower_ascii c) (py_lower s')
  end.

(** [needle in hay]. *)
Fixpoint py_in (needle hay : string) : bool :=
  if String.prefix needle hay then true
  else match hay with
       | EmptyString => false
       | String _ hay' => py_in needle hay'
       end.

(** [any(keyword in text for keyword in keywords)]. *)
Definition any_keyword (keywords : list string) (text : string) : bool :=
  existsb (fun keyword => py_in keyword text) keywords.

Definition digit_of_nat (n : nat) : ascii := ascii_of_nat (48 + n)%nat.

Fixpoint str_of_nat_aux (fuel n : nat) (acc : string) : string :=
  match fuel with
  | O => acc
  | S fuel' =>
      let acc' := String (digit_of_nat (n mod 10)%nat) acc in
      match (n / 10)%nat with
      | O => acc'
      | q => str_of_nat_aux fuel' q acc'
      end
  end.

(** [str(n)] for a non-negative int. *)
Definition str_of_nat (n : nat) : string := str_of_nat_aux (S n) n "".

(* ===================================================================== *)
(** * Data models ([arrs/models]) *)
(* ===================================================================== *)

Inductive AnalysisStatus : Type := PENDING | PROCESSING | COMPLETED | FAILED.

(** [Analysis]; [created_at] and [metadata] play no part here. *)
Record Analysis : Type := mkAnalysis {
  id : string;
  url : string;
  status : AnalysisStatus;
  composite_score : option Q;
  error_message : option string
}.

Record CrawledContent : Type := mkCrawledContent {
  cc_analysis_id : string;
  cc_url : string;
  html_content : string;
  crawl_method : string;
  status_code : Z
}.

Record EngineScore : Type := mkEngineScore {
  es_analysis_id : string;
  engine_name : string;
  score : Q;
  weight : Q;
  details : pydict
}.

Record Gap : Type := mkGap {
  gap_analysis_id : string;
  gap_type : string;
  severity : string;
  description : string;
  recommendation : string;
  engine_source : string
}.

Record SimulationResult : Type := mkSimulationResult {
  sim_analysis_id : string;
  prompt : string;
  response : string;
  brand_cited : bool;
  citation_count : nat;
  missing_signals : list string
}.

(** [status.value]. *)
Definition status_value (s : AnalysisStatus) : string :=
  match s with
  | PENDING => "pending"
  | PROCESSING => "processing"
  | COMPLETED => "completed"
  | FAILED => "failed"
  end.

(** [d[k] = v]: the value of a key that is there is replaced in place, a
    new key goes to the end. *)
Fixpoint dict_set {V : Type} (d : list (string * V)) (k : string) (v : V)
  : list (string * V) :=
  match d with
  | [] => [(k, v)]
  | (k', v') :: d' =>
      if String.eqb k' k then (k', v) :: d' else (k', v') :: dict_set d' k v
  end.

(** ** Libraries outside the repository *)

(** [textstat], [re] and the built-in formatting, as the engines call them. *)
Record PyLibs : Type := mkPyLibs {
  (** [textstat.flesch_reading_ease(text)] *)
  flesch_reading_ease : string -> Result Q;
  (** [bool(re.search(pattern, text))] *)
  re_search : string -> string -> bool;
  (** [str(v)] for a float or a container *)
  py_repr : pyval -> string;
  (** [f"{x:.1f}"] *)
  format_1f : Q -> string
}.

Definition str_of_Z (z : Z) : string :=
  match z with
  | Zneg _ => "-" ++ str_of_nat (Z.abs_nat z)
  | _ => str_of_nat (Z.abs_nat z)
  end.

(** [str(v)], as an f-string prints a value. *)
Definition py_str (lib : PyLibs) (v : pyval) : string :=
  match v with
  | PInt z => str_of_Z z
  | PStr s => s
  | PNone => "None"
  | PBool true => "True"
  | PBool false => "False"
  | _ => py_repr lib v
  end.

(* ===================================================================== *)
(** * Parsed content ([arrs/parsers]) *)
(* ===================================================================== *)

(** An entry of [extract_images]. *)
Record Image : Type := mkImage {
  src : string;
  alt : string;
  img_title : string;
  width : string;
  height : string
}.

(** An entry of [extract_headings]; the level ["h3"] is kept as [3]. *)
Record Heading : Type := mkHeading {
  level : nat;
  text : string
}.

(** The result of [HTMLParser.validate_heading_hierarchy]. *)
Record HeadingValidation : Type := mkHeadingValidation {
  has_h1 : bool;
  h1_count : nat;
  multiple_h1 : bool;
  skipped_levels : list (nat * nat);
  valid_hierarchy : bool
}.

(** The result of [SchemaParser.validate_product_schema]. Without a
    Product schema the source omits [present_fields] and [field_count];
    they hold the defaults their readers use. *)
Record ProductValidation : Type := mkProductValidation {
  present : bool;
  completeness : Q;
  present_fields : list string;
  missing_fields : list string;
  field_count : nat
}.

(** What BeautifulSoup and extruct find in the markup of one page. An
    exception of theirs, or of the two extraction methods taken as they
    are, is a failure of [parse_markup] below. *)
Record Page : Type := mkPage {
  pg_title : string;
  pg_meta_description : string;
  (** [soup.find_all(f'h{level}')], as the texts of the tags *)
  pg_find_all_h : nat -> list string;
  pg_images : list Image;
  pg_links : list string;
  pg_text : string;
  pg_word_count : nat;
  pg_has_structured_data : bool;
  pg_semantic_elements : list (string * nat);
  pg_metadata : list (string * string);
  (** [SchemaParser.find_product_schema()] *)
  pg_product : option pydict;
  (** [SchemaParser.extract_reviews()["has_reviews"]] *)
  pg_has_reviews : bool;
  (** [SchemaParser.extract_brand_info()] *)
  pg_brand : pyval
}.

(** [parsed_data["html"]]. *)
Record HtmlData : Type := mkHtmlData {
  title : string;
  meta_description : string;
  headings : list Heading;
  images : list Image;
  links : list string;
  text_content : string;
  word_count : nat;
  has_structured_data : bool;
  semantic_elements : list (string * nat);
  metadata : list (string * string);
  heading_validation : HeadingValidation
}.

(** [parsed_data["schema"]], as far as the engines read it. *)
Record SchemaData : Type := mkSchemaData {
  product : option pydict;
  product_validation : ProductValidation;
  offers : pyval;
  has_reviews : bool;
  brand : pyval
}.

Record ParsedData : Type := mkParsedData {
  html : HtmlData;
  schema : SchemaData
}.

Module HTMLParser.

(** [extract_headings]: all h1, then all h2, ... up to h6. *)
Definition extract_headings (pg : Page) : list Heading :=
  flat_map (fun lvl => map (fun t => mkHeading lvl t) (pg_find_all_h pg lvl))
           [1; 2; 3; 4; 5; 6]%nat.

(** The loop over adjacent levels of [validate_heading_hierarchy]. *)
Fixpoint skipped (levels : list nat) : list (nat * nat) :=
  match levels with
  | a :: ((b :: _) as rest) =>
      if (1 <? b - a)%nat then (a, b) :: skipped rest else skipped rest
  | _ => []
  end.

Definition validate_heading_hierarchy (pg : Page) : HeadingValidation :=
  let headings := map level (extract_headings pg) in
  let has_h1 := existsb (Nat.eqb 1) headings in
  let h1_count := count_occ Nat.eq_dec headings 1%nat in
  let levels := headings in
  let skipped_levels := skipped levels in
  {| has_h1 := has_h1;
     h1_count := h1_count;
     multiple_h1 := (1 <? h1_count)%nat;
     skipped_levels := skipped_levels;
     valid_hierarchy :=
       has_h1 && (h1_count =? 1)%nat
       && match skipped_levels with [] => true | _ => false end |}.

(** [parse()] with the validation added by [_parse_content]. *)
Definition parse (pg : Page) : HtmlData :=
  {| title := pg_title pg;
     meta_description := pg_meta_description pg;
     headings := extract_headings pg;
     images := pg_images pg;
     links := pg_links pg;
     text_content := pg_text pg;
     word_count := pg_word_count pg;
     has_structured_data := pg_has_structured_data pg;
     semantic_elements := pg_semantic_elements pg;
     metadata := pg_metadata pg;
     heading_validation := validate_heading_hierarchy pg |}.

End HTMLParser.

Module SchemaParser.

Definition recommended_fields : list string :=
  ["name"; "image"; "description"; "brand"; "offers";
   "sku"; "gtin"; "mpn"; "aggregateRating"; "review"].

(** [field in product_schema and product_schema[field]]. *)
Definition field_present (p : pydict) (field : string) : bool :=
  match dict_get p field with
  | Some v => truthy v
  | None => false
  end.

(** The first case is that of a schema that is there and not empty, the
    second that of [not product_schema]. *)
Definition validate_product_schema (product_schema : option pydict) : ProductValidation :=
  match product_schema with
  | Some ((_ :: _) as p) =>
      let present_fields := filter (field_present p) recommended_fields in
      let missing_fields := filter (fun f => negb (field_present p f)) recommended_fields in
      {| present := true;
         completeness :=
           Q_of_nat (List.length present_fields) / Q_of_nat (List.length recommended_fields);
         present_fields := present_fields;
         missing_fields := missing_fields;
         field_count := List.length present_fields |}
  | _ =>
      {| present := false;
         completeness := 0;
         present_fields := [];
         missing_fields := recommended_fields;
         field_count := 0 |}
  end.

Definition extract_offers (product_schema : option pydict) : pyval :=
  match product_schema with
  | Some ((_ :: _) as p) =>
      let offers := dict_get_default p "offers" (PList []) in
      match offers with
      | PDict _ => PList [offers]
      | _ => offers
      end
  | _ => PList []
  end.

End SchemaParser.

(** The assembly of [AnalysisOrchestrator._parse_content] from what the
    two parsers found. *)
Definition assemble_parsed_data (pg : Page) : ParsedData :=
  {| html := HTMLParser.parse pg;
     schema :=
       {| product := pg_product pg;
          product_validation := SchemaParser.validate_product_schema (pg_product pg);
          offers := SchemaParser.extract_offers (pg_product pg);
          has_reviews := pg_has_reviews pg;
          brand := pg_brand pg |} |}.


(* ===================================================================== *)
(** * Scoring utilities ([arrs/engines/base/scoring_utils.py]) *)
(* ===================================================================== *)

Definition calculate_completeness_score (present_fields expected_fields : list string)
    (max_points : Q) : Q :=
  match expected_fields with
  | [] => max_points
  | _ =>
      let present_count :=
        List.length (filter (fun f => existsb (String.eqb f) expected_fields) present_fields) in
      let expected_count := List.length expected_fields in
      let ratio := Q_of_nat present_count / Q_of_nat expected_count in
      ratio * max_points
  end.

Definition calculate_richness_score (content : pyval) (benchmark_chars : nat) (max_points : Q)
  : Result Q :=
  (let? char_count := py_len content in
   let ratio := py_min 1 (Q_of_nat char_count / Q_of_nat benchmark_chars) in
   Ok (ratio * max_points))%result.

Definition calculate_ratio_score (numerator denominator max_points : Q) : Q :=
  if Qeq_bool denominator 0 then 0
  else
    let ratio := py_min 1 (numerator / denominator) in
    ratio * max_points.

Definition count_semantic_html_tags (html_data : HtmlData) : nat :=
  fold_left Nat.add (map snd (semantic_elements html_data)) 0%nat.

(* ===================================================================== *)
(** * The engine contract ([arrs/engines/base/engine.py]) *)
(* ===================================================================== *)

Module BaseEngine.

(** An engine: the name and weight fixed at construction and the two
    abstract methods. *)
Record t : Type := mk {
  name : string;
  weight : Q;
  analyze : CrawledContent -> ParsedData -> Result EngineScore;
  identify_gaps : EngineScore -> ParsedData -> Result (list Gap)
}.

Definition normalize_score (raw_score max_score : Q) : Q :=
  if Qeq_bool max_score 0 then 0
  else
    let normalized := (raw_score / max_score) * 100 in
    py_min 100 (py_max 0 normalized).

Definition create_score (name : string) (weight : Q)
    (analysis_id : string) (score : Q) (details : pydict) : EngineScore :=
  mkEngineScore analysis_id name score weight details.

Definition create_gap (name : string)
    (analysis_id gap_type severity description recommendation : string) : Gap :=
  {| gap_analysis_id := analysis_id;
     gap_type := gap_type;
     severity := severity;
     description := description;
     recommendation := recommendation;
     engine_source := name |}.

End BaseEngine.

(** [gaps.append(g)] when [cond] holds. *)
Definition append_if {A : Type} (cond : bool) (x : A) (l : list A) : list A :=
  if cond then l ++ [x] else l.

(* ===================================================================== *)
(** * ADE: attribute density ([arrs/engines/ade/engine.py]) *)
(* ===================================================================== *)

Module ADEEngine.

Definition name : string := "ADE".

Definition _score_schema_completeness (schema_data : SchemaData) : Q :=
  let validation := product_validation schema_data in
  if negb (present validation) then 0
  else
    let completeness := completeness validation in
    completeness * 40.

(** [schema_data.get('product', {})]: the key is always there, so a
    page without Product schema yields [None], on which [.get] raises. *)
Definition product_get (schema_data : SchemaData) (key : string) (default : pyval)
  : Result pyval :=
  match product schema_data with
  | Some p => Ok (dict_get_default p key default)
  | None => Raise "'NoneType' object has no attribute 'get'"
  end.

Definition _score_attribute_richness (schema_data : SchemaData) (html_data : HtmlData)
  : Result Q :=
  (let? d := product_get schema_data "description" (PStr "") in
   let description := py_or d (PStr (meta_description html_data)) in
   let? desc_score := calculate_richness_score description 300 15 in
   let has_brand := truthy (brand schema_data) in
   let? sku := product_get schema_data "sku" PNone in
   let? gtin := product_get schema_data "gtin" PNone in
   let? mpn := product_get schema_data "mpn" PNone in
   let has_sku := truthy (py_or (py_or sku gtin) mpn) in
   let attribute_score := 0 in
   let attribute_score := if has_brand then attribute_score + (75 # 10) else attribute_score in
   let attribute_score := if has_sku then attribute_score + (75 # 10) else attribute_score in
   Ok (desc_score + attribute_score))%result.

Definition _score_image_quality (schema_data : SchemaData) (html_data : HtmlData) : Q :=
  let images := images html_data in
  match images with
  | [] => 0
  | _ =>
      let image_count_score := py_min 10 (Q_of_nat (List.length images) * (25 # 10)) in
      let images_with_alt :=
        List.length (filter (fun img => str_truthy (alt img)) images) in
      let alt_ratio := Q_of_nat images_with_alt / Q_of_nat (List.length images) in
      let alt_score := alt_ratio * 10 in
      image_count_score + alt_score
  end.

Definition spec_keywords : list string :=
  ["specification"; "dimensions"; "weight"; "material";
   "features"; "technical"; "details"; "capacity"; "size"].

Definition _score_technical_specs (html_data : HtmlData) : Q :=
  let text := py_lower (text_content html_data) in
  let spec_mentions :=
    List.length (filter (fun keyword => py_in keyword text) spec_keywords) in
  py_min 10 (Q_of_nat spec_mentions * 2).

Definition analyze (weight : Q) (content : CrawledContent) (parsed_data : ParsedData)
  : Result EngineScore :=
  (let schema_data := schema parsed_data in
   let html_data := html parsed_data in
   let schema_score := _score_schema_completeness schema_data in
   let? richness_score := _score_attribute_richness schema_data html_data in
   let image_score := _score_image_quality schema_data html_data in
   let specs_score := _score_technical_specs html_data in
   let total_score := schema_score + richness_score + image_score + specs_score in
   let? d := product_get schema_data "description" (PStr "") in
   let? description_length := py_len d in
   let details :=
     [ ("schema_completeness_score", PNum schema_score);
       ("attribute_richness_score", PNum richness_score);
       ("image_quality_score", PNum image_score);
       ("technical_specs_score", PNum specs_score);
       ("product_schema_present", PBool (present (product_validation schema_data)));
       ("schema_field_count", PInt (Z.of_nat (field_count (product_validation schema_data))));
       ("description_length", PInt (Z.of_nat description_length));
       ("image_count", PInt (Z.of_nat (List.length (images html_data)))) ] in
   Ok (BaseEngine.create_score name weight (cc_analysis_id content) total_score details))%result.

Definition critical_fields : list string := ["name"; "description"; "image"; "offers"].

Definition identify_gaps (lib : PyLibs) (score : EngineScore) (parsed_data : ParsedData)
  : Result (list Gap) :=
  (let gaps := [] in
   let analysis_id := es_analysis_id score in
   let schema_data := schema parsed_data in
   let gaps :=
     append_if (negb (present (product_validation schema_data)))
       (BaseEngine.create_gap name analysis_id "missing_schema" "critical"
          "Product schema.org markup is missing"
          "Add Product schema.org markup using JSON-LD format to help AI understand product attributes")
       gaps in
   let missing_fields := missing_fields (product_validation schema_data) in
   let gaps :=
     fold_left
       (fun gaps field =>
          append_if (existsb (String.eqb field) missing_fields)
            (BaseEngine.create_gap name analysis_id ("missing_field_" ++ field) "high"
               ("Product schema missing '" ++ field ++ "' field")
               ("Add '" ++ field ++ "' to Product schema for better AI attribute extraction"))
            gaps)
       critical_fields gaps in
   let desc_length := dict_get_default (details score) "description_length" (PInt 0) in
   let? short := py_lt desc_length 100 in
   let gaps :=
     append_if short
       (BaseEngine.create_gap name analysis_id "short_description" "medium"
          ("Product description is too short (" ++ py_str lib desc_length ++ " characters)")
          "Expand product description to at least 300 characters with detailed attributes and benefits")
       gaps in
   let image_count := dict_get_default (details score) "image_count" (PInt 0) in
   let gaps :=
     append_if (py_eq_num image_count 0)
       (BaseEngine.create_gap name analysis_id "no_images" "high"
          "No product images found"
          "Add product images with descriptive alt text")
       gaps in
   Ok gaps)%result.

Definition engine (lib : PyLibs) (weight : Q) : BaseEngine.t :=
  BaseEngine.mk name weight (analyze weight) (identify_gaps lib).

End ADEEngine.


(* ===================================================================== *)
(** * ARCE: AI readability and composability ([arrs/engines/arce/engine.py]) *)
(* ===================================================================== *)

Module ARCEEngine.

Definition name : string := "ARCE".

Definition _score_semantic_html (html_data : HtmlData) : Q :=
  let semantic_count := count_semantic_html_tags html_data in
  let score := py_min 30 (Q_of_nat semantic_count * 3) in
  score.

(** The call of textstat, with its [except Exception: return 0.0]. *)
Definition _calculate_flesch_score (lib : PyLibs) (text : string) : Q :=
  match flesch_reading_ease lib text with
  | Ok f => f
  | Raise _ => 0
  end.

Definition _score_readability (lib : PyLibs) (html_data : HtmlData) : Q :=
  let text := text_content html_data in
  if negb (str_truthy text) || (String.length text <? 100)%nat then 0
  else
    let flesch_score := _calculate_flesch_score lib text in
    if Qle_bool 60 flesch_score then 25
    else if Qle_bool 30 flesch_score then (flesch_score / 60) * 25
    else (flesch_score / 30) * (125 # 10).

Definition _score_heading_hierarchy (html_data : HtmlData) : Q :=
  let validation := heading_validation html_data in
  let score := 0 in
  let score := if has_h1 validation then score + 10 else score in
  let score := if negb (multiple_h1 validation) then score + 10 else score in
  let score :=
    if negb (match skipped_levels validation with [] => false | _ => true end)
    then score + 5 else score in
  score.

Definition _score_metadata (html_data : HtmlData) : Q :=
  let metadata := metadata html_data in
  let score := 0 in
  let score := if str_truthy (title html_data) then score + 5 else score in
  let score := if str_truthy (meta_description html_data) then score + 5 else score in
  let og_tags := filter (fun k => String.prefix "og_" k) (map fst metadata) in
  let score := if (3 <=? List.length og_tags)%nat then score + 5 else score in
  let score :=
    if str_truthy (dict_get_default metadata "canonical_url" "") then score + 5 else score in
  score.

Definition analyze (lib : PyLibs) (weight : Q)
    (content : CrawledContent) (parsed_data : ParsedData) : Result EngineScore :=
  let html_data := html parsed_data in
  let semantic_score := _score_semantic_html html_data in
  let readability_score := _score_readability lib html_data in
  let hierarchy_score := _score_heading_hierarchy html_data in
  let metadata_score := _score_metadata html_data in
  let total_score := semantic_score + readability_score + hierarchy_score + metadata_score in
  let details :=
    [ ("semantic_html_score", PNum semantic_score);
      ("readability_score", PNum readability_score);
      ("heading_hierarchy_score", PNum hierarchy_score);
      ("metadata_score", PNum metadata_score);
      ("semantic_element_count", PInt (Z.of_nat (count_semantic_html_tags html_data)));
      ("flesch_reading_ease", PNum (_calculate_flesch_score lib (text_content html_data)));
      ("has_valid_hierarchy", PBool (valid_hierarchy (heading_validation html_data)));
      ("word_count", PInt (Z.of_nat (word_count html_data))) ] in
  Ok (BaseEngine.create_score name weight (cc_analysis_id content) total_score details).

Definition identify_gaps (lib : PyLibs) (score : EngineScore) (parsed_data : ParsedData)
  : Result (list Gap) :=
  (let gaps := [] in
   let analysis_id := es_analysis_id score in
   let html_data := html parsed_data in
   let semantic_count := count_semantic_html_tags html_data in
   let gaps :=
     append_if (semantic_count <? 5)%nat
       (BaseEngine.create_gap name analysis_id "low_semantic_html" "medium"
          ("Only " ++ str_of_nat semantic_count ++ " semantic HTML elements found")
          "Use semantic HTML5 elements (article, section, header, main) to improve AI content understanding")
       gaps in
   let validation := heading_validation html_data in
   let gaps :=
     append_if (negb (has_h1 validation))
       (BaseEngine.create_gap name analysis_id "missing_h1" "high"
          "Page missing H1 heading"
          "Add a clear H1 heading that describes the page content")
       gaps in
   let gaps :=
     append_if (multiple_h1 validation)
       (BaseEngine.create_gap name analysis_id "multiple_h1" "medium"
          "Page has multiple H1 headings"
          "Use only one H1 heading per page for clear content hierarchy")
       gaps in
   let flesch_score := dict_get_default (details score) "flesch_reading_ease" (PInt 0) in
   let? poor := py_lt flesch_score 30 in
   let gaps :=
     append_if poor
       (BaseEngine.create_gap name analysis_id "poor_readability" "medium"
          ("Content has poor readability (Flesch score: "
             ++ format_1f lib (match py_num flesch_score with Some q => q | None => 0 end)
             ++ ")")
          "Simplify sentences and use clearer language to improve AI comprehension")
       gaps in
   let gaps :=
     append_if (negb (str_truthy (meta_description html_data)))
       (BaseEngine.create_gap name analysis_id "missing_meta_description" "medium"
          "Meta description is missing"
          "Add a meta description (150-160 characters) summarizing the page content")
       gaps in
   Ok gaps)%result.

Definition engine (lib : PyLibs) (weight : Q) : BaseEngine.t :=
  BaseEngine.mk name weight (analyze lib weight) (identify_gaps lib).

End ARCEEngine.

(* ===================================================================== *)
(** * TRE: transaction readiness ([arrs/engines/tre/engine.py]) *)
(* ===================================================================== *)

Module TREEngine.

Definition name : string := "TRE".

Definition buy_keywords : list string :=
  ["add to cart"; "add to bag"; "buy now"; "purchase";
   "checkout"; "order now"; "add to basket"; "buy"].

Definition _detect_buy_button (html_data : HtmlData) : bool :=
  let text := py_lower (text_content html_data) in
  any_keyword buy_keywords text.

(** [offers[0] if isinstance(offers, list) else offers], for truthy
    [offers]. *)
Definition first_offer (offers : pyval) : pyval :=
  match offers with
  | PList (offer :: _) => offer
  | _ => offers
  end.

Definition _score_cta_presence (html_data : HtmlData) (schema_data : SchemaData)
  : Result Q :=
  (let score := 0 in
   let score := if _detect_buy_button html_data then score + 15 else score in
   let offers := offers schema_data in
   let? score :=
     if truthy offers then
       let score := score + 15 in
       let offer := first_offer offers in
       let? price := py_get offer "price" in
       let? complete :=
         if truthy price
         then (let? currency := py_get offer "priceCurrency" in Ok (truthy currency))
         else Ok false in
       Ok (if complete then score + 5 else score)
     else Ok score in
   Ok (py_min 30 score))%result.

Definition is_https (url : string) : bool := String.prefix "https://" url.

Definition policy_keywords : list string :=
  ["return policy"; "returns"; "refund"; "money back"; "guarantee"].

Definition _score_trust_signals (html_data : HtmlData) (schema_data : SchemaData)
    (url : string) : Q :=
  let score := 0 in
  let score := if is_https url then score + 10 else score in
  let score := if has_reviews schema_data then score + 10 else score in
  let text := py_lower (text_content html_data) in
  let score := if any_keyword policy_keywords text then score + 10 else score in
  score.

Definition email_pattern : string :=
  "\b[A-Za-z0-9._%+-]+@[A-Za-z0-9.-]+\.[A-Z|a-z]{2,}\b".

Definition phone_patterns : list string :=
  ["\b\d{3}[-.]?\d{3}[-.]?\d{4}\b";
   "\(\d{3}\)\s*\d{3}[-.]?\d{4}";
   "\+\d{1,3}\s*\d{1,14}"].

Definition _detect_email (lib : PyLibs) (text : string) : bool :=
  re_search lib email_pattern text.

Definition _detect_phone (lib : PyLibs) (text : string) : bool :=
  existsb (fun pattern => re_search lib pattern text) phone_patterns.

Definition address_keywords : list string :=
  ["address"; "contact us"; "location"; "visit us"].

Definition _score_contact_info (lib : PyLibs) (html_data : HtmlData)
    (schema_data : SchemaData) : Q :=
  let text := py_lower (text_content html_data) in
  let score := 0 in
  let score := if _detect_email lib text then score + 7 else score in
  let score := if _detect_phone lib text then score + 7 else score in
  let score := if any_keyword address_keywords text then score + 6 else score in
  score.

Definition payment_keywords : list string :=
  ["visa"; "mastercard"; "paypal"; "payment"; "credit card";
   "debit card"; "apple pay"; "google pay"].

Definition shipping_keywords : list string :=
  ["shipping"; "delivery"; "free shipping"; "ships to"; "ship"; "express delivery"].

Definition _score_payment_shipping_info (html_data : HtmlData)
    (schema_data : SchemaData) : Q :=
  let text := py_lower (text_content html_data) in
  let score := 0 in
  let score := if any_keyword payment_keywords text then score + 10 else score in
  let score := if any_keyword shipping_keywords text then score + 10 else score in
  score.

Definition analyze (lib : PyLibs) (weight : Q)
    (content : CrawledContent) (parsed_data : ParsedData) : Result EngineScore :=
  (let html_data := html parsed_data in
   let schema_data := schema parsed_data in
   let? cta_score := _score_cta_presence html_data schema_data in
   let trust_score := _score_trust_signals html_data schema_data (cc_url content) in
   let contact_score := _score_contact_info lib html_data schema_data in
   let payment_score := _score_payment_shipping_info html_data schema_data in
   let total_score := cta_score + trust_score + contact_score + payment_score in
   let details :=
     [ ("cta_score", PNum cta_score);
       ("trust_score", PNum trust_score);
       ("contact_score", PNum contact_score);
       ("payment_score", PNum payment_score);
       ("buy_button_found", PBool (_detect_buy_button html_data));
       ("has_ssl", PBool (is_https (cc_url content)));
       ("has_reviews", PBool (has_reviews schema_data));
       ("has_offer", PBool (truthy (offers schema_data))) ] in
   Ok (BaseEngine.create_score name weight (cc_analysis_id content) total_score details))%result.

Definition identify_gaps (lib : PyLibs) (score : EngineScore) (parsed_data : ParsedData)
  : Result (list Gap) :=
  let gaps := [] in
  let analysis_id := es_analysis_id score in
  let html_data := html parsed_data in
  let schema_data := schema parsed_data in
  let gaps :=
    append_if (negb (_detect_buy_button html_data))
      (BaseEngine.create_gap name analysis_id "no_buy_button" "critical"
         "No clear call-to-action (buy button/add to cart) detected"
         "Add a prominent 'Add to Cart' or 'Buy Now' button for AI to recognize purchase capability")
      gaps in
  let gaps :=
    append_if (negb (truthy (offers schema_data)))
      (BaseEngine.create_gap name analysis_id "missing_offer_schema" "high"
         "Offer schema missing from Product markup"
         "Add Offer schema with price, currency, and availability information")
      gaps in
  let gaps :=
    append_if (negb (has_reviews schema_data))
      (BaseEngine.create_gap name analysis_id "no_reviews" "medium"
         "No review or rating information found"
         "Add AggregateRating or Review schema to build trust signals")
      gaps in
  let gaps :=
    append_if (negb (truthy (dict_get_default (details score) "has_ssl" PNone)))
      (BaseEngine.create_gap name analysis_id "no_ssl" "critical"
         "Site not using HTTPS (SSL)"
         "Enable HTTPS for secure transactions and improved trust")
      gaps in
  let text := py_lower (text_content html_data) in
  let gaps :=
    append_if (negb (_detect_email lib text) && negb (_detect_phone lib text))
      (BaseEngine.create_gap name analysis_id "no_contact_info" "high"
         "No contact information (email or phone) found"
         "Add visible contact information to build customer trust")
      gaps in
  Ok gaps.

Definition engine (lib : PyLibs) (weight : Q) : BaseEngine.t :=
  BaseEngine.mk name weight (analyze lib weight) (identify_gaps lib).

End TREEngine.


(* ===================================================================== *)
(** * The world of one run: database, collaborators, effects *)
(* ===================================================================== *)

(** The tables of [arrs/storage/database.py], rows in insertion order. *)
Record Db : Type := mkDb {
  tbl_analyses : list Analysis;
  tbl_crawled_pages : list CrawledContent;
  tbl_engine_scores : list EngineScore;
  tbl_simulation_results : list SimulationResult;
  tbl_gaps : list Gap
}.

(** The writes of the repository, each one a place where storage may fail. *)
Inductive RepoCall : Type :=
| CreateAnalysis
| UpdateAnalysisStatus (s : AnalysisStatus)
| UpdateCompositeScore
| SaveCrawledContent
| SaveRawContent
| SaveEngineScore (engine : string)
| SaveSimulationResult
| SaveSimulationData
| SaveGaps.

(** The calls a run makes to its collaborators, in order. *)
Inductive Call : Type :=
| CrawlPrimary
| CrawlFallback
| ParseContent
| Analyze (engine : string)
| IdentifyGaps (engine : string)
| Simulate
| Repo (c : RepoCall).

(** What answers a response of [httpx] or a page load of Playwright. *)
Record HttpResponse : Type := mkHttpResponse {
  final_url : string;
  response_text : string;
  response_status : Z
}.

(** The collaborators of one run. *)
Record Env : Type := mkEnv {
  (** the uuid4 drawn by [create_analysis] *)
  new_id : string;
  (** [httpx] GET followed by [raise_for_status] *)
  httpx_get : string -> Result HttpResponse;
  (** the page load of the headless browser *)
  playwright_goto : string -> Result HttpResponse;
  (** BeautifulSoup and extruct over the markup and its base url *)
  parse_markup : string -> string -> Result Page;
  (** [self.engines], in insertion order *)
  engines : list (string * BaseEngine.t);
  (** [self.simulator]: [simulate_recommendation], if a provider is configured *)
  simulator : option (string -> string -> string -> string -> Result SimulationResult);
  (** the storage failure met by a write, if any *)
  repo_fault : RepoCall -> option string
}.

(** The state a run threads: the database, every database state that was
    committed, and the calls made so far. *)
Record World : Type := mkWorld {
  db : Db;
  history : list Db;
  calls : list Call
}.

(** A computation that reads and writes the world and may raise; what was
    written before an exception stays written. *)
Definition M (A : Type) : Type := World -> Result A * World.

Definition ret {A} (a : A) : M A := fun w => (Ok a, w).

Definition raise {A} (e : string) : M A := fun w => (Raise e, w).

Definition bind {A B} (m : M A) (f : A -> M B) : M B :=
  fun w =>
    match m w with
    | (Ok a, w') => f a w'
    | (Raise e, w') => (Raise e, w')
    end.

(** [try: m  except Exception as e: handler(e)]. *)
Definition try_except {A} (m : M A) (handler : string -> M A) : M A :=
  fun w =>
    match m w with
    | (Ok a, w') => (Ok a, w')
    | (Raise e, w') => handler e w'
    end.

Definition lift {A} (r : Result A) : M A := fun w => (r, w).

Definition call (c : Call) : M unit :=
  fun w => (Ok tt, mkWorld (db w) (history w) (calls w ++ [c])).

Declare Scope m_scope.
Delimit Scope m_scope with M.
Notation "x <- m ;; k" := (bind m (fun x => k))
  (at level 61, m at next level, right associativity) : m_scope.
Notation "m ;; k" := (bind m (fun _ => k))
  (at level 61, right associativity) : m_scope.

(** [for x in l: s = body(x, s)]. *)
Fixpoint for_in {A S} (l : list A) (body : A -> S -> M S) (s : S) : M S :=
  match l with
  | [] => ret s
  | x :: l' => (s' <- body x s ;; for_in l' body s')%M
  end.

(** One [db.execute]/[db.executemany] with its commit. *)
Definition execute (env : Env) (c : RepoCall) (stmt : Db -> Result Db) : M unit :=
  (call (Repo c) ;;
   fun w =>
     match repo_fault env c with
     | Some e => (Raise e, w)
     | None =>
         match stmt (db w) with
         | Ok d => (Ok tt, mkWorld d (history w ++ [d]) (calls w))
         | Raise e => (Raise e, w)
         end
     end)%M.

(** One write of the JSON file store. *)
Definition write_file (env : Env) (c : RepoCall) : M unit :=
  (call (Repo c) ;;
   match repo_fault env c with
   | Some e => raise e
   | None => ret tt
   end)%M.

(* ===================================================================== *)
(** * Repository ([arrs/storage/repository.py]) *)
(* ===================================================================== *)

Module Repository.

Definition set_analyses (d : Db) (rows : list Analysis) : Db :=
  mkDb rows (tbl_crawled_pages d) (tbl_engine_scores d)
       (tbl_simulation_results d) (tbl_gaps d).

(** [INSERT INTO analyses]: [id] is the primary key. *)
Definition insert_analysis (a : Analysis) (d : Db) : Result Db :=
  if existsb (fun r => String.eqb (id r) (id a)) (tbl_analyses d)
  then Raise "UNIQUE constraint failed: analyses.id"
  else Ok (set_analyses d (tbl_analyses d ++ [a])).

(** [UPDATE analyses SET ... WHERE id = ?]. *)
Definition update_analysis (analysis_id : string) (f : Analysis -> Analysis) (d : Db) : Db :=
  set_analyses d
    (map (fun r => if String.eqb (id r) analysis_id then f r else r) (tbl_analyses d)).

Definition create_analysis (env : Env) (url : string) : M Analysis :=
  (let analysis := mkAnalysis (new_id env) url PENDING None None in
   execute env CreateAnalysis (insert_analysis analysis) ;;
   ret analysis)%M.

Definition get_analysis (d : Db) (analysis_id : string) : option Analysis :=
  find (fun r => String.eqb (id r) analysis_id) (tbl_analyses d).

Definition update_analysis_status (env : Env) (analysis_id : string)
    (status : AnalysisStatus) (error_message : option string) : M unit :=
  execute env (UpdateAnalysisStatus status)
    (fun d => Ok (update_analysis analysis_id
                    (fun r => mkAnalysis (id r) (url r) status (composite_score r) error_message)
                    d)).

Definition update_composite_score (env : Env) (analysis_id : string) (score : Q) : M unit :=
  execute env UpdateCompositeScore
    (fun d => Ok (update_analysis analysis_id
                    (fun r => mkAnalysis (id r) (url r) (status r) (Some score) (error_message r))
                    d)).

(** The row of [crawled_pages]: the markup is cut to its first 50000
    characters, the whole of it going to the JSON store. *)
Definition crawled_page_row (content : CrawledContent) : CrawledContent :=
  mkCrawledContent (cc_analysis_id content) (cc_url content)
    (String.substring 0 (50 * 1000) (html_content content))
    (crawl_method content) (status_code content).
Arguments crawled_page_row : simpl never.

Definition save_crawled_content (env : Env) (content : CrawledContent) : M unit :=
  (execute env SaveCrawledContent
     (fun d => Ok (mkDb (tbl_analyses d) (tbl_crawled_pages d ++ [crawled_page_row content])
                        (tbl_engine_scores d) (tbl_simulation_results d) (tbl_gaps d))) ;;
   write_file env SaveRawContent)%M.

Definition save_engine_score (env : Env) (score : EngineScore) : M unit :=
  execute env (SaveEngineScore (engine_name score))
    (fun d => Ok (mkDb (tbl_analyses d) (tbl_crawled_pages d)
                       (tbl_engine_scores d ++ [score])
                       (tbl_simulation_results d) (tbl_gaps d))).

Definition get_engine_scores (d : Db) (analysis_id : string) : list EngineScore :=
  filter (fun s => String.eqb (es_analysis_id s) analysis_id) (tbl_engine_scores d).

Definition save_simulation_result (env : Env) (result : SimulationResult) : M unit :=
  (execute env SaveSimulationResult
     (fun d => Ok (mkDb (tbl_analyses d) (tbl_crawled_pages d) (tbl_engine_scores d)
                        (tbl_simulation_results d ++ [result]) (tbl_gaps d))) ;;
   write_file env SaveSimulationData)%M.

Definition save_gaps (env : Env) (gaps : list Gap) : M unit :=
  match gaps with
  | [] => ret tt
  | _ =>
      execute env SaveGaps
        (fun d => Ok (mkDb (tbl_analyses d) (tbl_crawled_pages d) (tbl_engine_scores d)
                           (tbl_simulation_results d) (tbl_gaps d ++ gaps)))
  end.

(** [SELECT * FROM gaps WHERE analysis_id = ? ORDER BY severity]: the
    [severity] column is TEXT, so [order_by] compares the strings. *)
Definition get_gaps (order_by : (Gap -> string) -> list Gap -> list Gap)
    (d : Db) (analysis_id : string) : list Gap :=
  order_by severity
    (filter (fun g => String.eqb (gap_analysis_id g) analysis_id) (tbl_gaps d)).

(** [SELECT * FROM simulation_results WHERE analysis_id = ? LIMIT 1]: the
    first row of the analysis. *)
Definition get_simulation_result (d : Db) (analysis_id : string) : option SimulationResult :=
  find (fun r => String.eqb (sim_analysis_id r) analysis_id) (tbl_simulation_results d).

End Repository.


(** An [ORDER BY] that keeps equal keys in row order. *)
Fixpoint insert_sorted {A} (le : A -> A -> bool) (x : A) (l : list A) : list A :=
  match l with
  | [] => [x]
  | y :: l' => if le y x then y :: insert_sorted le x l' else x :: l
  end.

(** A stable sort: each element goes behind those that are not greater. *)
Definition stable_sort {A} (le : A -> A -> bool) (l : list A) : list A :=
  fold_left (fun acc x => insert_sorted le x acc) l [].

Definition order_by_text (key : Gap -> string) (rows : list Gap) : list Gap :=
  stable_sort (fun a b => String.leb (key a) (key b)) rows.


(* ===================================================================== *)
(** * Crawlers ([arrs/crawlers]) *)
(* ===================================================================== *)

Module BeautifulSoupCrawler.

Definition crawl (env : Env) (url analysis_id : string) : Result CrawledContent :=
  (let? response := httpx_get env url in
   Ok {| cc_analysis_id := analysis_id;
         cc_url := final_url response;
         html_content := response_text response;
         crawl_method := "beautifulsoup";
         status_code := response_status response |})%result.

End BeautifulSoupCrawler.

Module PlaywrightCrawler.

Definition crawl (env : Env) (url analysis_id : string) : Result CrawledContent :=
  (let? response := playwright_goto env url in
   Ok {| cc_analysis_id := analysis_id;
         cc_url := final_url response;
         html_content := response_text response;
         crawl_method := "playwright";
         status_code := response_status response |})%result.

End PlaywrightCrawler.

(* ===================================================================== *)
(** * AI simulation ([arrs/simulation]) *)
(* ===================================================================== *)

(** ** Searching and trimming strings *)

(** [hay.count(needle)]: the occurrences of [needle] from the left that do
    not overlap; [skip] characters are still covered by the occurrence
    found last. The empty string occurs before every character and at
    the end. *)
Fixpoint count_from (needle hay : string) (skip : nat) : nat :=
  match skip with
  | S skip' =>
      match hay with
      | EmptyString => 0
      | String _ hay' => count_from needle hay' skip'
      end
  | O =>
      if String.prefix needle hay then
        S (match hay with
           | EmptyString => 0
           | String _ hay' => count_from needle hay' (String.length needle - 1)
           end)
      else
        match hay with
        | EmptyString => 0
        | String _ hay' => count_from needle hay' 0
        end
  end%nat.

Definition py_count (hay needle : string) : nat := count_from needle hay 0.

(** The start positions of [pattern.finditer(hay)] for a pattern that
    matches [needle] literally: the same occurrences, by position. *)
Fixpoint finditer_from (needle hay : string) (pos skip : nat) : list nat :=
  match skip with
  | S skip' =>
      match hay with
      | EmptyString => []
      | String _ hay' => finditer_from needle hay' (S pos) skip'
      end
  | O =>
      if String.prefix needle hay then
        pos :: match hay with
               | EmptyString => []
               | String _ hay' =>
                   finditer_from needle hay' (S pos) (String.length needle - 1)
               end
      else
        match hay with
        | EmptyString => []
        | String _ hay' => finditer_from needle hay' (S pos) 0
        end
  end%nat.

(** [re.compile(re.escape(needle), re.IGNORECASE).finditer(hay)], as start
    positions; letters are compared as [lower] compares them. *)
Definition finditer_ignorecase (needle hay : string) : list nat :=
  finditer_from (py_lower needle) (py_lower hay) 0 0.

(** The characters [strip] removes: space, tab, line feed, vertical tab,
    form feed, carriage return and the four separators from 28 to 31. *)
Definition is_space (c : ascii) : bool :=
  let n := nat_of_ascii c in
  ((9 <=? n) && (n <=? 13) || (28 <=? n) && (n <=? 32))%nat.

Fixpoint py_lstrip (s : string) : string :=
  match s with
  | EmptyString => EmptyString
  | String c s' => if is_space c then py_lstrip s' else s
  end.

Fixpoint py_rstrip (s : string) : string :=
  match s with
  | EmptyString => EmptyString
  | String c s' =>
      match py_rstrip s' with
      | EmptyString => if is_space c then EmptyString else String c EmptyString
      | r => String c r
      end
  end.

(** [s.strip()]. *)
Definition py_strip (s : string) : string := py_rstrip (py_lstrip s).

(** [s[start:stop]] for indices that are not negative. *)
Definition py_slice (s : string) (start stop : nat) : string :=
  String.substring start (stop - start) s.

(** The line feed of a multi-line literal. *)
Definition nl : string := String (ascii_of_nat 10) EmptyString.

(** ** Prompt templates ([prompt_templates.py]) *)

Definition get_recommendation_prompt (product_category use_case : string) : string :=
  "You are helping a customer find the best " ++ product_category ++ " for " ++ use_case ++ "." ++ nl
  ++ nl
  ++ "Based on your knowledge, recommend specific brands and products that would be best for this use case." ++ nl
  ++ "Explain why you're recommending them and what attributes make them suitable." ++ nl
  ++ nl
  ++ "Use case: " ++ use_case ++ nl
  ++ "Product category: " ++ product_category ++ nl
  ++ nl
  ++ "Please provide 3-5 specific recommendations with detailed reasoning about:" ++ nl
  ++ "- Why each product is suitable for this use case" ++ nl
  ++ "- Key features and attributes that matter" ++ nl
  ++ "- Any important considerations" ++ nl
  ++ nl
  ++ "Be specific with brand names and product models when possible.".

Definition get_attribute_extraction_prompt (brand product_category : string) : string :=
  "What are the most important attributes and information you would need to know about" ++ nl
  ++ brand ++ "'s " ++ product_category ++ " in order to confidently recommend them to customers?" ++ nl
  ++ nl
  ++ "Please list:" ++ nl
  ++ "1. Essential product attributes (e.g., specifications, features)" ++ nl
  ++ "2. Trust signals (e.g., reviews, certifications)" ++ nl
  ++ "3. Purchase information (e.g., pricing, availability)" ++ nl
  ++ "4. Any other information that would help you make a recommendation" ++ nl
  ++ nl
  ++ "Be specific and prioritize the attributes by importance.".

(** ** Citation analysis ([citation_analyzer.py]) *)

Module CitationAnalyzer.

(** The dict [analyze_citation] returns. *)
Record Citation : Type := mkCitation {
  cited : bool;
  count : nat;
  contexts : list string;
  sentiment : string
}.

Definition _extract_contexts (response brand : string) (context_window : nat)
  : list string :=
  map (fun match_start =>
         let match_end := (match_start + String.length brand)%nat in
         let start := (match_start - context_window)%nat in
         let stop := Nat.min (String.length response) (match_end + context_window) in
         let context := py_slice response start stop in
         py_strip context)
      (finditer_ignorecase brand response).

Definition positive_keywords : list string :=
  ["recommend"; "best"; "excellent"; "great"; "top"; "leading";
   "popular"; "trusted"; "reliable"; "quality"; "premium"].

Definition negative_keywords : list string :=
  ["not recommend"; "avoid"; "poor"; "lacking"; "missing";
   "insufficient"; "weak"; "limited"; "concerns"].

(** The keywords of [keywords] that occur in [context_lower], added to
    [score]. *)
Definition add_keyword_hits (keywords : list string) (context_lower : string)
    (score : nat) : nat :=
  fold_left (fun score keyword => if py_in keyword context_lower then (score + 1)%nat else score)
            keywords score.

Definition _analyze_sentiment (contexts : list string) : string :=
  let '(positive_score, negative_score) :=
    fold_left
      (fun '(positive_score, negative_score) context =>
         let context_lower := py_lower context in
         (add_keyword_hits positive_keywords context_lower positive_score,
          add_keyword_hits negative_keywords context_lower negative_score))
      contexts (0%nat, 0%nat) in
  if (negative_score <? positive_score)%nat then "positive"
  else if (positive_score <? negative_score)%nat then "negative"
  else "neutral".

Definition analyze_citation (response brand : string) : Citation :=
  let brand_lower := py_lower brand in
  let response_lower := py_lower response in
  let citation_count := py_count response_lower brand_lower in
  let cited := (0 <? citation_count)%nat in
  let contexts := if cited then _extract_contexts response brand 100 else [] in
  let sentiment :=
    match contexts with
    | [] => "neutral"
    | _ => _analyze_sentiment contexts
    end in
  {| cited := cited;
     count := citation_count;
     contexts := contexts;
     sentiment := sentiment |}.

End CitationAnalyzer.

(** ** The simulators *)

(** What a simulator reaches outside the repository: the model answering
    a prompt, and [CitationAnalyzer.extract_important_attributes], whose
    regular expressions and [set] are taken as they are. *)
Record Backend : Type := mkBackend {
  (** [_query_claude], [_query_ollama] *)
  query : string -> Result string;
  extract_important_attributes : string -> list string
}.

Module ClaudeSimulator.

Definition _identify_missing_signals (backend : Backend)
    (brand product_category recommendation_response : string) : list string :=
  let prompt := get_attribute_extraction_prompt brand product_category in
  match query backend prompt with
  | Ok response => extract_important_attributes backend response
  | Raise _ => []
  end.

Definition simulate_recommendation (backend : Backend)
    (analysis_id brand product_category use_case : string) : Result SimulationResult :=
  (let prompt := get_recommendation_prompt product_category use_case in
   let? response := query backend prompt in
   let citation_analysis := CitationAnalyzer.analyze_citation response brand in
   let missing_signals :=
     _identify_missing_signals backend brand product_category response in
   Ok {| sim_analysis_id := analysis_id;
         prompt := prompt;
         response := response;
         brand_cited := CitationAnalyzer.cited citation_analysis;
         citation_count := CitationAnalyzer.count citation_analysis;
         missing_signals := missing_signals |})%result.

End ClaudeSimulator.

Module OllamaSimulator.

Definition _identify_missing_signals (backend : Backend)
    (brand product_category recommendation_response : string) : list string :=
  let prompt := get_attribute_extraction_prompt brand product_category in
  match query backend prompt with
  | Ok response => extract_important_attributes backend response
  | Raise _ => []
  end.

Definition _create_fallback_result (analysis_id brand prompt error : string)
  : SimulationResult :=
  {| sim_analysis_id := analysis_id;
     prompt := prompt;
     response := "[Ollama not available: " ++ error ++ "]";
     brand_cited := false;
     citation_count := 0;
     missing_signals := [] |}.

Definition simulate_recommendation (backend : Backend)
    (analysis_id brand product_category use_case : string) : Result SimulationResult :=
  let prompt := get_recommendation_prompt product_category use_case in
  match query backend prompt with
  | Raise e => Ok (_create_fallback_result analysis_id brand prompt e)
  | Ok response =>
      let citation_analysis := CitationAnalyzer.analyze_citation response brand in
      let missing_signals :=
        _identify_missing_signals backend brand product_category response in
      Ok {| sim_analysis_id := analysis_id;
            prompt := prompt;
            response := response;
            brand_cited := CitationAnalyzer.cited citation_analysis;
            citation_count := CitationAnalyzer.count citation_analysis;
            missing_signals := missing_signals |}
  end.

End OllamaSimulator.

Module OpenAISimulator.

(** What the simulator reaches outside the repository: the chat
    completion for a prompt (with the fixed system message; the content of
    the first choice), [str] of the parsed content, and the text of the
    [TypeError] Python raises for a call with keywords the callee does not
    take. *)
Record Client : Type := mkClient {
  completion : string -> Result string;
  str_of_content : pydict -> string;
  unexpected_keyword : string
}.

Definition upper_ascii (c : ascii) : ascii :=
  let n := nat_of_ascii c in
  if andb (Nat.leb 97 n) (Nat.leb n 122) then ascii_of_nat (n - 32)%nat else c.

Definition is_cased (c : ascii) : bool :=
  let n := nat_of_ascii c in
  (andb (Nat.leb 65 n) (Nat.leb n 90) || andb (Nat.leb 97 n) (Nat.leb n 122))%bool.

(** [s.title()], on ASCII letters: a letter after a letter is lowered, any
    other letter is raised. *)
Fixpoint title_from (previous_is_cased : bool) (s : string) : string :=
  match s with
  | EmptyString => EmptyString
  | String c s' =>
      String (if previous_is_cased then lower_ascii c else upper_ascii c)
             (title_from (is_cased c) s')
  end.

Definition py_title (s : string) : string := title_from false s.

(** [s.replace(old, new)] for one character [old]. *)
Fixpoint py_replace (old : ascii) (new : string) (s : string) : string :=
  match s with
  | EmptyString => EmptyString
  | String c s' =>
      if Ascii.eqb c old then (new ++ py_replace old new s')%string
      else String c (py_replace old new s')
  end.

Definition signals : list (string * list string) :=
  [ ("warranty", ["warranty"; "guarantee"]);
    ("return_policy", ["return policy"; "returns"; "refund"]);
    ("reviews", ["reviews"; "ratings"; "customer feedback"]);
    ("specifications", ["specs"; "specifications"; "technical details"]);
    ("size_guide", ["size guide"; "sizing"; "fit guide"]);
    ("shipping", ["shipping"; "delivery"; "freight"]);
    ("price", ["price"; "cost"; "$"]);
    ("availability", ["in stock"; "available"; "availability"]) ].

Definition _identify_missing_signals (client : Client) (response : string)
    (parsed_content : pydict) : list string :=
  fold_left
    (fun missing '(signal_name, keywords) =>
       let mentioned_in_response :=
         existsb (fun keyword => py_in (py_lower keyword) (py_lower response)) keywords in
       if mentioned_in_response then
         let content_str := py_lower (str_of_content client parsed_content) in
         let found_in_content :=
           existsb (fun keyword => py_in (py_lower keyword) content_str) keywords in
         if negb found_in_content
         then (missing ++ [py_title (py_replace "_" " " signal_name)])%list
         else missing
       else missing)
    signals [].

(** The body of the [try] of [simulate_recommendation]; [repository] tells
    whether the simulator was constructed with one. Its call of
    [save_simulation_result] passes keywords, which the method does not
    take. *)
Definition attempt (client : Client) (model : string) (repository : bool)
    (analysis_id brand product_category use_case : string)
    (parsed_content : option pydict) : Result pydict :=
  (let prompt := get_recommendation_prompt product_category use_case in
   let? response_text := completion client prompt in
   let citation_analysis := CitationAnalyzer.analyze_citation response_text brand in
   let missing_signals :=
     _identify_missing_signals client response_text
       (match parsed_content with Some c => c | None => [] end) in
   let result :=
     [ ("brand_cited", PBool (CitationAnalyzer.cited citation_analysis));
       ("citation_count", PInt (Z.of_nat (CitationAnalyzer.count citation_analysis)));
       ("missing_signals", PList (map PStr missing_signals));
       ("prompt", PStr prompt);
       ("response", PStr response_text);
       ("model", PStr model) ] in
   let? _ := if repository then Raise (unexpected_keyword client) else Ok tt in
   Ok result)%result.

Definition skipped : pydict :=
  [ ("brand_cited", PBool false);
    ("citation_count", PInt 0);
    ("missing_signals", PList []);
    ("prompt", PStr "");
    ("response", PStr "Simulation skipped - missing brand, category, or use case") ].

(** [prompt] is bound before anything in the [try] can raise, so the
    handler finds it in [locals()]. *)
Definition simulate_recommendation (client : Client) (model : string) (repository : bool)
    (analysis_id : string) (brand product_category use_case : option string)
    (parsed_content : option pydict) : pydict :=
  match brand, product_category, use_case with
  | Some brand, Some product_category, Some use_case =>
      if negb (str_truthy brand) || negb (str_truthy product_category)
         || negb (str_truthy use_case) then skipped
      else
        match attempt client model repository analysis_id brand product_category use_case
                parsed_content with
        | Ok result => result
        | Raise e =>
            [ ("brand_cited", PBool false);
              ("citation_count", PInt 0);
              ("missing_signals", PList []);
              ("prompt", PStr (get_recommendation_prompt product_category use_case));
              ("response", PStr ("Error: " ++ e));
              ("error", PStr e) ]
        end
  | _, _, _ => skipped
  end.

End OpenAISimulator.

(* ===================================================================== *)
(** * Settings ([config.py]) *)
(* ===================================================================== *)

(** The settings the orchestrator reads when it is constructed. *)
Record Settings : Type := mkSettings {
  anthropic_api_key : option string;
  openai_api_key : option string;
  weight_ade : Q;
  weight_arce : Q;
  weight_tre : Q;
  llm_provider : string;
  ollama_base_url : string;
  ollama_model : string;
  openai_model : string
}.

(** [Settings()] where the environment sets nothing. *)
Definition default_settings : Settings :=
  {| anthropic_api_key := None;
     openai_api_key := None;
     weight_ade := 30 # 100;
     weight_arce := 20 # 100;
     weight_tre := 20 # 100;
     llm_provider := "openai";
     ollama_base_url := "http://localhost:11434";
     ollama_model := "llama2";
     openai_model := "gpt-4" |}.

(* ===================================================================== *)
(** * Orchestrator ([arrs/core/orchestrator.py]) *)
(* ===================================================================== *)

Module AnalysisOrchestrator.

(** The engines registered by [__init__], with the configured weights. *)
Definition default_engines (lib : PyLibs) (weight_ade weight_arce weight_tre : Q)
  : list (string * BaseEngine.t) :=
  [ ("ADE", ADEEngine.engine lib weight_ade);
    ("ARCE", ARCEEngine.engine lib weight_arce);
    ("TRE", TREEngine.engine lib weight_tre) ].

Definition _crawl_url (env : Env) (url analysis_id : string) : M CrawledContent :=
  try_except
    (call CrawlPrimary ;; lift (BeautifulSoupCrawler.crawl env url analysis_id))%M
    (fun e =>
       try_except
         (call CrawlFallback ;; lift (PlaywrightCrawler.crawl env url analysis_id))%M
         (fun playwright_error =>
            raise ("Failed to crawl " ++ url ++ ": " ++ playwright_error))).

Definition _parse_content (env : Env) (content : CrawledContent) : M ParsedData :=
  (call ParseContent ;;
   pg <- lift (parse_markup env (html_content content) (cc_url content)) ;;
   ret (assemble_parsed_data pg))%M.

Definition _run_engines (env : Env) (content : CrawledContent) (parsed_data : ParsedData)
  : M (list EngineScore) :=
  for_in (engines env)
    (fun '(engine_name, engine) scores =>
       try_except
         (call (Analyze engine_name) ;;
          score <- lift (BaseEngine.analyze engine content parsed_data) ;;
          ret (scores ++ [score])%list)%M
         (fun e => ret scores))
    [].

Definition _calculate_composite_score (engine_scores : list EngineScore) : Q :=
  let total_weight := py_sum (map (fun s => weight s) engine_scores) in
  if Qeq_bool total_weight 0 then 0
  else
    let weighted_sum := py_sum (map (fun s => score s * weight s) engine_scores) in
    let composite := weighted_sum / total_weight in
    py_round2 composite.

Definition _run_simulation (env : Env)
    (simulate : string -> string -> string -> string -> Result SimulationResult)
    (analysis_id brand product_category use_case : string) : M SimulationResult :=
  try_except
    (call Simulate ;; lift (simulate analysis_id brand product_category use_case))%M
    (fun e => raise ("AI simulation failed: " ++ e)).

Definition _extract_simulation_gaps (analysis_id : string)
    (simulation_result : SimulationResult) (parsed_data : ParsedData) : list Gap :=
  let gaps := [] in
  let gaps :=
    append_if (negb (brand_cited simulation_result))
      {| gap_analysis_id := analysis_id;
         gap_type := "not_cited_by_ai";
         severity := "critical";
         description := "Brand was not mentioned in AI recommendation";
         recommendation := "Improve product attributes, trust signals, and content clarity to increase AI citation likelihood";
         engine_source := "AI_SIMULATION" |}
      gaps in
  fold_left
    (fun gaps signal =>
       app gaps
         [ {| gap_analysis_id := analysis_id;
              gap_type := "missing_attribute";
              severity := "medium";
              description := "AI values this attribute but it may be missing: " ++ signal;
              recommendation := "Add or enhance information about: " ++ signal;
              engine_source := "AI_SIMULATION" |} ])
    (missing_signals simulation_result) gaps.

(** Step 7: the gaps of every engine that scored. *)
Definition identify_engine_gaps (env : Env) (engine_scores : list EngineScore)
    (parsed_data : ParsedData) : M (list Gap) :=
  for_in engine_scores
    (fun score all_gaps =>
       let engine_name := engine_name score in
       match dict_get (engines env) engine_name with
       | Some engine =>
           (call (IdentifyGaps engine_name) ;;
            gaps <- lift (BaseEngine.identify_gaps engine score parsed_data) ;;
            ret (all_gaps ++ gaps)%list)%M
       | None => ret all_gaps
       end)
    [].

(** The condition of step 8:
    [self.simulator and brand and product_category and use_case]. *)
Definition simulation_enabled (env : Env) (brand product_category use_case : option string)
  : bool :=
  match simulator env with Some _ => true | None => false end
  && opt_truthy brand && opt_truthy product_category && opt_truthy use_case.

Definition opt_str (o : option string) : string :=
  match o with Some s => s | None => "" end.

(** Step 8: the simulation and its gaps, inside their own [try]. *)
Definition simulation_step (env : Env) (analysis_id : string)
    (brand product_category use_case : option string)
    (parsed_data : ParsedData) (all_gaps : list Gap) : M (list Gap) :=
  match simulator env with
  | Some simulate =>
      if opt_truthy brand && opt_truthy product_category && opt_truthy use_case then
        try_except
          (simulation_result <-
             _run_simulation env simulate analysis_id
               (opt_str brand) (opt_str product_category) (opt_str use_case) ;;
           Repository.save_simulation_result env simulation_result ;;
           let simulation_gaps :=
             _extract_simulation_gaps analysis_id simulation_result parsed_data in
           ret (all_gaps ++ simulation_gaps)%list)%M
          (fun e => ret all_gaps)
      else ret all_gaps
  | None => ret all_gaps
  end.

(** Steps 2 to 10, the body of the [try] of [analyze_url]. *)
Definition pipeline (env : Env) (url : string)
    (brand product_category use_case : option string) (analysis : Analysis) : M string :=
  (Repository.update_analysis_status env (id analysis) PROCESSING None ;;
   crawled_content <- _crawl_url env url (id analysis) ;;
   Repository.save_crawled_content env crawled_content ;;
   parsed_data <- _parse_content env crawled_content ;;
   engine_scores <- _run_engines env crawled_content parsed_data ;;
   for_in engine_scores (fun score _ => Repository.save_engine_score env score) tt ;;
   let composite_score := _calculate_composite_score engine_scores in
   Repository.update_composite_score env (id analysis) composite_score ;;
   all_gaps <- identify_engine_gaps env engine_scores parsed_data ;;
   all_gaps <- simulation_step env (id analysis) brand product_category use_case
                 parsed_data all_gaps ;;
   Repository.save_gaps env all_gaps ;;
   Repository.update_analysis_status env (id analysis) COMPLETED None ;;
   ret (id analysis))%M.

Definition analyze_url (env : Env) (url : string)
    (brand product_category use_case : option string) : M string :=
  (analysis <- Repository.create_analysis env url ;;
   try_except
     (pipeline env url brand product_category use_case analysis)
     (fun e =>
        Repository.update_analysis_status env (id analysis) FAILED (Some e) ;;
        raise e))%M.

(** The simulator [__init__] constructs. *)
Inductive SimulatorChoice : Type :=
| UseOpenAI (api_key model : string)
| UseClaude (api_key : string)
| UseOllama (base_url model : string).

(** The choice of [__init__] among the providers; [None] is
    [self.simulator = None]. *)
Definition choose_simulator (settings : Settings) : option SimulatorChoice :=
  if String.eqb (llm_provider settings) "openai" && opt_truthy (openai_api_key settings) then
    Some (UseOpenAI (opt_str (openai_api_key settings)) (openai_model settings))
  else if String.eqb (llm_provider settings) "claude"
          && opt_truthy (anthropic_api_key settings) then
    Some (UseClaude (opt_str (anthropic_api_key settings)))
  else if String.eqb (llm_provider settings) "ollama" then
    Some (UseOllama (ollama_base_url settings) (ollama_model settings))
  else None.

(** The engines and the simulator as [__init__] sets them up, within the
    collaborators of [env]; [simulate] is [simulate_recommendation] of the
    simulator constructed. *)
Definition __init__ (settings : Settings) (lib : PyLibs)
    (simulate : SimulatorChoice ->
                string -> string -> string -> string -> Result SimulationResult)
    (env : Env) : Env :=
  {| new_id := new_id env;
     httpx_get := httpx_get env;
     playwright_goto := playwright_goto env;
     parse_markup := parse_markup env;
     engines := default_engines lib (weight_ade settings) (weight_arce settings)
                  (weight_tre settings);
     simulator := option_map simulate (choose_simulator settings);
     repo_fault := repo_fault env |}.

(** An entry of ["engine_scores"] in the summary. *)
Record ScoreSummary : Type := mkScoreSummary {
  ss_score : Q;
  ss_weight : Q;
  ss_details : pydict
}.

(** An entry of ["gaps"] in the summary. *)
Record GapSummary : Type := mkGapSummary {
  gs_type : string;
  gs_severity : string;
  gs_description : string;
  gs_recommendation : string;
  gs_source : string
}.

(** ["simulation"] in the summary. *)
Record SimulationSummary : Type := mkSimulationSummary {
  sim_brand_cited : bool;
  sim_citation_count : nat;
  sim_response_preview : option string
}.

(** The dict of [get_analysis_summary]; [created_at] is left out. *)
Record Summary : Type := mkSummary {
  sum_analysis_id : string;
  sum_url : string;
  sum_status : string;
  sum_composite_score : option Q;
  sum_engine_scores : list (string * ScoreSummary);
  sum_gaps : list GapSummary;
  sum_simulation : option SimulationSummary
}.

Definition get_analysis_summary (order_by : (Gap -> string) -> list Gap -> list Gap)
    (d : Db) (analysis_id : string) : option Summary :=
  match Repository.get_analysis d analysis_id with
  | None => None
  | Some analysis =>
      let engine_scores := Repository.get_engine_scores d analysis_id in
      let gaps := Repository.get_gaps order_by d analysis_id in
      let simulation := Repository.get_simulation_result d analysis_id in
      Some
        {| sum_analysis_id := id analysis;
           sum_url := url analysis;
           sum_status := status_value (status analysis);
           sum_composite_score := composite_score analysis;
           sum_engine_scores :=
             fold_left
               (fun summary s =>
                  dict_set summary (engine_name s)
                    {| ss_score := score s;
                       ss_weight := weight s;
                       ss_details := details s |})
               engine_scores [];
           sum_gaps :=
             map (fun gap =>
                    {| gs_type := gap_type gap;
                       gs_severity := severity gap;
                       gs_description := description gap;
                       gs_recommendation := recommendation gap;
                       gs_source := engine_source gap |})
                 gaps;
           sum_simulation :=
             match simulation with
             | Some simulation =>
                 Some {| sim_brand_cited := brand_cited simulation;
                         sim_citation_count := citation_count simulation;
                         sim_response_preview :=
                           if str_truthy (response simulation)
                           then Some (py_slice (response simulation) 0 200 ++ "...")
                           else None |}
             | None => None
             end |}
  end.

End AnalysisOrchestrator.

(** ** Step 8 for a simulator of either result type

    [simulate_recommendation] of the Claude and Ollama simulators returns
    a [SimulationResult], that of the OpenAI simulator a dict. The
    orchestrator reads attributes of whatever it gets. *)
Inductive SimulationOutput : Type :=
| ResultObject (r : SimulationResult)
| ResultDict (d : pydict).

Module Untyped.

(** [Repository.save_simulation_result]: the row is built from
    [result.id] onwards before the statement is executed. *)
Definition save_simulation_result (env : Env) (result : SimulationOutput) : M unit :=
  match result with
  | ResultObject r => Repository.save_simulation_result env r
  | ResultDict _ => raise "'dict' object has no attribute 'id'"
  end.

(** [_extract_simulation_gaps] starts with [simulation_result.brand_cited]. *)
Definition _extract_simulation_gaps (analysis_id : string)
    (simulation_result : SimulationOutput) (parsed_data : ParsedData) : Result (list Gap) :=
  match simulation_result with
  | ResultObject r =>
      Ok (AnalysisOrchestrator._extract_simulation_gaps analysis_id r parsed_data)
  | ResultDict _ => Raise "'dict' object has no attribute 'brand_cited'"
  end.

Definition _run_simulation (env : Env)
    (simulate : string -> string -> string -> string -> Result SimulationOutput)
    (analysis_id brand product_category use_case : string) : M SimulationOutput :=
  try_except
    (call Simulate ;; lift (simulate analysis_id brand product_category use_case))%M
    (fun e => raise ("AI simulation failed: " ++ e)).

Definition simulation_step (env : Env)
    (simulator : option (string -> string -> string -> string -> Result SimulationOutput))
    (analysis_id : string) (brand product_category use_case : option string)
    (parsed_data : ParsedData) (all_gaps : list Gap) : M (list Gap) :=
  match simulator with
  | Some simulate =>
      if opt_truthy brand && opt_truthy product_category && opt_truthy use_case then
        try_except
          (simulation_result <-
             _run_simulation env simulate analysis_id
               (AnalysisOrchestrator.opt_str brand)
               (AnalysisOrchestrator.opt_str product_category)
               (AnalysisOrchestrator.opt_str use_case) ;;
           save_simulation_result env simulation_result ;;
           simulation_gaps <-
             lift (_extract_simulation_gaps analysis_id simulation_result parsed_data) ;;
           ret (all_gaps ++ simulation_gaps)%list)%M
          (fun e => ret all_gaps)
      else ret all_gaps
  | None => ret all_gaps
  end.

(** The simulators as the orchestrator calls them: four positional
    arguments. *)
Definition typed (simulate : string -> string -> string -> string -> Result SimulationResult)
  : string -> string -> string -> string -> Result SimulationOutput :=
  fun analysis_id brand product_category use_case =>
    match simulate analysis_id brand product_category use_case with
    | Ok r => Ok (ResultObject r)
    | Raise e => Raise e
    end.

Definition openai (client : OpenAISimulator.Client) (model : string)
  : string -> string -> string -> string -> Result SimulationOutput :=
  fun analysis_id brand product_category use_case =>
    Ok (ResultDict
          (OpenAISimulator.simulate_recommendation client model true analysis_id
             (Some brand) (Some product_category) (Some use_case) None)).

End Untyped.

(* ===================================================================== *)
(** * Report generator ([arrs/reporting/report_generator.py]) *)
(* ===================================================================== *)

Module ReportGenerator.

Record Recommendation : Type := mkRecommendation {
  priority : nat;
  rec_severity : string;
  issue : string;
  action : string;
  impact : string
}.

Definition severity_order : list (string * nat) :=
  [("critical", 0); ("high", 1); ("medium", 2); ("low", 3)]%nat.

(** [severity_order.get(g.severity, 99)]. *)
Definition severity_rank (g : Gap) : nat :=
  dict_get_default severity_order (severity g) 99%nat.

(** [sorted(gaps, key=...)]: a stable sort. *)
Definition sorted_gaps (gaps : list Gap) : list Gap :=
  stable_sort (fun a b => (severity_rank a <=? severity_rank b)%nat) gaps.

(** [enumerate(l)], from [idx]. *)
Fixpoint enumerate {A} (idx : nat) (l : list A) : list (nat * A) :=
  match l with
  | [] => []
  | x :: l' => (idx, x) :: enumerate (S idx) l'
  end.

Definition _prioritize_recommendations (gaps : list Gap) : list Recommendation :=
  map (fun '(idx, gap) =>
         {| priority := idx + 1;
            rec_severity := severity gap;
            issue := description gap;
            action := recommendation gap;
            impact := if existsb (String.eqb (severity gap)) ["critical"; "high"]
                      then "High" else "Medium" |})
      (enumerate 0 (firstn 10 (sorted_gaps gaps))).

(** An entry of [_format_engine_scores]. *)
Record FormattedScore : Type := mkFormattedScore {
  fs_score : Q;
  fs_weight : Q;
  fs_grade : string;
  fs_details : pydict
}.

(** An entry of [_format_gaps]. *)
Record FormattedGap : Type := mkFormattedGap {
  fg_type : string;
  fg_severity : string;
  fg_description : string;
  fg_recommendation : string;
  fg_engine_source : string
}.

(** The dict of [_format_simulation]; [metadata] is left out. *)
Record FormattedSimulation : Type := mkFormattedSimulation {
  fsim_brand_cited : bool;
  fsim_citation_count : nat;
  fsim_missing_signals : list string;
  fsim_prompt : string;
  fsim_response : string
}.

(** The dict of [_generate_summary]. *)
Record ExecutiveSummary : Type := mkExecutiveSummary {
  ex_composite_score : Q;
  ex_grade : string;
  ex_interpretation : string;
  ex_strengths : list string;
  ex_weaknesses : list string;
  ex_total_gaps : nat;
  ex_gaps_by_severity : list (string * nat);
  ex_ai_citation_status : string;
  ex_readiness_for_ai_commerce : string
}.

(** The dict of [generate_report]; [timestamp] is left out. *)
Record Report : Type := mkReport {
  rp_analysis_id : string;
  rp_url : string;
  rp_status : string;
  rp_composite_score : option Q;
  rp_grade : string;
  rp_engine_scores : list (string * FormattedScore);
  rp_gaps : list FormattedGap;
  rp_summary : ExecutiveSummary;
  rp_simulation_results : option FormattedSimulation;
  rp_recommendations : list Recommendation
}.

Definition _score_to_grade (score : Q) : string :=
  if Qle_bool 90 score then "A"
  else if Qle_bool 80 score then "B"
  else if Qle_bool 70 score then "C"
  else if Qle_bool 60 score then "D"
  else "F".

Definition _interpret_score (score : Q) : string :=
  if Qle_bool 90 score then "Excellent - Highly optimized for AI recommendations"
  else if Qle_bool 80 score then "Very Good - Well-positioned for AI citations"
  else if Qle_bool 70 score then "Good - Decent AI readability with room for improvement"
  else if Qle_bool 60 score then "Fair - Moderate AI understanding, needs optimization"
  else if Qle_bool 50 score then "Poor - Limited AI comprehension, significant gaps"
  else "Critical - Major barriers to AI recommendations".

Definition _assess_ai_readiness (score : Q) (simulation : option SimulationResult) : string :=
  match simulation with
  | None => "Not tested"
  | Some simulation =>
      if Qle_bool 80 score && brand_cited simulation then
        "Ready - High confidence for AI-led transactions"
      else if Qle_bool 70 score && brand_cited simulation then
        "Mostly Ready - Good foundation with minor improvements needed"
      else if Qle_bool 60 score then
        "Partially Ready - Needs optimization for reliable AI recommendations"
      else
        "Not Ready - Significant improvements required"
  end.

Definition _format_engine_scores (scores : list EngineScore)
  : list (string * FormattedScore) :=
  fold_left
    (fun formatted s =>
       dict_set formatted (engine_name s)
         {| fs_score := py_round2 (score s);
            fs_weight := weight s;
            fs_grade := _score_to_grade (score s);
            fs_details := details s |})
    scores [].

Definition _format_gaps (gaps : list Gap) : list FormattedGap :=
  map (fun gap =>
         {| fg_type := gap_type gap;
            fg_severity := severity gap;
            fg_description := description gap;
            fg_recommendation := recommendation gap;
            fg_engine_source := engine_source gap |})
      gaps.

Definition _format_simulation (simulation : SimulationResult) : FormattedSimulation :=
  {| fsim_brand_cited := brand_cited simulation;
     fsim_citation_count := citation_count simulation;
     fsim_missing_signals := missing_signals simulation;
     fsim_prompt := prompt simulation;
     fsim_response := response simulation |}.

(** [analysis.composite_score or 0]. *)
Definition score_or_zero (composite_score : option Q) : Q :=
  match composite_score with
  | Some q => if Qeq_bool q 0 then 0 else q
  | None => 0
  end.

(** [sum(1 for g in gaps if g.severity == s)]. *)
Definition count_severity (gaps : list Gap) (s : string) : nat :=
  List.length (filter (fun g => String.eqb (severity g) s) gaps).

Definition _generate_summary (analysis : Analysis) (scores : list EngineScore)
    (gaps : list Gap) (simulation : option SimulationResult) : ExecutiveSummary :=
  let composite_score := score_or_zero (composite_score analysis) in
  let gap_counts :=
    [ ("critical", count_severity gaps "critical");
      ("high", count_severity gaps "high");
      ("medium", count_severity gaps "medium");
      ("low", count_severity gaps "low") ] in
  let '(strengths, weaknesses) :=
    fold_left
      (fun '(strengths, weaknesses) s =>
         if Qle_bool 75 (score s) then (strengths ++ [engine_name s], weaknesses)%list
         else if Qltb (score s) 50 then (strengths, weaknesses ++ [engine_name s])%list
         else (strengths, weaknesses))
      scores ([], []) in
  {| ex_composite_score := composite_score;
     ex_grade := _score_to_grade composite_score;
     ex_interpretation := _interpret_score composite_score;
     ex_strengths := strengths;
     ex_weaknesses := weaknesses;
     ex_total_gaps := List.length gaps;
     ex_gaps_by_severity := gap_counts;
     ex_ai_citation_status :=
       match simulation with
       | Some simulation => if brand_cited simulation then "cited" else "not_cited"
       | None => "not_tested"
       end;
     ex_readiness_for_ai_commerce := _assess_ai_readiness composite_score simulation |}.

Definition generate_report (order_by : (Gap -> string) -> list Gap -> list Gap)
    (d : Db) (analysis_id : string) : Result Report :=
  match Repository.get_analysis d analysis_id with
  | None => Raise ("Analysis " ++ analysis_id ++ " not found")
  | Some analysis =>
      let engine_scores := Repository.get_engine_scores d analysis_id in
      let gaps := Repository.get_gaps order_by d analysis_id in
      let simulation := Repository.get_simulation_result d analysis_id in
      Ok {| rp_analysis_id := id analysis;
            rp_url := url analysis;
            rp_status := status_value (status analysis);
            rp_composite_score := composite_score analysis;
            rp_grade := _score_to_grade (score_or_zero (composite_score analysis));
            rp_engine_scores := _format_engine_scores engine_scores;
            rp_gaps := _format_gaps gaps;
            rp_summary := _generate_summary analysis engine_scores gaps simulation;
            rp_simulation_results := option_map _format_simulation simulation;
            rp_recommendations := _prioritize_recommendations gaps |}
  end.

End ReportGenerator.

(* ===================================================================== *)
(** * Web interface ([arrs/api/routes.py]) *)
(* ===================================================================== *)

Module Routes.

(** What a route hands to the framework: the response it returns, or the
    [HTTPException] it raises, answered with that status code. *)
Inductive Outcome (A : Type) : Type :=
| Respond (a : A)
| HTTPException (status_code : Z) (detail : string).
Arguments Respond {A} a.
Arguments HTTPException {A} status_code detail.

Record AnalyzeResponse : Type := mkAnalyzeResponse {
  ar_analysis_id : string;
  ar_status : string;
  ar_message : string
}.

(** [POST /analyze]; [url_str] is [str(request.url)]. *)
Definition analyze_url (env : Env) (url_str : string)
    (brand category use_case : option string) : World -> Outcome AnalyzeResponse * World :=
  fun w =>
    match AnalysisOrchestrator.analyze_url env url_str brand category use_case w with
    | (Ok analysis_id, w') =>
        (Respond {| ar_analysis_id := analysis_id;
                    ar_status := "completed";
                    ar_message := "Analysis completed successfully" |}, w')
    | (Raise e, w') => (HTTPException 500%Z e, w')
    end.

(** [GET /analysis/{analysis_id}]. The [HTTPException] raised for a missing
    summary is raised inside the [try], whose [except Exception] catches
    it; [str_of_exception] is [str(e)] of an [HTTPException]. *)
Definition get_analysis (str_of_exception : Z -> string -> string)
    (order_by : (Gap -> string) -> list Gap -> list Gap)
    (d : Db) (analysis_id : string) : Outcome AnalysisOrchestrator.Summary :=
  let attempt : Result AnalysisOrchestrator.Summary :=
    match AnalysisOrchestrator.get_analysis_summary order_by d analysis_id with
    | None => Raise (str_of_exception 404%Z "Analysis not found")
    | Some summary => Ok summary
    end in
  match attempt with
  | Ok summary => Respond summary
  | Raise e => HTTPException 500%Z e
  end.

(** [GET /report/{analysis_id}]; a report, once generated, is a dict that is not
    empty. *)
Definition get_report (order_by : (Gap -> string) -> list Gap -> list Gap)
    (d : Db) (analysis_id : string) : Outcome ReportGenerator.Report :=
  match ReportGenerator.generate_report order_by d analysis_id with
  | Ok report => Respond report
  | Raise e => HTTPException 500%Z e
  end.

End Routes.

(* ===================================================================== *)
(** * Vocabulary of the statements *)
(* ===================================================================== *)

Local Open Scope list_scope.


Definition total_weight (engine_scores : list EngineScore) : Q :=
  py_sum (map (fun s => weight s) engine_scores).

Definition weighted_sum (engine_scores : list EngineScore) : Q :=
  py_sum (map (fun s => score s * weight s) engine_scores).




(** ** Reasoning about runs *)

(** [{P} m {Q | E}]: from a world in [P], [m] returns in [Q] or raises in [E]. *)
Definition hoare {A} (P : World -> Prop) (m : M A)
    (Q : A -> World -> Prop) (E : World -> Prop) : Prop :=
  forall w, P w ->
    match m w with
    | (Ok a, w') => Q a w'
    | (Raise _, w') => E w'
    end.

(** [m] only moves the world along [R], whatever its outcome. *)
Definition respects {A} (R : World -> World -> Prop) (m : M A) : Prop :=
  forall w, R w (snd (m w)).

(** The table of analyses is left alone: it is the same afterwards and in
    every state committed on the way. *)
Definition analyses_untouched (w w' : World) : Prop :=
  tbl_analyses (db w') = tbl_analyses (db w)
  /\ exists ext, history w' = history w ++ ext
       /\ Forall (fun d => tbl_analyses d = tbl_analyses (db w)) ext
       /\ db w' = last ext (db w).






(** ** Sample collaborators *)

(** Libraries answering [flesch] for every text, no regex ever matching. *)
Definition stub_libs (flesch : Q) : PyLibs :=
  {| flesch_reading_ease := fun _ => Ok flesch;
     re_search := fun _ _ => false;
     py_repr := fun _ => "";
     format_1f := fun _ => "" |}.

(** A page with nothing in it: no text, no heading, no image, no schema. *)
Definition empty_page : Page :=
  {| pg_title := "";
     pg_meta_description := "";
     pg_find_all_h := fun _ => [];
     pg_images := [];
     pg_links := [];
     pg_text := "";
     pg_word_count := 0;
     pg_has_structured_data := false;
     pg_semantic_elements := [];
     pg_metadata := [];
     pg_product := None;
     pg_has_reviews := false;
     pg_brand := PNone |}.

(** A run on analysis ["a1"] with the default weights 0.30, 0.20, 0.20: the
    first fetch answers, every page parses to [pg], no simulator is
    configured, and storage fails as [fault] says. *)
Definition sample_env (lib : PyLibs) (pg : Page) (fault : RepoCall -> option string) : Env :=
  {| new_id := "a1";
     httpx_get := fun u => Ok (mkHttpResponse u "<html></html>" 200);
     playwright_goto := fun _ => Raise "browser closed";
     parse_markup := fun _ _ => Ok pg;
     engines := AnalysisOrchestrator.default_engines lib (30 # 100) (20 # 100) (20 # 100);
     simulator := None;
     repo_fault := fault |}.

Definition no_fault : RepoCall -> option string := fun _ => None.

(** Storage failing when the gaps are saved, after the scoring. *)
Definition fault_on_save_gaps : RepoCall -> option string :=
  fun c => match c with SaveGaps => Some "database is locked" | _ => None end.

Definition empty_world : World := mkWorld (mkDb [] [] [] [] []) [] [].


(** ** The outcome of the stages, read off the collaborators *)

(** What acquisition yields: the first fetch, else the fallback, else the
    error that names the fallback's failure. *)
Definition crawl_outcome (env : Env) (url analysis_id : string) : Result CrawledContent :=
  match BeautifulSoupCrawler.crawl env url analysis_id with
  | Ok c => Ok c
  | Raise _ =>
      match PlaywrightCrawler.crawl env url analysis_id with
      | Ok c => Ok c
      | Raise playwright_error =>
          Raise ("Failed to crawl " ++ url ++ ": " ++ playwright_error)%string
      end
  end.

Definition crawl_calls (env : Env) (url analysis_id : string) : list Call :=
  match BeautifulSoupCrawler.crawl env url analysis_id with
  | Ok _ => [CrawlPrimary]
  | Raise _ => [CrawlPrimary; CrawlFallback]
  end.

(** The scores of the engines whose [analyze] did not raise, in order. *)
Definition scored_by (es : list (string * BaseEngine.t))
    (content : CrawledContent) (parsed_data : ParsedData) : list EngineScore :=
  flat_map (fun ne => match BaseEngine.analyze (snd ne) content parsed_data with
                      | Ok s => [s]
                      | Raise _ => []
                      end) es.

(** The gaps the registered engines identify for [scores], after [acc]. *)
Fixpoint engine_gaps (es : list (string * BaseEngine.t)) (scores : list EngineScore)
    (parsed_data : ParsedData) (acc : list Gap) : Result (list Gap) :=
  match scores with
  | [] => Ok acc
  | s :: rest =>
      match dict_get es (engine_name s) with
      | Some engine =>
          match BaseEngine.identify_gaps engine s parsed_data with
          | Ok gaps => engine_gaps es rest parsed_data (acc ++ gaps)
          | Raise e => Raise e
          end
      | None => engine_gaps es rest parsed_data acc
      end
  end.

Definition identify_calls (es : list (string * BaseEngine.t)) (scores : list EngineScore)
  : list Call :=
  flat_map (fun s => match dict_get es (engine_name s) with
                     | Some _ => [IdentifyGaps (engine_name s)]
                     | None => []
                     end) scores.

(** The answer of the simulator, when step 8 calls it. *)
Definition simulation_attempt (env : Env) (analysis_id : string)
    (brand product_category use_case : option string) : option (Result SimulationResult) :=
  match simulator env with
  | Some simulate =>
      if opt_truthy brand && opt_truthy product_category && opt_truthy use_case
      then Some (simulate analysis_id (AnalysisOrchestrator.opt_str brand)
                   (AnalysisOrchestrator.opt_str product_category)
                   (AnalysisOrchestrator.opt_str use_case))
      else None
  | None => None
  end.

(** The simulation failed: the simulator raised, or its result could not
    be stored. *)
Definition simulation_failed (env : Env) (analysis_id : string)
    (brand product_category use_case : option string) : Prop :=
  match simulation_attempt env analysis_id brand product_category use_case with
  | Some (Raise _) => True
  | Some (Ok _) =>
      repo_fault env SaveSimulationResult <> None
      \/ repo_fault env SaveSimulationData <> None
  | None => False
  end.

(** The rows step 8 adds to [simulation_results]. *)
Definition simulation_rows (env : Env) (analysis_id : string)
    (brand product_category use_case : option string) : list SimulationResult :=
  match simulation_attempt env analysis_id brand product_category use_case with
  | Some (Ok r) =>
      match repo_fault env SaveSimulationResult with
      | None => [r]
      | Some _ => []
      end
  | _ => []
  end.

(** The gaps step 8 adds. *)
Definition simulation_gaps (env : Env) (analysis_id : string)
    (brand product_category use_case : option string) (parsed_data : ParsedData) : list Gap :=
  match simulation_attempt env analysis_id brand product_category use_case with
  | Some (Ok r) =>
      match repo_fault env SaveSimulationResult, repo_fault env SaveSimulationData with
      | None, None => AnalysisOrchestrator._extract_simulation_gaps analysis_id r parsed_data
      | _, _ => []
      end
  | _ => []
  end.

Definition simulation_calls (env : Env) (analysis_id : string)
    (brand product_category use_case : option string) : list Call :=
  match simulation_attempt env analysis_id brand product_category use_case with
  | None => []
  | Some (Raise _) => [Simulate]
  | Some (Ok _) =>
      match repo_fault env SaveSimulationResult with
      | None => [Simulate; Repo SaveSimulationResult; Repo SaveSimulationData]
      | Some _ => [Simulate; Repo SaveSimulationResult]
      end
  end.

(** No record of analysis [nid] yet. *)
Definition fresh_id (nid : string) (d : Db) : Prop :=
  forall a, In a (tbl_analyses d) -> id a <> nid.

(** Storage does not fail, except possibly for the simulation result. *)
Definition core_writes_succeed (env : Env) : Prop :=
  forall c,
    match c with
    | SaveSimulationResult | SaveSimulationData => True
    | _ => repo_fault env c = None
    end.

(** The database a completed run leaves, from the one it started in. *)
Definition completed_db (d0 : Db) (analysis : Analysis) (content : CrawledContent)
    (scores : list EngineScore) (sims : list SimulationResult) (gaps : list Gap) : Db :=
  {| tbl_analyses := tbl_analyses d0 ++ [analysis];
     tbl_crawled_pages := tbl_crawled_pages d0 ++ [Repository.crawled_page_row content];
     tbl_engine_scores := tbl_engine_scores d0 ++ scores;
     tbl_simulation_results := tbl_simulation_results d0 ++ sims;
     tbl_gaps := tbl_gaps d0 ++ gaps |}.

(** The calls of a completed run. *)
Definition completed_calls (env : Env) (url : string)
    (brand product_category use_case : option string)
    (scores : list EngineScore) (gaps : list Gap) : list Call :=
  [Repo CreateAnalysis; Repo (UpdateAnalysisStatus PROCESSING)]
  ++ crawl_calls env url (new_id env)
  ++ [Repo SaveCrawledContent; Repo SaveRawContent; ParseContent]
  ++ map (fun ne => Analyze (fst ne)) (engines env)
  ++ map (fun s => Repo (SaveEngineScore (engine_name s))) scores
  ++ [Repo UpdateCompositeScore]
  ++ identify_calls (engines env) scores
  ++ simulation_calls env (new_id env) brand product_category use_case
  ++ match gaps with [] => [] | _ => [Repo SaveGaps] end
  ++ [Repo (UpdateAnalysisStatus COMPLETED)].

(** [d] with [scores] added to [engine_scores]. *)
Definition add_scores (d : Db) (scores : list EngineScore) : Db :=
  mkDb (tbl_analyses d) (tbl_crawled_pages d) (tbl_engine_scores d ++ scores)
       (tbl_simulation_results d) (tbl_gaps d).

(** [d] with [sims] added to [simulation_results]. *)
Definition add_simulations (d : Db) (sims : list SimulationResult) : Db :=
  mkDb (tbl_analyses d) (tbl_crawled_pages d) (tbl_engine_scores d)
       (tbl_simulation_results d ++ sims) (tbl_gaps d).

(** [d] with [gaps] added to [gaps]. *)
Definition add_gaps (d : Db) (gaps : list Gap) : Db :=
  mkDb (tbl_analyses d) (tbl_crawled_pages d) (tbl_engine_scores d)
       (tbl_simulation_results d) (tbl_gaps d ++ gaps).

(** An engine signs its scores and its gaps with the name it is
    registered under, as [create_score] and [create_gap] do. *)
Definition engine_signs (name : string) (e : BaseEngine.t) : Prop :=
  (forall c p s, BaseEngine.analyze e c p = Ok s -> engine_name s = name)
  /\ (forall s p gs g,
        BaseEngine.identify_gaps e s p = Ok gs -> In g gs -> engine_source g = name).

(** The registry of engines: distinct names, each engine signing with its own. *)
Definition registry_ok (es : list (string * BaseEngine.t)) : Prop :=
  NoDup (map fst es) /\ Forall (fun ne => engine_signs (fst ne) (snd ne)) es.

(** The registry without the engine [x]. *)
Definition without_engine (x : string) (es : list (string * BaseEngine.t))
  : list (string * BaseEngine.t) :=
  filter (fun ne => negb (String.eqb (fst ne) x)) es.

(** ** A sample run *)

Definition sample_url : string := "https://shop.example/item".

Definition sample_content : CrawledContent :=
  mkCrawledContent "a1" sample_url "<html></html>" "beautifulsoup" 200.

(** The gaps ARCE and TRE identify on the empty page. *)
Definition sample_engine_gaps : list Gap :=
  Eval vm_compute in
    match engine_gaps (engines (sample_env (stub_libs 0) empty_page no_fault))
            (scored_by (engines (sample_env (stub_libs 0) empty_page no_fault))
               sample_content (assemble_parsed_data empty_page))
            (assemble_parsed_data empty_page) [] with
    | Ok gaps => gaps
    | Raise _ => []
    end.

(** A run whose first fetch is refused; the fallback answers as [goto] says. *)
Definition blocked_env (goto : string -> Result HttpResponse) : Env :=
  {| new_id := "a1";
     httpx_get := fun _ => Raise "403 Forbidden";
     playwright_goto := goto;
     parse_markup := fun _ _ => Ok empty_page;
     engines :=
       AnalysisOrchestrator.default_engines (stub_libs 0) (30 # 100) (20 # 100) (20 # 100);
     simulator := None;
     repo_fault := no_fault |}.

(** The database with the record of an analysis added. *)
Definition add_analysis (d : Db) (a : Analysis) : Db :=
  mkDb (tbl_analyses d ++ [a]) (tbl_crawled_pages d) (tbl_engine_scores d)
       (tbl_simulation_results d) (tbl_gaps d).

(** An optional argument the caller supplied: a string that is not empty. *)
Definition supplied (o : option string) : Prop :=
  exists s, o = Some s /\ s <> ""%string.

(** The simulation step is to run: a simulator is configured and the
    three arguments are supplied. *)
Definition simulation_configured (env : Env)
    (brand product_category use_case : option string) : Prop :=
  simulator env <> None
  /\ supplied brand /\ supplied product_category /\ supplied use_case.

(** The calls made from [w] to [w'] do not include the simulator. *)
Definition no_simulate (w w' : World) : Prop :=
  exists ext, calls w' = calls w ++ ext /\ ~ In Simulate ext.

(** A simulator that is unreachable. *)
Definition unreachable_simulator : string -> string -> string -> string -> Result SimulationResult :=
  fun _ _ _ _ => Raise "connection refused".

(** The sample run with a simulator configured. *)
Definition simulated_env
    (simulate : string -> string -> string -> string -> Result SimulationResult)
    (fault : RepoCall -> option string) : Env :=
  {| new_id := "a1";
     httpx_get := fun u => Ok (mkHttpResponse u "<html></html>" 200);
     playwright_goto := fun _ => Raise "browser closed";
     parse_markup := fun _ _ => Ok empty_page;
     engines :=
       AnalysisOrchestrator.default_engines (stub_libs 0) (30 # 100) (20 # 100) (20 # 100);
     simulator := Some simulate;
     repo_fault := fault |}.

(** The two kinds of gap the simulation gives rise to. *)
Definition not_cited_gap (analysis_id : string) : Gap :=
  mkGap analysis_id "not_cited_by_ai" "critical"
    "Brand was not mentioned in AI recommendation"
    "Improve product attributes, trust signals, and content clarity to increase AI citation likelihood"
    "AI_SIMULATION".

Definition missing_attribute_gap (analysis_id signal : string) : Gap :=
  mkGap analysis_id "missing_attribute" "medium"
    ("AI values this attribute but it may be missing: " ++ signal)%string
    ("Add or enhance information about: " ++ signal)%string
    "AI_SIMULATION".

(** ** Heading hierarchy *)

(** The number of H1 headings of a page. *)
Definition h1_headings (pg : Page) : nat := List.length (pg_find_all_h pg 1%nat).

(** The page has no skipped heading level. *)
Definition no_skipped_level (pg : Page) : bool :=
  match skipped_levels (HTMLParser.validate_heading_hierarchy pg) with
  | [] => true
  | _ => false
  end.

(** The heading score as claimed grants neither 10-point component to a
    page with two or more H1 headings, leaving it at most the 5 points. *)
Definition claimed_heading_score : Prop :=
  forall pg, (2 <= h1_headings pg)%nat ->
    ARCEEngine._score_heading_hierarchy (HTMLParser.parse pg) <= 5.

(** A page with two H1 headings and nothing else. *)
Definition two_h1_page : Page :=
  {| pg_title := "";
     pg_meta_description := "";
     pg_find_all_h := fun lvl => match lvl with 1%nat => ["Kettles"; "Offers"]%string | _ => [] end;
     pg_images := [];
     pg_links := [];
     pg_text := "";
     pg_word_count := 0;
     pg_has_structured_data := false;
     pg_semantic_elements := [];
     pg_metadata := [];
     pg_product := None;
     pg_has_reviews := false;
     pg_brand := PNone |}.

(** ** The description of the Product schema *)

(** The description field of a Product schema when it is text; a schema
    without the field counts as having the empty description. *)
Definition schema_description (p : pydict) : option string :=
  match dict_get_default p "description" (PStr "") with
  | PStr s => Some s
  | _ => None
  end.

(** The gap ADE emits for a description of [n] characters. *)
Definition short_description_gap (analysis_id : string) (n : nat) : Gap :=
  mkGap analysis_id "short_description" "medium"
    ("Product description is too short (" ++ str_of_nat n ++ " characters)")%string
    "Expand product description to at least 300 characters with detailed attributes and benefits"
    "ADE".

(** The points of [_score_attribute_richness] for brand and identifier. *)
Definition attribute_points (schema_data : SchemaData) (p : pydict) : Q :=
  (if truthy (brand schema_data) then 75 # 10 else 0)
  + (if truthy (py_or (py_or (dict_get_default p "sku" PNone)
                             (dict_get_default p "gtin" PNone))
                      (dict_get_default p "mpn" PNone))
     then 75 # 10 else 0).

(** A page whose Product schema has an empty description and whose meta
    description has 120 characters. *)
Definition meta_only_page : Page :=
  {| pg_title := "Kettle";
     pg_meta_description :=
       "A sturdy steel kettle for the camp fire, with a folding handle, a whistle, a wide base and a lid that always stays cool.";
     pg_find_all_h := fun _ => [];
     pg_images := [];
     pg_links := [];
     pg_text := "";
     pg_word_count := 0;
     pg_has_structured_data := true;
     pg_semantic_elements := [];
     pg_metadata := [];
     pg_product := Some [("@type", PStr "Product"); ("name", PStr "Kettle");
                         ("description", PStr "")];
     pg_has_reviews := false;
     pg_brand := PNone |}.

(** ** Engine scores *)

(** A page whose only content is one unpunctuated run of long words,
    140 characters of it. *)
Definition dense_text_page : Page :=
  {| pg_title := "";
     pg_meta_description := "";
     pg_find_all_h := fun _ => [];
     pg_images := [];
     pg_links := [];
     pg_text := "Thermoregulating multifunctional interchangeable polycarbonate electroluminescent instrumentation compatibility characteristics documentation";
     pg_word_count := 9;
     pg_has_structured_data := false;
     pg_semantic_elements := [];
     pg_metadata := [];
     pg_product := None;
     pg_has_reviews := false;
     pg_brand := PNone |}.

(** ** Gap ordering *)







(** The simulation result of the specification's scenario. *)
Definition sample_simulation : SimulationResult :=
  mkSimulationResult "a1" "prompt" "response" false 0 ["warranty"; "shipping"]%string.

(** ** Further vocabulary *)

(** A heading of level [lvl], from 1 to 6, occurs on the page. *)
Definition level_present (pg : Page) (lvl : nat) : Prop :=
  In lvl [1; 2; 3; 4; 5; 6]%nat /\ pg_find_all_h pg lvl <> [].

(** A severity the engines and the simulation use. *)
Definition emitted_severity (g : Gap) : Prop :=
  In (severity g) ["critical"; "high"; "medium"]%string.

(** The rank of a letter grade, from 0 for F to 4 for A. *)
Definition grade_rank (grade : string) : nat :=
  dict_get_default [("A", 4); ("B", 3); ("C", 2); ("D", 1); ("F", 0)]%nat grade 0%nat.


(** The record of analysis [nid], as [get_analysis] reads it, satisfies [P]. *)
Definition the_record (nid : string) (P : Analysis -> Prop) (w : World) : Prop :=
  exists a, Repository.get_analysis (db w) nid = Some a /\ P a.


(** The negative keywords other than ["not recommend"]. *)
Definition other_negative_keywords : list string :=
  ["avoid"; "poor"; "lacking"; "missing"; "insufficient"; "weak"; "limited"; "concerns"]%string.

(** The keywords of [keywords] that occur in [context_lower]. *)
Definition keyword_hits (keywords : list string) (context_lower : string) : nat :=
  List.length (filter (fun keyword => py_in keyword context_lower) keywords).

(** A model that cannot be reached. *)
Definition offline_backend : Backend :=
  {| query := fun _ => Raise "connection refused";
     extract_important_attributes := fun _ => [] |}.

(** The sample run with the Ollama simulator on a model that cannot be
    reached. *)
Definition ollama_env : Env :=
  simulated_env (OllamaSimulator.simulate_recommendation offline_backend) no_fault.
(* ===================================================================== *)
(** * Theorems *)
(* ===================================================================== *)

Example str_of_nat_ex : str_of_nat 0 = "0" /\ str_of_nat 42 = "42" /\ str_of_nat 100 = "100".
Proof. repeat split; reflexivity. Qed.

Example py_in_ex : py_in "buy" "please buy now" = true /\ py_in "ship" "none" = false.
Proof. split; reflexivity. Qed.

(* --------------------------------------------------------------------- *)
(** ** Arithmetic of sums and rounding *)




Lemma Qltb_true (a b : Q) : Qltb a b = true <-> a < b.
Proof.
  unfold Qltb. rewrite negb_true_iff. split; intros H.
  - apply Qnot_le_lt. intros Hle. apply Qle_bool_iff in Hle. congruence.
  - destruct (Qle_bool b a) eqn:E; [|reflexivity].
    apply Qle_bool_iff in E. lra.
Qed.

Lemma Qltb_false (a b : Q) : Qltb a b = false <-> b <= a.
Proof.
  unfold Qltb. rewrite negb_false_iff. apply Qle_bool_iff.
Qed.









(* --------------------------------------------------------------------- *)
(** ** The composite score *)









(* --------------------------------------------------------------------- *)
(** ** Stepping through a run *)

Lemma bind_ok {A B} (m : M A) (f : A -> M B) (w w' : World) (a : A) :
  m w = (Ok a, w') -> bind m f w = f a w'.
Proof. intros H. unfold bind. rewrite H. reflexivity. Qed.

Lemma bind_raise {A B} (m : M A) (f : A -> M B) (w w' : World) (e : string) :
  m w = (Raise e, w') -> bind m f w = (Raise e, w').
Proof. intros H. unfold bind. rewrite H. reflexivity. Qed.

Lemma try_ok {A} (m : M A) (h : string -> M A) (w w' : World) (a : A) :
  m w = (Ok a, w') -> try_except m h w = (Ok a, w').
Proof. intros H. unfold try_except. rewrite H. reflexivity. Qed.

Lemma try_raise {A} (m : M A) (h : string -> M A) (w w' : World) (e : string) :
  m w = (Raise e, w') -> try_except m h w = h e w'.
Proof. intros H. unfold try_except. rewrite H. reflexivity. Qed.

Lemma execute_ok (env : Env) (c : RepoCall) (stmt : Db -> Result Db) (w : World) (d : Db) :
  repo_fault env c = None -> stmt (db w) = Ok d ->
  execute env c stmt w = (Ok tt, mkWorld d (history w ++ [d]) (calls w ++ [Repo c])).
Proof.
  intros Hf Hs. unfold execute, bind, call. simpl. rewrite Hf, Hs. reflexivity.
Qed.

Lemma execute_fault (env : Env) (c : RepoCall) (stmt : Db -> Result Db) (w : World) (e : string) :
  repo_fault env c = Some e ->
  execute env c stmt w = (Raise e, mkWorld (db w) (history w) (calls w ++ [Repo c])).
Proof.
  intros Hf. unfold execute, bind, call. simpl. rewrite Hf. reflexivity.
Qed.

Lemma write_file_ok (env : Env) (c : RepoCall) (w : World) :
  repo_fault env c = None ->
  write_file env c w = (Ok tt, mkWorld (db w) (history w) (calls w ++ [Repo c])).
Proof.
  intros Hf. unfold write_file, bind, call. rewrite Hf. reflexivity.
Qed.

(* --------------------------------------------------------------------- *)
(** ** Hoare rules *)

Lemma hoare_ret {A} (P : World -> Prop) (a : A) (Q : A -> World -> Prop) (E : World -> Prop) :
  (forall w, P w -> Q a w) -> hoare P (ret a) Q E.
Proof. intros H w Hw. simpl. auto. Qed.


Lemma hoare_bind {A B} (P : World -> Prop) (m : M A) (Q : A -> World -> Prop)
    (f : A -> M B) (Q' : B -> World -> Prop) (E : World -> Prop) :
  hoare P m Q E -> (forall a, hoare (Q a) (f a) Q' E) -> hoare P (bind m f) Q' E.
Proof.
  intros Hm Hf w Hw. unfold bind. specialize (Hm w Hw).
  destruct (m w) as [[a|e] w']; [apply (Hf a w' Hm)|exact Hm].
Qed.


Lemma hoare_weaken {A} (P P' : World -> Prop) (m : M A)
    (Q Q' : A -> World -> Prop) (E E' : World -> Prop) :
  hoare P m Q E ->
  (forall w, P' w -> P w) -> (forall a w, Q a w -> Q' a w) -> (forall w, E w -> E' w) ->
  hoare P' m Q' E'.
Proof.
  intros Hm HP HQ HE w Hw. specialize (Hm w (HP w Hw)).
  destruct (m w) as [[a|e] w']; auto.
Qed.

(** A computation that moves the world along [R] keeps whatever [R] keeps. *)
Lemma hoare_respects {A} (R : World -> World -> Prop) (P P' : World -> Prop) (m : M A) :
  respects R m -> (forall w w', P w -> R w w' -> P' w') ->
  hoare P m (fun _ => P') P'.
Proof.
  intros Hr HP w Hw. specialize (Hr w). specialize (HP w _ Hw Hr).
  destruct (m w) as [[a|e] w']; exact HP.
Qed.

(* --------------------------------------------------------------------- *)
(** ** Computations that move the world along a preorder *)

Section Respects.

Variable R : World -> World -> Prop.
Hypothesis R_refl : forall w, R w w.
Hypothesis R_trans : forall w1 w2 w3, R w1 w2 -> R w2 w3 -> R w1 w3.

Lemma respects_ret {A} (a : A) : respects R (ret a).
Proof. intros w. apply R_refl. Qed.

Lemma respects_raise {A} (e : string) : respects R (@raise A e).
Proof. intros w. apply R_refl. Qed.

Lemma respects_lift {A} (r : Result A) : respects R (lift r).
Proof. intros w. apply R_refl. Qed.

Lemma respects_bind {A B} (m : M A) (f : A -> M B) :
  respects R m -> (forall a, respects R (f a)) -> respects R (bind m f).
Proof.
  intros Hm Hf w. unfold bind. specialize (Hm w).
  destruct (m w) as [[a|e] w']; simpl in *; [|exact Hm].
  eapply R_trans; [exact Hm|apply Hf].
Qed.

Lemma respects_try {A} (m : M A) (h : string -> M A) :
  respects R m -> (forall e, respects R (h e)) -> respects R (try_except m h).
Proof.
  intros Hm Hh w. unfold try_except. specialize (Hm w).
  destruct (m w) as [[a|e] w']; simpl in *; [exact Hm|].
  eapply R_trans; [exact Hm|apply Hh].
Qed.

Lemma respects_for_in {A S} (l : list A) (body : A -> S -> M S) (s : S) :
  (forall x s, respects R (body x s)) -> respects R (for_in l body s).
Proof.
  intros Hb. revert s. induction l as [|x l IH]; intros s; simpl.
  - apply respects_ret.
  - apply respects_bind; [apply Hb|]. intros s'. apply IH.
Qed.

End Respects.

(* --------------------------------------------------------------------- *)
(** ** Steps that leave the table of analyses alone *)

Lemma last_cons {A} (l : list A) (x d : A) : last (x :: l) d = last l x.
Proof.
  revert x d. induction l as [|y l IH]; intros x d; [reflexivity|].
  change (last (x :: y :: l) d) with (last (y :: l) d).
  rewrite (IH y d), (IH y x). reflexivity.
Qed.

Lemma last_app_last {A} (l1 l2 : list A) (d : A) :
  last (l1 ++ l2) d = last l2 (last l1 d).
Proof.
  revert d. induction l1 as [|x l1 IH]; intros d; [reflexivity|].
  rewrite <- app_comm_cons, !last_cons. apply IH.
Qed.

Lemma analyses_untouched_refl (w : World) : analyses_untouched w w.
Proof.
  split; [reflexivity|]. exists []. rewrite app_nil_r. repeat split. constructor.
Qed.

Lemma analyses_untouched_trans (w1 w2 w3 : World) :
  analyses_untouched w1 w2 -> analyses_untouched w2 w3 -> analyses_untouched w1 w3.
Proof.
  intros [H12 (e1 & Hh1 & Hf1 & Hl1)] [H23 (e2 & Hh2 & Hf2 & Hl2)].
  split; [congruence|].
  exists (e1 ++ e2). repeat split.
  - rewrite Hh2, Hh1, app_assoc. reflexivity.
  - apply Forall_app. split; [exact Hf1|].
    eapply Forall_impl; [|exact Hf2]. intros d Hd. simpl in Hd. congruence.
  - rewrite last_app_last, <- Hl1. exact Hl2.
Qed.

Lemma untouched_call (c : Call) : respects analyses_untouched (call c).
Proof.
  intros w. simpl. split; [reflexivity|]. exists []. simpl.
  rewrite app_nil_r. repeat split. constructor.
Qed.

Lemma untouched_execute (env : Env) (c : RepoCall) (stmt : Db -> Result Db) :
  (forall d d', stmt d = Ok d' -> tbl_analyses d' = tbl_analyses d) ->
  respects analyses_untouched (execute env c stmt).
Proof.
  intros Hs w. unfold execute, bind, call. simpl.
  destruct (repo_fault env c) as [e|]; simpl.
  - split; [reflexivity|]. exists []. simpl. rewrite app_nil_r. repeat split. constructor.
  - destruct (stmt (db w)) as [d|e] eqn:E; simpl.
    + split; [apply (Hs _ _ E)|]. exists [d]. simpl. repeat split.
      constructor; [apply (Hs _ _ E)|constructor].
    + split; [reflexivity|]. exists []. simpl. rewrite app_nil_r. repeat split. constructor.
Qed.

Lemma untouched_write_file (env : Env) (c : RepoCall) :
  respects analyses_untouched (write_file env c).
Proof.
  unfold write_file.
  apply respects_bind;
    [apply analyses_untouched_trans|apply untouched_call|].
  intros _. destruct (repo_fault env c).
  - apply respects_raise, analyses_untouched_refl.
  - apply respects_ret, analyses_untouched_refl.
Qed.

Ltac untouched :=
  repeat first
    [ apply untouched_call
    | apply untouched_write_file
    | apply untouched_execute;
        let d := fresh "d" in let d' := fresh "d'" in let H := fresh "H" in
        intros d d' H; cbv beta in H; injection H as <-; reflexivity
    | apply respects_ret, analyses_untouched_refl
    | apply respects_raise, analyses_untouched_refl
    | apply respects_lift, analyses_untouched_refl
    | apply respects_bind; [apply analyses_untouched_trans| |intros ?]
    | apply respects_try; [apply analyses_untouched_trans| |intros ?]
    | apply respects_for_in;
        [apply analyses_untouched_refl|apply analyses_untouched_trans|intros ? ?] ].

Lemma untouched_crawl_url (env : Env) (url analysis_id : string) :
  respects analyses_untouched (AnalysisOrchestrator._crawl_url env url analysis_id).
Proof. unfold AnalysisOrchestrator._crawl_url. untouched. Qed.

Lemma untouched_save_crawled_content (env : Env) (content : CrawledContent) :
  respects analyses_untouched (Repository.save_crawled_content env content).
Proof. unfold Repository.save_crawled_content. untouched. Qed.

Lemma untouched_parse_content (env : Env) (content : CrawledContent) :
  respects analyses_untouched (AnalysisOrchestrator._parse_content env content).
Proof. unfold AnalysisOrchestrator._parse_content. untouched. Qed.

Lemma untouched_run_engines (env : Env) (content : CrawledContent) (parsed_data : ParsedData) :
  respects analyses_untouched (AnalysisOrchestrator._run_engines env content parsed_data).
Proof.
  unfold AnalysisOrchestrator._run_engines.
  apply respects_for_in;
    [apply analyses_untouched_refl|apply analyses_untouched_trans|].
  intros [engine_name engine] scores. untouched.
Qed.

Lemma untouched_save_engine_score (env : Env) (score : EngineScore) :
  respects analyses_untouched (Repository.save_engine_score env score).
Proof. unfold Repository.save_engine_score. untouched. Qed.

Lemma untouched_identify_engine_gaps (env : Env) (engine_scores : list EngineScore)
    (parsed_data : ParsedData) :
  respects analyses_untouched
    (AnalysisOrchestrator.identify_engine_gaps env engine_scores parsed_data).
Proof.
  unfold AnalysisOrchestrator.identify_engine_gaps.
  apply respects_for_in;
    [apply analyses_untouched_refl|apply analyses_untouched_trans|].
  intros score all_gaps.
  destruct (dict_get (engines env) (engine_name score)); untouched.
Qed.

Lemma untouched_simulation_step (env : Env) (analysis_id : string)
    (brand product_category use_case : option string)
    (parsed_data : ParsedData) (all_gaps : list Gap) :
  respects analyses_untouched
    (AnalysisOrchestrator.simulation_step env analysis_id brand product_category use_case
       parsed_data all_gaps).
Proof.
  unfold AnalysisOrchestrator.simulation_step, AnalysisOrchestrator._run_simulation,
    Repository.save_simulation_result.
  destruct (simulator env) as [simulate|]; [|untouched].
  destruct (opt_truthy brand && opt_truthy product_category && opt_truthy use_case);
    untouched.
Qed.

Lemma untouched_save_gaps (env : Env) (gaps : list Gap) :
  respects analyses_untouched (Repository.save_gaps env gaps).
Proof. unfold Repository.save_gaps. destruct gaps; untouched. Qed.

(* --------------------------------------------------------------------- *)
(** ** The invariant of the analysis record *)













(** Every run that scores passes through such a state: in the sample run,
    which fails nowhere, the state committed by the scoring step has the
    record still processing with its composite score 12.5. *)
Lemma composite_score_before_completion :
  In (mkAnalysis "a1" sample_url PROCESSING (Some (1250 # 100)) None)
     (flat_map tbl_analyses
        (history (snd (AnalysisOrchestrator.analyze_url
                         (sample_env (stub_libs 0) empty_page no_fault)
                         sample_url None None None empty_world)))).
Proof. vm_compute. tauto. Qed.

(* --------------------------------------------------------------------- *)
(** ** What each stage does to the world *)

Lemma crawl_url_spec (env : Env) (url analysis_id : string) (w : World) :
  AnalysisOrchestrator._crawl_url env url analysis_id w
  = (crawl_outcome env url analysis_id,
     mkWorld (db w) (history w) (calls w ++ crawl_calls env url analysis_id)).
Proof.
  unfold AnalysisOrchestrator._crawl_url, crawl_outcome, crawl_calls,
    try_except, bind, call, lift, raise. simpl.
  destruct (BeautifulSoupCrawler.crawl env url analysis_id) as [c|e]; simpl;
    [reflexivity|].
  destruct (PlaywrightCrawler.crawl env url analysis_id) as [c|e']; simpl;
    rewrite <- app_assoc; reflexivity.
Qed.

Lemma parse_content_spec (env : Env) (content : CrawledContent) (w : World) :
  AnalysisOrchestrator._parse_content env content w
  = (match parse_markup env (html_content content) (cc_url content) with
     | Ok pg => Ok (assemble_parsed_data pg)
     | Raise e => Raise e
     end,
     mkWorld (db w) (history w) (calls w ++ [ParseContent])).
Proof.
  unfold AnalysisOrchestrator._parse_content, bind, call, lift, ret. simpl.
  destruct (parse_markup env (html_content content) (cc_url content)); reflexivity.
Qed.

Lemma run_engines_loop_spec (es : list (string * BaseEngine.t))
    (content : CrawledContent) (parsed_data : ParsedData)
    (acc : list EngineScore) (w : World) :
  for_in es
    (fun '(engine_name, engine) scores =>
       try_except
         (bind (call (Analyze engine_name))
            (fun _ => bind (lift (BaseEngine.analyze engine content parsed_data))
                        (fun score => ret (scores ++ [score]))))
         (fun e => ret scores))
    acc w
  = (Ok (acc ++ scored_by es content parsed_data),
     mkWorld (db w) (history w) (calls w ++ map (fun ne => Analyze (fst ne)) es)).
Proof.
  revert acc w. induction es as [|[n e] es IH]; intros acc w.
  - simpl. unfold ret. rewrite !app_nil_r. destruct w; reflexivity.
  - simpl for_in. unfold bind at 1.
    assert (Hstep :
              try_except
                (bind (call (Analyze n))
                   (fun _ => bind (lift (BaseEngine.analyze e content parsed_data))
                               (fun score => ret (acc ++ [score]))))
                (fun _ => ret acc) w
              = (Ok (acc ++ match BaseEngine.analyze e content parsed_data with
                            | Ok s => [s] | Raise _ => [] end),
                 mkWorld (db w) (history w) (calls w ++ [Analyze n]))).
    { unfold try_except, bind, call, lift, ret. simpl.
      destruct (BaseEngine.analyze e content parsed_data); simpl;
        [reflexivity|rewrite app_nil_r; reflexivity]. }
    rewrite Hstep, IH. simpl. unfold scored_by. simpl.
    rewrite <- !app_assoc. reflexivity.
Qed.

(** Step 5 never raises: it returns the scores of the engines that did
    not raise, in the order of the registry. *)
Lemma run_engines_spec (env : Env) (content : CrawledContent) (parsed_data : ParsedData)
    (w : World) :
  AnalysisOrchestrator._run_engines env content parsed_data w
  = (Ok (scored_by (engines env) content parsed_data),
     mkWorld (db w) (history w) (calls w ++ map (fun ne => Analyze (fst ne)) (engines env))).
Proof.
  unfold AnalysisOrchestrator._run_engines. apply run_engines_loop_spec.
Qed.

Lemma save_scores_spec (env : Env) (scores : list EngineScore) (w : World) :
  (forall n, repo_fault env (SaveEngineScore n) = None) ->
  exists h,
    for_in scores (fun score _ => Repository.save_engine_score env score) tt w
    = (Ok tt,
       mkWorld (add_scores (db w) scores) (history w ++ h)
         (calls w ++ map (fun s => Repo (SaveEngineScore (engine_name s))) scores)).
Proof.
  intros Hf. revert w. induction scores as [|s scores IH]; intros w.
  - exists []. simpl. unfold ret, add_scores. rewrite !app_nil_r.
    destruct w as [[]]; reflexivity.
  - simpl for_in. unfold Repository.save_engine_score at 1.
    erewrite bind_ok; [|apply execute_ok; [apply Hf|reflexivity]].
    destruct (IH (mkWorld
                    (mkDb (tbl_analyses (db w)) (tbl_crawled_pages (db w))
                       (tbl_engine_scores (db w) ++ [s])
                       (tbl_simulation_results (db w)) (tbl_gaps (db w)))
                    (history w ++
                       [mkDb (tbl_analyses (db w)) (tbl_crawled_pages (db w))
                          (tbl_engine_scores (db w) ++ [s])
                          (tbl_simulation_results (db w)) (tbl_gaps (db w))])
                    (calls w ++ [Repo (SaveEngineScore (engine_name s))])))
      as [h Hh].
    exists (add_scores (db w) [s] :: h). rewrite Hh. unfold add_scores. simpl.
    rewrite <- !app_assoc. simpl. reflexivity.
Qed.

Lemma identify_loop_spec (env : Env) (scores : list EngineScore) (parsed_data : ParsedData)
    (acc gaps : list Gap) (w : World) :
  engine_gaps (engines env) scores parsed_data acc = Ok gaps ->
  for_in scores
    (fun score all_gaps =>
       match dict_get (engines env) (engine_name score) with
       | Some engine =>
           bind (call (IdentifyGaps (engine_name score)))
             (fun _ => bind (lift (BaseEngine.identify_gaps engine score parsed_data))
                         (fun gaps => ret (all_gaps ++ gaps)))
       | None => ret all_gaps
       end)
    acc w
  = (Ok gaps,
     mkWorld (db w) (history w) (calls w ++ identify_calls (engines env) scores)).
Proof.
  revert acc w. induction scores as [|s scores IH]; intros acc w H.
  - simpl in *. injection H as <-. unfold ret. rewrite app_nil_r. destruct w; reflexivity.
  - simpl in H. simpl for_in. unfold identify_calls. simpl flat_map.
    fold (identify_calls (engines env) scores).
    destruct (dict_get (engines env) (engine_name s)) as [engine|].
    + destruct (BaseEngine.identify_gaps engine s parsed_data) as [g|e] eqn:Eg;
        [|discriminate].
      erewrite bind_ok.
      2:{ unfold bind, call, lift, ret. simpl. reflexivity. }
      rewrite (IH _ _ H). simpl. rewrite <- app_assoc. reflexivity.
    + erewrite bind_ok; [|reflexivity].
      rewrite (IH _ _ H). rewrite app_nil_l. reflexivity.
Qed.

(** Step 7 returns the gaps of the engines that scored, when each of them
    identifies its gaps without raising. *)
Lemma identify_engine_gaps_spec (env : Env) (scores : list EngineScore)
    (parsed_data : ParsedData) (gaps : list Gap) (w : World) :
  engine_gaps (engines env) scores parsed_data [] = Ok gaps ->
  AnalysisOrchestrator.identify_engine_gaps env scores parsed_data w
  = (Ok gaps,
     mkWorld (db w) (history w) (calls w ++ identify_calls (engines env) scores)).
Proof.
  intros H. unfold AnalysisOrchestrator.identify_engine_gaps.
  apply identify_loop_spec, H.
Qed.

(** Step 8 never raises. It adds the gaps of the simulation only when the
    simulator answered and its result was stored, and then all of them. *)
Lemma simulation_step_spec (env : Env) (analysis_id : string)
    (brand product_category use_case : option string)
    (parsed_data : ParsedData) (all_gaps : list Gap) (w : World) :
  exists h,
    AnalysisOrchestrator.simulation_step env analysis_id brand product_category use_case
      parsed_data all_gaps w
    = (Ok (all_gaps
             ++ simulation_gaps env analysis_id brand product_category use_case parsed_data),
       mkWorld
         (add_simulations (db w)
            (simulation_rows env analysis_id brand product_category use_case))
         (history w ++ h)
         (calls w ++ simulation_calls env analysis_id brand product_category use_case)).
Proof.
  unfold AnalysisOrchestrator.simulation_step, simulation_gaps, simulation_rows,
    simulation_calls, simulation_attempt.
  assert (Hid : forall w : World,
             (Ok all_gaps, w)
             = (Ok (all_gaps ++ []),
                mkWorld (add_simulations (db w) []) (history w ++ []) (calls w ++ []))).
  { intros [[a b c d e] h cs]. unfold add_simulations. simpl.
    rewrite !app_nil_r. reflexivity. }
  destruct (simulator env) as [simulate|]; [|exists []; apply Hid].
  destruct (opt_truthy brand && opt_truthy product_category && opt_truthy use_case);
    [|exists []; apply Hid].
  unfold AnalysisOrchestrator._run_simulation, Repository.save_simulation_result,
    try_except, bind, call, lift, raise, ret, execute, write_file. simpl.
  destruct (simulate analysis_id (AnalysisOrchestrator.opt_str brand)
              (AnalysisOrchestrator.opt_str product_category)
              (AnalysisOrchestrator.opt_str use_case)) as [r|e]; simpl.
  - destruct (repo_fault env SaveSimulationResult) as [e1|]; simpl.
    + exists []. unfold add_simulations. destruct w as [[a b c d e] h cs]. simpl.
      rewrite !app_nil_r, <- !app_assoc. reflexivity.
    + destruct (repo_fault env SaveSimulationData) as [e2|]; simpl.
      * exists [add_simulations (db w) [r]]. unfold add_simulations. simpl.
        rewrite !app_nil_r, <- !app_assoc. reflexivity.
      * exists [add_simulations (db w) [r]]. unfold add_simulations. simpl.
        rewrite <- !app_assoc. reflexivity.
  - exists []. unfold add_simulations. destruct w as [[a b c d e'] h cs]. simpl.
    rewrite !app_nil_r. reflexivity.
Qed.

Lemma save_gaps_spec (env : Env) (gaps : list Gap) (w : World) :
  repo_fault env SaveGaps = None ->
  exists h,
    Repository.save_gaps env gaps w
    = (Ok tt,
       mkWorld (add_gaps (db w) gaps) (history w ++ h)
         (calls w ++ match gaps with [] => [] | _ => [Repo SaveGaps] end)).
Proof.
  intros Hf. unfold Repository.save_gaps. destruct gaps as [|g gaps].
  - exists []. unfold ret, add_gaps. destruct w as [[a b c d e] h cs]. simpl.
    rewrite !app_nil_r. reflexivity.
  - exists [add_gaps (db w) (g :: gaps)].
    unfold execute, bind, call. simpl. rewrite Hf. reflexivity.
Qed.

Lemma fresh_id_existsb (nid : string) (d : Db) :
  fresh_id nid d -> existsb (fun r => String.eqb (id r) nid) (tbl_analyses d) = false.
Proof.
  intros H. apply not_true_iff_false. intros E. apply existsb_exists in E.
  destruct E as (a & Ha & Heq). apply String.eqb_eq in Heq. apply (H a Ha Heq).
Qed.

Lemma update_fresh_rows (nid : string) (f : Analysis -> Analysis)
    (rows : list Analysis) (a : Analysis) :
  (forall r, In r rows -> id r <> nid) -> id a = nid ->
  map (fun r => if String.eqb (id r) nid then f r else r) (rows ++ [a]) = rows ++ [f a].
Proof.
  intros Hrows Ha. rewrite map_app. simpl.
  rewrite (proj2 (String.eqb_eq (id a) nid) Ha). f_equal.
  induction rows as [|r rows IH]; [reflexivity|]. simpl.
  destruct (String.eqb_spec (id r) nid) as [E|E].
  - exfalso. apply (Hrows r (or_introl eq_refl) E).
  - f_equal. apply IH. intros r' Hr'. apply Hrows. right. exact Hr'.
Qed.

(** A run in which acquisition, extraction, storage and the gap
    identification of the scoring engines do not fail returns the
    identifier and leaves the record completed, with the composite of the
    engines that scored, their scores, and their gaps followed by those of
    the simulation. *)
Lemma analyze_url_completes (env : Env) (url : string)
    (brand product_category use_case : option string) (w0 : World)
    (content : CrawledContent) (pg : Page) (gaps : list Gap) :
  fresh_id (new_id env) (db w0) ->
  core_writes_succeed env ->
  crawl_outcome env url (new_id env) = Ok content ->
  parse_markup env (html_content content) (cc_url content) = Ok pg ->
  engine_gaps (engines env)
    (scored_by (engines env) content (assemble_parsed_data pg))
    (assemble_parsed_data pg) [] = Ok gaps ->
  exists w,
    AnalysisOrchestrator.analyze_url env url brand product_category use_case w0
    = (Ok (new_id env), w)
    /\ db w
       = completed_db (db w0)
           (mkAnalysis (new_id env) url COMPLETED
              (Some (AnalysisOrchestrator._calculate_composite_score
                       (scored_by (engines env) content (assemble_parsed_data pg))))
              None)
           content
           (scored_by (engines env) content (assemble_parsed_data pg))
           (simulation_rows env (new_id env) brand product_category use_case)
           (gaps ++ simulation_gaps env (new_id env) brand product_category use_case
                      (assemble_parsed_data pg))
    /\ calls w
       = calls w0
         ++ completed_calls env url brand product_category use_case
              (scored_by (engines env) content (assemble_parsed_data pg))
              (gaps ++ simulation_gaps env (new_id env) brand product_category use_case
                         (assemble_parsed_data pg)).
Proof.
  intros Hfresh Hw Hcrawl Hparse Hgaps.
  set (nid := new_id env) in *.
  set (parsed := assemble_parsed_data pg) in *.
  set (scores := scored_by (engines env) content parsed) in *.
  set (sgaps := simulation_gaps env nid brand product_category use_case parsed).
  destruct w0 as [[rows pages escores sims dgaps] h0 c0]. simpl db in *. simpl calls.
  pose proof (fresh_id_existsb nid _ Hfresh) as Hex. simpl in Hex.
  unfold AnalysisOrchestrator.analyze_url, Repository.create_analysis.
  fold nid.
  (* 1. the record is created *)
  erewrite bind_ok.
  2:{ erewrite bind_ok; [reflexivity|].
      apply execute_ok; [apply (Hw CreateAnalysis)|].
      unfold Repository.insert_analysis. simpl. rewrite Hex. reflexivity. }
  simpl db. simpl history. simpl calls. unfold Repository.set_analyses. simpl.
  (* the body of the try returns *)
  match goal with
  | |- exists w, try_except ?m ?hd ?w1 = _ /\ _ =>
      assert (Hrun : exists w, m w1 = (Ok nid, w)
                /\ db w = completed_db (mkDb rows pages escores sims dgaps)
                            (mkAnalysis nid url COMPLETED
                               (Some (AnalysisOrchestrator._calculate_composite_score scores))
                               None)
                            content scores
                            (simulation_rows env nid brand product_category use_case)
                            (gaps ++ sgaps)
                /\ calls w = c0 ++ completed_calls env url brand product_category use_case
                                     scores (gaps ++ sgaps))
  end.
  2:{ destruct Hrun as (w & Hrun & Hdb & Hcalls). exists w.
      rewrite (try_ok _ _ _ _ _ Hrun). auto. }
  unfold AnalysisOrchestrator.pipeline. simpl id.
  (* 2. processing *)
  unfold Repository.update_analysis_status at 1.
  erewrite bind_ok;
    [|apply execute_ok; [apply (Hw (UpdateAnalysisStatus PROCESSING))|reflexivity]].
  unfold Repository.update_analysis, Repository.set_analyses. simpl.
  rewrite update_fresh_rows; [|exact Hfresh|reflexivity]. simpl.
  (* 3. acquisition *)
  erewrite bind_ok; [|rewrite crawl_url_spec, Hcrawl; reflexivity].
  unfold Repository.save_crawled_content.
  erewrite bind_ok.
  2:{ erewrite bind_ok; [|apply execute_ok; [apply (Hw SaveCrawledContent)|reflexivity]].
      apply write_file_ok. apply (Hw SaveRawContent). }
  simpl.
  (* 4. extraction *)
  erewrite bind_ok; [|rewrite parse_content_spec, Hparse; reflexivity].
  fold parsed. simpl.
  (* 5. engines *)
  erewrite bind_ok; [|rewrite run_engines_spec; reflexivity].
  fold scores. simpl.
  match goal with
  | |- exists w, bind (for_in scores _ tt) _ ?w1 = _ /\ _ =>
      destruct (save_scores_spec env scores w1 (fun n => Hw (SaveEngineScore n)))
        as [h1 Hsave]
  end.
  erewrite bind_ok; [|exact Hsave]. clear Hsave.
  unfold add_scores. simpl.
  (* 6. composite score *)
  unfold Repository.update_composite_score.
  erewrite bind_ok; [|apply execute_ok; [apply (Hw UpdateCompositeScore)|reflexivity]].
  unfold Repository.update_analysis, Repository.set_analyses. simpl.
  rewrite update_fresh_rows; [|exact Hfresh|reflexivity]. simpl.
  (* 7. gaps of the engines *)
  erewrite bind_ok; [|apply identify_engine_gaps_spec; exact Hgaps].
  simpl.
  (* 8. simulation *)
  match goal with
  | |- exists w, bind (AnalysisOrchestrator.simulation_step _ _ _ _ _ _ _) _ ?w1 = _ /\ _ =>
      destruct (simulation_step_spec env nid brand product_category use_case
                  parsed gaps w1) as [h2 Hsim]
  end.
  erewrite bind_ok; [|exact Hsim]. clear Hsim. fold sgaps.
  unfold add_simulations. simpl.
  (* 9. the gaps are saved *)
  match goal with
  | |- exists w, bind (Repository.save_gaps _ _) _ ?w1 = _ /\ _ =>
      destruct (save_gaps_spec env (gaps ++ sgaps) w1 (Hw SaveGaps)) as [h3 Hsg]
  end.
  erewrite bind_ok; [|exact Hsg]. clear Hsg.
  unfold add_gaps. simpl.
  (* 10. completed *)
  unfold Repository.update_analysis_status.
  erewrite bind_ok;
    [|apply execute_ok; [apply (Hw (UpdateAnalysisStatus COMPLETED))|reflexivity]].
  unfold Repository.update_analysis, Repository.set_analyses. simpl.
  rewrite update_fresh_rows; [|exact Hfresh|reflexivity]. simpl.
  eexists. split; [reflexivity|]. simpl. split.
  - reflexivity.
  - unfold completed_calls. fold nid. rewrite <- !app_assoc. reflexivity.
Qed.

(* --------------------------------------------------------------------- *)
(** ** Isolation of a failing engine *)

Lemma dict_get_In {V} (d : list (string * V)) (k : string) (v : V) :
  dict_get d k = Some v -> In (k, v) d.
Proof.
  induction d as [|[k' v'] d IH]; simpl; [discriminate|].
  destruct (String.eqb_spec k' k) as [->|E].
  - intros H. injection H as ->. left. reflexivity.
  - intros H. right. apply IH, H.
Qed.

Lemma nodup_fst_unique {V} (es : list (string * V)) (k : string) (v1 v2 : V) :
  NoDup (map fst es) -> In (k, v1) es -> In (k, v2) es -> v1 = v2.
Proof.
  induction es as [|[k' v'] es IH]; simpl; intros Hnd H1 H2; [contradiction|].
  inversion Hnd as [|? ? Hnotin Hnd']; subst.
  assert (Hin : forall v, In (k, v) es -> In k (map fst es)).
  { intros v Hv. apply in_map_iff. exists (k, v). auto. }
  destruct H1 as [H1|H1], H2 as [H2|H2].
  - congruence.
  - injection H1 as -> ->. exfalso. apply Hnotin, (Hin _ H2).
  - injection H2 as -> ->. exfalso. apply Hnotin, (Hin _ H1).
  - apply IH; assumption.
Qed.

Lemma without_engine_absent (x : string) (es : list (string * BaseEngine.t)) :
  ~ In x (map fst es) -> without_engine x es = es.
Proof.
  induction es as [|[n e] es IH]; simpl; intros H; [reflexivity|].
  destruct (String.eqb_spec n x) as [->|E]; simpl.
  - exfalso. apply H. left. reflexivity.
  - f_equal. apply IH. intros Hin. apply H. right. exact Hin.
Qed.

(** The scores are those of the registry without an engine that raised. *)
Lemma scored_by_without (x : string) (ex : BaseEngine.t) (err : string)
    (es : list (string * BaseEngine.t)) (c : CrawledContent) (p : ParsedData) :
  NoDup (map fst es) -> In (x, ex) es ->
  BaseEngine.analyze ex c p = Raise err ->
  scored_by es c p = scored_by (without_engine x es) c p.
Proof.
  intros Hnd Hin Hraise. induction es as [|[n e] es IH]; [contradiction|].
  inversion Hnd as [|? ? Hnotin Hnd']; subst. simpl in Hnotin.
  unfold scored_by. simpl.
  destruct (String.eqb_spec n x) as [->|E]; simpl.
  - assert (e = ex).
    { apply (nodup_fst_unique ((x, e) :: es) x); [exact Hnd|left; reflexivity|exact Hin]. }
    subst e. rewrite Hraise. simpl.
    fold (without_engine x es). rewrite (without_engine_absent x es Hnotin). reflexivity.
  - f_equal. apply IH; [exact Hnd'|].
    destruct Hin as [Hin|Hin]; [|exact Hin]. injection Hin as -> ->. contradiction.
Qed.

Lemma scored_by_origin (es : list (string * BaseEngine.t))
    (c : CrawledContent) (p : ParsedData) (s : EngineScore) :
  In s (scored_by es c p) ->
  exists n e, In (n, e) es /\ BaseEngine.analyze e c p = Ok s.
Proof.
  unfold scored_by. intros H. apply in_flat_map in H.
  destruct H as ([n e] & Hin & Hs). simpl in Hs.
  destruct (BaseEngine.analyze e c p) as [s'|] eqn:E; [|contradiction].
  destruct Hs as [<-|[]]. exists n, e. auto.
Qed.

Lemma registry_signs (es : list (string * BaseEngine.t)) (n : string) (e : BaseEngine.t) :
  registry_ok es -> In (n, e) es -> engine_signs n e.
Proof.
  intros [_ H] Hin. rewrite Forall_forall in H. apply (H (n, e) Hin).
Qed.

(** No score carries the name of an engine that raised. *)
Lemma scored_by_not_failed (x : string) (ex : BaseEngine.t) (err : string)
    (es : list (string * BaseEngine.t)) (c : CrawledContent) (p : ParsedData) :
  registry_ok es -> In (x, ex) es ->
  BaseEngine.analyze ex c p = Raise err ->
  forall s, In s (scored_by es c p) -> engine_name s <> x.
Proof.
  intros Hok Hin Hraise s Hs Hname.
  destruct (scored_by_origin es c p s Hs) as (n & e & Hne & Han).
  destruct (registry_signs es n e Hok Hne) as [Hsign _].
  rewrite (Hsign c p s Han) in Hname. subst n.
  assert (e = ex) by (apply (nodup_fst_unique es x); [apply Hok|assumption|assumption]).
  subst e. congruence.
Qed.

Lemma engine_gaps_origin (es : list (string * BaseEngine.t)) (scores : list EngineScore)
    (p : ParsedData) (acc gaps : list Gap) (g : Gap) :
  engine_gaps es scores p acc = Ok gaps -> In g gaps ->
  In g acc
  \/ exists s e gs,
       In s scores /\ In (engine_name s, e) es
       /\ BaseEngine.identify_gaps e s p = Ok gs /\ In g gs.
Proof.
  revert acc. induction scores as [|s scores IH]; intros acc H Hg; simpl in H.
  - injection H as <-. left. exact Hg.
  - destruct (dict_get es (engine_name s)) as [e|] eqn:Ed.
    + destruct (BaseEngine.identify_gaps e s p) as [gs|] eqn:Eg; [|discriminate].
      destruct (IH _ H Hg) as [Hacc|(s' & e' & gs' & Hs' & He' & Hgs' & Hin')].
      * apply in_app_iff in Hacc. destruct Hacc as [Hacc|Hacc]; [left; exact Hacc|].
        right. exists s, e, gs. repeat split; auto.
        -- left. reflexivity.
        -- apply dict_get_In, Ed.
      * right. exists s', e', gs'. repeat split; auto. right. exact Hs'.
    + destruct (IH _ H Hg) as [Hacc|(s' & e' & gs' & Hs' & He' & Hgs' & Hin')].
      * left. exact Hacc.
      * right. exists s', e', gs'. repeat split; auto. right. exact Hs'.
Qed.

(** No gap is attributed to an engine that raised. *)
Lemma engine_gaps_not_failed (x : string) (ex : BaseEngine.t) (err : string)
    (es : list (string * BaseEngine.t)) (c : CrawledContent) (p : ParsedData)
    (gaps : list Gap) :
  registry_ok es -> In (x, ex) es ->
  BaseEngine.analyze ex c p = Raise err ->
  engine_gaps es (scored_by es c p) p [] = Ok gaps ->
  forall g, In g gaps -> engine_source g <> x.
Proof.
  intros Hok Hin Hraise Hgaps g Hg.
  destruct (engine_gaps_origin es _ p [] gaps g Hgaps Hg)
    as [[]|(s & e & gs & Hs & He & Hgs & Hin')].
  destruct (registry_signs es _ e Hok He) as [_ Hsign].
  rewrite (Hsign s p gs g Hgs Hin').
  apply (scored_by_not_failed x ex err es c p Hok Hin Hraise s Hs).
Qed.

Lemma scored_by_all_failed (es : list (string * BaseEngine.t))
    (c : CrawledContent) (p : ParsedData) :
  (forall n e, In (n, e) es -> exists err, BaseEngine.analyze e c p = Raise err) ->
  scored_by es c p = [].
Proof.
  intros H. induction es as [|[n e] es IH]; [reflexivity|].
  unfold scored_by. simpl.
  destruct (H n e (or_introl eq_refl)) as [err ->]. simpl.
  apply IH. intros n' e' Hin. apply (H n' e'). right. exact Hin.
Qed.

Lemma simulation_gaps_source (analysis_id : string) (r : SimulationResult)
    (p : ParsedData) (g : Gap) :
  In g (AnalysisOrchestrator._extract_simulation_gaps analysis_id r p) ->
  engine_source g = "AI_SIMULATION"%string.
Proof.
  unfold AnalysisOrchestrator._extract_simulation_gaps.
  set (P := fun g : Gap => engine_source g = "AI_SIMULATION"%string).
  intros H. change (P g).
  assert (Hall : forall l acc, Forall P acc ->
             Forall P (fold_left
                         (fun gaps signal =>
                            gaps ++ [mkGap analysis_id "missing_attribute" "medium"
                                       ("AI values this attribute but it may be missing: "
                                          ++ signal)%string
                                       ("Add or enhance information about: " ++ signal)%string
                                       "AI_SIMULATION"])
                         l acc)).
  { induction l as [|x l IH]; intros acc Hacc; simpl; [exact Hacc|].
    apply IH. apply Forall_app. split; [exact Hacc|].
    constructor; [reflexivity|constructor]. }
  eapply Forall_forall in H; [exact H|]. apply Hall.
  unfold append_if. destruct (negb (brand_cited r)); repeat constructor.
Qed.

(* --------------------------------------------------------------------- *)
(** ** The three engines sign what they produce *)

Lemma rbind_ok {A B} (r : Result A) (f : A -> Result B) (b : B) :
  rbind r f = Ok b -> exists a, r = Ok a /\ f a = Ok b.
Proof.
  destruct r as [a|e]; simpl; [|discriminate]. intros H. exists a. auto.
Qed.

Lemma Forall_append_if {A} (P : A -> Prop) (cond : bool) (x : A) (l : list A) :
  P x -> Forall P l -> Forall P (append_if cond x l).
Proof.
  intros Hx Hl. unfold append_if. destruct cond; [|exact Hl].
  apply Forall_app. split; [exact Hl|]. constructor; [exact Hx|constructor].
Qed.

Lemma Forall_fold_append_if {A B} (P : A -> Prop) (cond : B -> bool) (mk : B -> A)
    (xs : list B) (l : list A) :
  (forall b, P (mk b)) -> Forall P l ->
  Forall P (fold_left (fun acc b => append_if (cond b) (mk b) acc) xs l).
Proof.
  intros Hmk. revert l. induction xs as [|b xs IH]; intros l Hl; simpl; [exact Hl|].
  apply IH, Forall_append_if; [apply Hmk|exact Hl].
Qed.

Lemma ade_gaps_signed (lib : PyLibs) (s : EngineScore) (p : ParsedData) (gs : list Gap) :
  ADEEngine.identify_gaps lib s p = Ok gs ->
  Forall (fun g => engine_source g = ADEEngine.name /\ gap_analysis_id g = es_analysis_id s) gs.
Proof.
  unfold ADEEngine.identify_gaps. cbv zeta. intros H.
  apply rbind_ok in H. destruct H as (short & _ & H). injection H as <-.
  unfold ADEEngine.critical_fields. simpl fold_left.
  repeat (apply Forall_append_if; [split; reflexivity|]). constructor.
Qed.

Lemma arce_gaps_signed (lib : PyLibs) (s : EngineScore) (p : ParsedData) (gs : list Gap) :
  ARCEEngine.identify_gaps lib s p = Ok gs ->
  Forall (fun g => engine_source g = ARCEEngine.name /\ gap_analysis_id g = es_analysis_id s) gs.
Proof.
  unfold ARCEEngine.identify_gaps. cbv zeta. intros H.
  apply rbind_ok in H. destruct H as (poor & _ & H). injection H as <-.
  repeat (apply Forall_append_if; [split; reflexivity|]). constructor.
Qed.

Lemma tre_gaps_signed (lib : PyLibs) (s : EngineScore) (p : ParsedData) (gs : list Gap) :
  TREEngine.identify_gaps lib s p = Ok gs ->
  Forall (fun g => engine_source g = TREEngine.name /\ gap_analysis_id g = es_analysis_id s) gs.
Proof.
  unfold TREEngine.identify_gaps. cbv zeta. intros H. injection H as <-.
  repeat (apply Forall_append_if; [split; reflexivity|]). constructor.
Qed.

Lemma ade_score_signed (w : Q) (c : CrawledContent) (p : ParsedData) (s : EngineScore) :
  ADEEngine.analyze w c p = Ok s ->
  engine_name s = ADEEngine.name /\ weight s = w /\ es_analysis_id s = cc_analysis_id c.
Proof.
  unfold ADEEngine.analyze. cbv zeta. intros H.
  apply rbind_ok in H. destruct H as (richness & _ & H).
  apply rbind_ok in H. destruct H as (d & _ & H).
  apply rbind_ok in H. destruct H as (len & _ & H).
  injection H as <-. repeat split.
Qed.

Lemma arce_score_signed (lib : PyLibs) (w : Q) (c : CrawledContent) (p : ParsedData)
    (s : EngineScore) :
  ARCEEngine.analyze lib w c p = Ok s ->
  engine_name s = ARCEEngine.name /\ weight s = w /\ es_analysis_id s = cc_analysis_id c.
Proof.
  unfold ARCEEngine.analyze. cbv zeta. intros H. injection H as <-. repeat split.
Qed.

Lemma tre_score_signed (lib : PyLibs) (w : Q) (c : CrawledContent) (p : ParsedData)
    (s : EngineScore) :
  TREEngine.analyze lib w c p = Ok s ->
  engine_name s = TREEngine.name /\ weight s = w /\ es_analysis_id s = cc_analysis_id c.
Proof.
  unfold TREEngine.analyze. cbv zeta. intros H.
  apply rbind_ok in H. destruct H as (cta & _ & H).
  injection H as <-. repeat split.
Qed.

Lemma default_engines_ok (lib : PyLibs) (weight_ade weight_arce weight_tre : Q) :
  registry_ok (AnalysisOrchestrator.default_engines lib weight_ade weight_arce weight_tre).
Proof.
  split.
  - simpl. repeat constructor; simpl; intuition discriminate.
  - repeat constructor; simpl.
    + intros c p s H. apply (ade_score_signed _ _ _ _ H).
    + intros s p gs g H Hin. pose proof (ade_gaps_signed _ _ _ _ H) as Hall.
      rewrite Forall_forall in Hall. apply (Hall g Hin).
    + intros c p s H. apply (arce_score_signed _ _ _ _ _ H).
    + intros s p gs g H Hin. pose proof (arce_gaps_signed _ _ _ _ H) as Hall.
      rewrite Forall_forall in Hall. apply (Hall g Hin).
    + intros c p s H. apply (tre_score_signed _ _ _ _ _ H).
    + intros s p gs g H Hin. pose proof (tre_gaps_signed _ _ _ _ H) as Hall.
      rewrite Forall_forall in Hall. apply (Hall g Hin).
Qed.

Lemma simulation_gaps_all_sourced (env : Env) (analysis_id : string)
    (brand product_category use_case : option string) (p : ParsedData) (g : Gap) :
  In g (simulation_gaps env analysis_id brand product_category use_case p) ->
  engine_source g = "AI_SIMULATION"%string.
Proof.
  unfold simulation_gaps.
  destruct (simulation_attempt env analysis_id brand product_category use_case)
    as [[r|e]|]; try contradiction.
  destruct (repo_fault env SaveSimulationResult); [contradiction|].
  destruct (repo_fault env SaveSimulationData); [contradiction|].
  apply simulation_gaps_source.
Qed.

(** C3. When the [analyze] of an engine raises, and acquisition,
    extraction, storage and the gap identification of the other engines do
    not fail, the run still returns and leaves the record completed; the
    stored scores and the composite are those of the registry without the
    failing engine, no score and no gap carries its name, and the gaps of
    the simulation carry the source AI_SIMULATION. When every engine
    raises, no score and no engine gap is stored and the composite is 0. *)
Theorem engine_failure_isolated (env : Env) (url : string)
    (brand product_category use_case : option string) (w0 : World)
    (content : CrawledContent) (pg : Page) (gaps : list Gap)
    (x : string) (ex : BaseEngine.t) (err : string) :
  fresh_id (new_id env) (db w0) ->
  core_writes_succeed env ->
  crawl_outcome env url (new_id env) = Ok content ->
  parse_markup env (html_content content) (cc_url content) = Ok pg ->
  registry_ok (engines env) ->
  In (x, ex) (engines env) ->
  BaseEngine.analyze ex content (assemble_parsed_data pg) = Raise err ->
  engine_gaps (engines env)
    (scored_by (engines env) content (assemble_parsed_data pg))
    (assemble_parsed_data pg) [] = Ok gaps ->
  let parsed := assemble_parsed_data pg in
  let remaining := scored_by (without_engine x (engines env)) content parsed in
  let sim_gaps := simulation_gaps env (new_id env) brand product_category use_case parsed in
  exists w,
    AnalysisOrchestrator.analyze_url env url brand product_category use_case w0
    = (Ok (new_id env), w)
    /\ db w
       = completed_db (db w0)
           (mkAnalysis (new_id env) url COMPLETED
              (Some (AnalysisOrchestrator._calculate_composite_score remaining)) None)
           content remaining
           (simulation_rows env (new_id env) brand product_category use_case)
           (gaps ++ sim_gaps)
    /\ (forall s, In s remaining -> engine_name s <> x)
    /\ (forall g, In g gaps -> engine_source g <> x)
    /\ (forall g, In g sim_gaps -> engine_source g = "AI_SIMULATION"%string)
    /\ ((forall n e, In (n, e) (engines env) ->
           exists err', BaseEngine.analyze e content parsed = Raise err') ->
        remaining = [] /\ gaps = []
        /\ AnalysisOrchestrator._calculate_composite_score remaining = 0).
Proof.
  intros Hfresh Hw Hcrawl Hparse Hok Hin Hraise Hgaps parsed remaining sim_gaps.
  destruct (analyze_url_completes env url brand product_category use_case w0
              content pg gaps Hfresh Hw Hcrawl Hparse Hgaps) as (w & Hrun & Hdb & _).
  assert (Hrem : scored_by (engines env) content parsed = remaining).
  { apply (scored_by_without x ex err); [apply Hok|exact Hin|exact Hraise]. }
  fold parsed in Hdb, Hgaps. rewrite Hrem in Hdb.
  exists w. split; [exact Hrun|]. split; [exact Hdb|].
  split; [|split; [|split]].
  - intros s Hs. rewrite <- Hrem in Hs.
    apply (scored_by_not_failed x ex err _ _ _ Hok Hin Hraise s Hs).
  - apply (engine_gaps_not_failed x ex err _ content parsed gaps Hok Hin Hraise Hgaps).
  - intros g. apply simulation_gaps_all_sourced.
  - intros Hall. pose proof (scored_by_all_failed _ content parsed Hall) as Hnil.
    rewrite Hnil in Hgaps. simpl in Hgaps. injection Hgaps as <-.
    rewrite <- Hrem, Hnil. repeat split.
Qed.

Lemma sample_fresh : fresh_id "a1" (db empty_world).
Proof. intros a []. Qed.

Lemma no_fault_succeeds (lib : PyLibs) (pg : Page) :
  core_writes_succeed (sample_env lib pg no_fault).
Proof. intros []; exact I || reflexivity. Qed.

(** On the empty page ADE raises, for lack of a Product schema; ARCE and
    TRE score 15 and 10, and the run completes with their composite 12.5. *)
Lemma engine_failure_isolated_witness :
  exists w,
    AnalysisOrchestrator.analyze_url (sample_env (stub_libs 0) empty_page no_fault)
      sample_url None None None empty_world = (Ok "a1"%string, w)
    /\ tbl_analyses (db w)
       = [mkAnalysis "a1" sample_url COMPLETED (Some (1250 # 100)) None]
    /\ map engine_name (tbl_engine_scores (db w)) = ["ARCE"; "TRE"]%string
    /\ (forall g, In g sample_engine_gaps -> engine_source g <> "ADE"%string).
Proof.
  destruct (engine_failure_isolated
              (sample_env (stub_libs 0) empty_page no_fault)
              sample_url None None None empty_world
              sample_content empty_page sample_engine_gaps
              "ADE" (ADEEngine.engine (stub_libs 0) (30 # 100))
              "'NoneType' object has no attribute 'get'"
              sample_fresh (no_fault_succeeds _ _) eq_refl eq_refl
              (default_engines_ok _ _ _ _) (or_introl eq_refl) eq_refl eq_refl)
    as (w & Hrun & Hdb & _ & Hg & _).
  exists w. split; [exact Hrun|]. rewrite Hdb.
  split; [reflexivity|]. split; [reflexivity|exact Hg].
Defined.

(* --------------------------------------------------------------------- *)
(** ** Acquisition *)

(** C6. When the first fetch fails and the fallback answers, acquisition
    yields the fallback's page tagged [playwright], and the run goes on as
    a completed run on that page: it is the page stored, parsed and
    scored. When both fail, the run raises the error that ends with the
    fallback's message; the record is left failed with that error and no
    composite score, and after the two fetches the only call made is the
    write of the failed status. *)
Theorem acquisition_fallback (env : Env) (url : string)
    (brand product_category use_case : option string) (w0 : World) (e1 : string) :
  fresh_id (new_id env) (db w0) ->
  core_writes_succeed env ->
  httpx_get env url = Raise e1 ->
  (forall r,
     playwright_goto env url = Ok r ->
     let content :=
       mkCrawledContent (new_id env) (final_url r) (response_text r) "playwright"
         (response_status r) in
     crawl_outcome env url (new_id env) = Ok content
     /\ crawl_calls env url (new_id env) = [CrawlPrimary; CrawlFallback]
     /\ forall pg gaps,
          parse_markup env (html_content content) (cc_url content) = Ok pg ->
          engine_gaps (engines env)
            (scored_by (engines env) content (assemble_parsed_data pg))
            (assemble_parsed_data pg) [] = Ok gaps ->
          exists w,
            AnalysisOrchestrator.analyze_url env url brand product_category use_case w0
            = (Ok (new_id env), w)
            /\ db w
               = completed_db (db w0)
                   (mkAnalysis (new_id env) url COMPLETED
                      (Some (AnalysisOrchestrator._calculate_composite_score
                               (scored_by (engines env) content (assemble_parsed_data pg))))
                      None)
                   content
                   (scored_by (engines env) content (assemble_parsed_data pg))
                   (simulation_rows env (new_id env) brand product_category use_case)
                   (gaps ++ simulation_gaps env (new_id env) brand product_category use_case
                              (assemble_parsed_data pg)))
  /\ (forall e2,
        playwright_goto env url = Raise e2 ->
        let msg := ("Failed to crawl " ++ url ++ ": " ++ e2)%string in
        let failed := mkAnalysis (new_id env) url FAILED None (Some msg) in
        exists h,
          AnalysisOrchestrator.analyze_url env url brand product_category use_case w0
          = (Raise msg,
             mkWorld (add_analysis (db w0) failed) (history w0 ++ h)
               (calls w0 ++ [Repo CreateAnalysis; Repo (UpdateAnalysisStatus PROCESSING);
                             CrawlPrimary; CrawlFallback;
                             Repo (UpdateAnalysisStatus FAILED)]))).
Proof.
  intros Hfresh Hw H1.
  assert (Hbs : BeautifulSoupCrawler.crawl env url (new_id env) = Raise e1).
  { unfold BeautifulSoupCrawler.crawl. rewrite H1. reflexivity. }
  split.
  - intros r H2 content.
    assert (Hpw : PlaywrightCrawler.crawl env url (new_id env) = Ok content).
    { unfold PlaywrightCrawler.crawl. rewrite H2. reflexivity. }
    assert (Hc : crawl_outcome env url (new_id env) = Ok content).
    { unfold crawl_outcome. rewrite Hbs, Hpw. reflexivity. }
    split; [exact Hc|]. split; [unfold crawl_calls; rewrite Hbs; reflexivity|].
    intros pg gaps Hparse Hgaps.
    destruct (analyze_url_completes env url brand product_category use_case w0
                content pg gaps Hfresh Hw Hc Hparse Hgaps) as (w & Hrun & Hdb & _).
    exists w. auto.
  - intros e2 H2 msg failed.
    assert (Hpw : PlaywrightCrawler.crawl env url (new_id env) = Raise e2).
    { unfold PlaywrightCrawler.crawl. rewrite H2. reflexivity. }
    assert (Hc : crawl_outcome env url (new_id env) = Raise msg).
    { unfold crawl_outcome. rewrite Hbs, Hpw. reflexivity. }
    destruct w0 as [[rows pages escores sims dgaps] h0 c0]. simpl db in *.
    pose proof (fresh_id_existsb _ _ Hfresh) as Hex. simpl in Hex.
    unfold AnalysisOrchestrator.analyze_url, Repository.create_analysis.
    erewrite bind_ok.
    2:{ erewrite bind_ok; [reflexivity|].
        apply execute_ok; [apply (Hw CreateAnalysis)|].
        unfold Repository.insert_analysis. simpl. rewrite Hex. reflexivity. }
    unfold Repository.set_analyses. simpl.
    erewrite try_raise.
    2:{ unfold AnalysisOrchestrator.pipeline. simpl id.
        unfold Repository.update_analysis_status at 1.
        erewrite bind_ok;
          [|apply execute_ok; [apply (Hw (UpdateAnalysisStatus PROCESSING))|reflexivity]].
        erewrite bind_raise; [reflexivity|].
        rewrite crawl_url_spec, Hc. reflexivity. }
    unfold Repository.update_analysis_status.
    erewrite bind_ok;
      [|apply execute_ok; [apply (Hw (UpdateAnalysisStatus FAILED))|reflexivity]].
    unfold Repository.update_analysis, Repository.set_analyses, raise, add_analysis,
      crawl_calls.
    rewrite Hbs. simpl.
    rewrite !update_fresh_rows; try exact Hfresh; try reflexivity. simpl.
    eexists. rewrite <- !app_assoc. simpl. reflexivity.
Qed.

Lemma blocked_env_succeeds (goto : string -> Result HttpResponse) :
  core_writes_succeed (blocked_env goto).
Proof. intros []; exact I || reflexivity. Qed.

(** A first fetch refused with 403: with a browser that loads the page the
    stored page is tagged [playwright]; with a browser that times out the
    record ends failed, carrying the time-out in its error message. *)
Lemma acquisition_fallback_witness :
  (exists w,
     AnalysisOrchestrator.analyze_url
       (blocked_env (fun u => Ok (mkHttpResponse u "<html></html>" 200)))
       sample_url None None None empty_world = (Ok "a1"%string, w)
     /\ map crawl_method (tbl_crawled_pages (db w)) = ["playwright"%string]
     /\ map status (tbl_analyses (db w)) = [COMPLETED])
  /\ (exists w,
        AnalysisOrchestrator.analyze_url
          (blocked_env (fun _ => Raise "Timeout while loading"))
          sample_url None None None empty_world
        = (Raise "Failed to crawl https://shop.example/item: Timeout while loading", w)
        /\ tbl_analyses (db w)
           = [mkAnalysis "a1" sample_url FAILED None
                (Some "Failed to crawl https://shop.example/item: Timeout while loading"%string)]).
Proof.
  split.
  - destruct (acquisition_fallback
                (blocked_env (fun u => Ok (mkHttpResponse u "<html></html>" 200)))
                sample_url None None None empty_world "403 Forbidden"
                sample_fresh (blocked_env_succeeds _) eq_refl) as [Ha _].
    destruct (Ha (mkHttpResponse sample_url "<html></html>" 200) eq_refl)
      as (_ & _ & Hrun).
    destruct (Hrun empty_page
                (match engine_gaps
                         (engines (blocked_env (fun u => Ok (mkHttpResponse u "<html></html>" 200))))
                         (scored_by
                            (engines (blocked_env (fun u => Ok (mkHttpResponse u "<html></html>" 200))))
                            (mkCrawledContent "a1" sample_url "<html></html>" "playwright" 200)
                            (assemble_parsed_data empty_page))
                         (assemble_parsed_data empty_page) [] with
                 | Ok g => g
                 | Raise _ => []
                 end)
                eq_refl eq_refl) as (w & Hw & Hdb).
    exists w. split; [exact Hw|]. rewrite Hdb. split; reflexivity.
  - destruct (acquisition_fallback
                (blocked_env (fun _ => Raise "Timeout while loading"))
                sample_url None None None empty_world "403 Forbidden"
                sample_fresh (blocked_env_succeeds _) eq_refl) as [_ Hb].
    destruct (Hb "Timeout while loading"%string eq_refl) as [h Hrun].
    eexists. split; [exact Hrun|]. reflexivity.
Defined.

(* --------------------------------------------------------------------- *)
(** ** The simulation step *)

Lemma opt_truthy_supplied (o : option string) : opt_truthy o = true <-> supplied o.
Proof.
  unfold supplied, opt_truthy, str_truthy. split.
  - destruct o as [s|]; [|discriminate]. intros H. exists s. split; [reflexivity|].
    intros ->. discriminate.
  - intros (s & -> & Hs). apply negb_true_iff.
    destruct (String.eqb_spec s ""); [contradiction|reflexivity].
Qed.

Lemma simulation_enabled_configured (env : Env)
    (brand product_category use_case : option string) :
  AnalysisOrchestrator.simulation_enabled env brand product_category use_case = true
  <-> simulation_configured env brand product_category use_case.
Proof.
  unfold AnalysisOrchestrator.simulation_enabled, simulation_configured.
  rewrite !andb_true_iff, !opt_truthy_supplied.
  destruct (simulator env); intuition (discriminate || congruence).
Qed.

Lemma simulation_attempt_enabled (env : Env) (analysis_id : string)
    (brand product_category use_case : option string) :
  simulation_attempt env analysis_id brand product_category use_case <> None
  <-> AnalysisOrchestrator.simulation_enabled env brand product_category use_case = true.
Proof.
  unfold simulation_attempt, AnalysisOrchestrator.simulation_enabled.
  destruct (simulator env); simpl; [|intuition discriminate].
  destruct (opt_truthy brand && opt_truthy product_category && opt_truthy use_case);
    intuition discriminate.
Qed.

Lemma simulation_calls_simulate (env : Env) (analysis_id : string)
    (brand product_category use_case : option string) :
  In Simulate (simulation_calls env analysis_id brand product_category use_case)
  <-> simulation_attempt env analysis_id brand product_category use_case <> None.
Proof.
  unfold simulation_calls.
  destruct (simulation_attempt env analysis_id brand product_category use_case)
    as [[r|e]|]; simpl.
  - destruct (repo_fault env SaveSimulationResult); simpl; intuition discriminate.
  - intuition discriminate.
  - intuition.
Qed.

Lemma no_simulate_refl (w : World) : no_simulate w w.
Proof. exists []. rewrite app_nil_r. auto. Qed.

Lemma no_simulate_trans (w1 w2 w3 : World) :
  no_simulate w1 w2 -> no_simulate w2 w3 -> no_simulate w1 w3.
Proof.
  intros (e1 & H1 & N1) (e2 & H2 & N2). exists (e1 ++ e2). split.
  - rewrite H2, H1, app_assoc. reflexivity.
  - intros H. apply in_app_iff in H. tauto.
Qed.

Lemma no_simulate_call (c : Call) : c <> Simulate -> respects no_simulate (call c).
Proof.
  intros Hc w. exists [c]. simpl. split; [reflexivity|]. intros [H|[]]. contradiction.
Qed.

Lemma no_simulate_execute (env : Env) (c : RepoCall) (stmt : Db -> Result Db) :
  respects no_simulate (execute env c stmt).
Proof.
  intros w. unfold execute, bind, call. simpl.
  exists [Repo c].
  split; [|intros [H|[]]; discriminate].
  destruct (repo_fault env c); [reflexivity|].
  destruct (stmt (db w)); reflexivity.
Qed.

Lemma no_simulate_write_file (env : Env) (c : RepoCall) :
  respects no_simulate (write_file env c).
Proof.
  intros w. unfold write_file, bind, call. simpl.
  exists [Repo c].
  split; [|intros [H|[]]; discriminate].
  destruct (repo_fault env c); reflexivity.
Qed.

Ltac quiet_simulator :=
  repeat first
    [ apply no_simulate_call; discriminate
    | apply no_simulate_write_file
    | apply no_simulate_execute
    | apply respects_ret, no_simulate_refl
    | apply respects_raise, no_simulate_refl
    | apply respects_lift, no_simulate_refl
    | apply respects_bind; [apply no_simulate_trans| |intros ?]
    | apply respects_try; [apply no_simulate_trans| |intros ?]
    | apply respects_for_in;
        [apply no_simulate_refl|apply no_simulate_trans|intros ? ?] ].

(** The simulator is called only when the simulation is configured. *)
Lemma simulate_only_if_configured (env : Env) (url : string)
    (brand product_category use_case : option string) :
  AnalysisOrchestrator.simulation_enabled env brand product_category use_case = false ->
  respects no_simulate
    (AnalysisOrchestrator.analyze_url env url brand product_category use_case).
Proof.
  intros Hoff.
  unfold AnalysisOrchestrator.analyze_url, Repository.create_analysis,
    AnalysisOrchestrator.pipeline, Repository.update_analysis_status,
    Repository.update_composite_score, Repository.save_crawled_content,
    Repository.save_gaps, AnalysisOrchestrator._crawl_url,
    AnalysisOrchestrator._parse_content, AnalysisOrchestrator._run_engines,
    AnalysisOrchestrator.identify_engine_gaps, AnalysisOrchestrator.simulation_step.
  apply respects_bind; [apply no_simulate_trans|quiet_simulator|]. intros analysis.
  apply respects_try; [apply no_simulate_trans| |intros e; quiet_simulator].
  apply respects_bind; [apply no_simulate_trans|quiet_simulator|]. intros _.
  apply respects_bind; [apply no_simulate_trans|quiet_simulator|]. intros content.
  apply respects_bind; [apply no_simulate_trans|quiet_simulator|]. intros _.
  apply respects_bind; [apply no_simulate_trans|quiet_simulator|]. intros parsed.
  apply respects_bind; [apply no_simulate_trans| |intros scores].
  { apply respects_for_in; [apply no_simulate_refl|apply no_simulate_trans|].
    intros [n e] acc. quiet_simulator. }
  apply respects_bind; [apply no_simulate_trans| |intros _].
  { apply respects_for_in; [apply no_simulate_refl|apply no_simulate_trans|].
    intros s u. unfold Repository.save_engine_score. quiet_simulator. }
  apply respects_bind; [apply no_simulate_trans|quiet_simulator|]. intros _.
  apply respects_bind; [apply no_simulate_trans| |intros all_gaps].
  { apply respects_for_in; [apply no_simulate_refl|apply no_simulate_trans|].
    intros s acc. destruct (dict_get (engines env) (engine_name s)); quiet_simulator. }
  apply respects_bind; [apply no_simulate_trans| |intros all_gaps'].
  { unfold AnalysisOrchestrator.simulation_enabled in Hoff.
    destruct (simulator env) as [simulate|]; [|quiet_simulator].
    simpl in Hoff. rewrite Hoff. quiet_simulator. }
  apply respects_bind; [apply no_simulate_trans| |intros _].
  { destruct all_gaps'; quiet_simulator. }
  quiet_simulator.
Qed.

Lemma simulation_failed_no_gaps (env : Env) (analysis_id : string)
    (brand product_category use_case : option string) (p : ParsedData) :
  simulation_failed env analysis_id brand product_category use_case ->
  simulation_gaps env analysis_id brand product_category use_case p = [].
Proof.
  unfold simulation_failed, simulation_gaps.
  destruct (simulation_attempt env analysis_id brand product_category use_case)
    as [[r|e]|]; [|reflexivity|contradiction].
  destruct (repo_fault env SaveSimulationResult); [reflexivity|].
  destruct (repo_fault env SaveSimulationData); [reflexivity|].
  intros [H|H]; contradiction.
Qed.

(** C7. The simulator is called only if a simulator is configured and
    brand, product category and use case are all supplied (as strings
    that are not empty); and in a run whose other stages do not fail it is
    then called. When the simulation fails, because the simulator raises
    or because its result cannot be stored, the run still returns with the
    record completed and the gaps stored are those of the engines alone. *)
Theorem simulation_is_optional (env : Env) (url : string)
    (brand product_category use_case : option string) (w0 : World) :
  (forall ext,
     calls (snd (AnalysisOrchestrator.analyze_url env url brand product_category
                   use_case w0)) = calls w0 ++ ext ->
     In Simulate ext ->
     simulation_configured env brand product_category use_case)
  /\ (forall content pg gaps,
        fresh_id (new_id env) (db w0) ->
        core_writes_succeed env ->
        crawl_outcome env url (new_id env) = Ok content ->
        parse_markup env (html_content content) (cc_url content) = Ok pg ->
        engine_gaps (engines env)
          (scored_by (engines env) content (assemble_parsed_data pg))
          (assemble_parsed_data pg) [] = Ok gaps ->
        exists w ext,
          AnalysisOrchestrator.analyze_url env url brand product_category use_case w0
          = (Ok (new_id env), w)
          /\ calls w = calls w0 ++ ext
          /\ (In Simulate ext <-> simulation_configured env brand product_category use_case)
          /\ (simulation_failed env (new_id env) brand product_category use_case ->
              db w
              = completed_db (db w0)
                  (mkAnalysis (new_id env) url COMPLETED
                     (Some (AnalysisOrchestrator._calculate_composite_score
                              (scored_by (engines env) content (assemble_parsed_data pg))))
                     None)
                  content
                  (scored_by (engines env) content (assemble_parsed_data pg))
                  (simulation_rows env (new_id env) brand product_category use_case)
                  gaps)).
Proof.
  assert (Honly : forall ext,
            calls (snd (AnalysisOrchestrator.analyze_url env url brand product_category
                          use_case w0)) = calls w0 ++ ext ->
            In Simulate ext ->
            simulation_configured env brand product_category use_case).
  { intros ext Hext Hin. apply simulation_enabled_configured.
    destruct (AnalysisOrchestrator.simulation_enabled env brand product_category use_case)
      eqn:E; [reflexivity|exfalso].
    destruct (simulate_only_if_configured env url brand product_category use_case E w0)
      as (ext' & Hext' & Hno).
    rewrite Hext in Hext'. apply app_inv_head in Hext'. subst ext'. contradiction. }
  split; [exact Honly|].
  intros content pg gaps Hfresh Hw Hcrawl Hparse Hgaps.
  destruct (analyze_url_completes env url brand product_category use_case w0
              content pg gaps Hfresh Hw Hcrawl Hparse Hgaps) as (w & Hrun & Hdb & Hcalls).
  exists w. eexists. split; [exact Hrun|]. split; [exact Hcalls|]. split.
  - split.
    + apply Honly. rewrite Hrun. exact Hcalls.
    + intros Hconf. apply simulation_enabled_configured in Hconf.
      apply simulation_attempt_enabled with (analysis_id := new_id env) in Hconf.
      apply simulation_calls_simulate in Hconf.
      unfold completed_calls. rewrite !in_app_iff. tauto.
  - intros Hfail. rewrite Hdb.
    rewrite (simulation_failed_no_gaps _ _ _ _ _ _ Hfail), app_nil_r. reflexivity.
Qed.

Lemma simulated_env_succeeds
    (simulate : string -> string -> string -> string -> Result SimulationResult) :
  core_writes_succeed (simulated_env simulate no_fault).
Proof. intros []; exact I || reflexivity. Qed.

(** With an unreachable simulator and all three arguments supplied, the
    simulator is called, the run completes, and the gaps stored are the
    eight gaps of ARCE and TRE. *)
Lemma simulation_is_optional_witness :
  exists w,
    AnalysisOrchestrator.analyze_url (simulated_env unreachable_simulator no_fault)
      sample_url (Some "Acme") (Some "kettles") (Some "camping")%string empty_world
    = (Ok "a1"%string, w)
    /\ In Simulate (calls w)
    /\ map status (tbl_analyses (db w)) = [COMPLETED]
    /\ tbl_gaps (db w) = sample_engine_gaps.
Proof.
  destruct (simulation_is_optional (simulated_env unreachable_simulator no_fault)
              sample_url (Some "Acme") (Some "kettles") (Some "camping")%string empty_world)
    as [_ H].
  destruct (H sample_content empty_page sample_engine_gaps
              sample_fresh (simulated_env_succeeds _) eq_refl eq_refl eq_refl)
    as (w & ext & Hrun & Hcalls & Hsim & Hfail).
  exists w. split; [exact Hrun|]. split.
  - rewrite Hcalls. apply in_or_app. right. apply Hsim.
    split; [discriminate|].
    repeat split; eexists; (split; [reflexivity|discriminate]).
  - rewrite (Hfail I). split; reflexivity.
Defined.

(* --------------------------------------------------------------------- *)
(** ** The gaps of the simulation *)

Lemma py_in_cons (needle : string) (c : ascii) (hay : string) :
  py_in needle (String c hay)
  = if String.prefix needle (String c hay) then true else py_in needle hay.
Proof. reflexivity. Qed.

Lemma py_in_self (s : string) : py_in s s = true.
Proof.
  assert (H : String.prefix s s = true).
  { induction s as [|c s IH]; simpl; [reflexivity|].
    destruct (ascii_dec c c); [exact IH|contradiction]. }
  destruct s as [|c s]; [reflexivity|]. rewrite py_in_cons, H. reflexivity.
Qed.

Lemma py_in_suffix (pre s : string) : py_in s (pre ++ s)%string = true.
Proof.
  induction pre as [|c pre IH].
  - apply py_in_self.
  - change (String c pre ++ s)%string with (String c (pre ++ s)%string).
    rewrite py_in_cons, IH. destruct (String.prefix s (String c (pre ++ s))); reflexivity.
Qed.

Lemma extract_missing_loop (analysis_id : string) (signals : list string) (acc : list Gap) :
  fold_left
    (fun gaps signal =>
       gaps ++ [mkGap analysis_id "missing_attribute" "medium"
                  ("AI values this attribute but it may be missing: " ++ signal)%string
                  ("Add or enhance information about: " ++ signal)%string
                  "AI_SIMULATION"])
    signals acc
  = acc ++ map (missing_attribute_gap analysis_id) signals.
Proof.
  revert acc. induction signals as [|s signals IH]; intros acc; simpl.
  - rewrite app_nil_r. reflexivity.
  - rewrite IH, <- app_assoc. reflexivity.
Qed.

Lemma extract_simulation_gaps_eq (analysis_id : string) (r : SimulationResult)
    (p : ParsedData) :
  AnalysisOrchestrator._extract_simulation_gaps analysis_id r p
  = (if brand_cited r then [] else [not_cited_gap analysis_id])
    ++ map (missing_attribute_gap analysis_id) (missing_signals r).
Proof.
  unfold AnalysisOrchestrator._extract_simulation_gaps. cbv zeta.
  rewrite extract_missing_loop. unfold append_if.
  destruct (brand_cited r); reflexivity.
Qed.

(** C8. The gaps extracted from a simulation result are: the critical gap
    [not_cited_by_ai], present exactly when the brand was not cited, then
    one medium gap [missing_attribute] per missing signal, in order, whose
    description contains the signal; and nothing else. Step 8 appends
    them behind the gaps it is handed, those of the engines. *)
Theorem simulation_gap_extraction (analysis_id : string) (r : SimulationResult)
    (p : ParsedData) :
  let gaps := AnalysisOrchestrator._extract_simulation_gaps analysis_id r p in
  gaps = (if brand_cited r then [] else [not_cited_gap analysis_id])
         ++ map (missing_attribute_gap analysis_id) (missing_signals r)
  /\ List.length (filter (fun g => String.eqb (gap_type g) "not_cited_by_ai") gaps)
     = (if brand_cited r then 0 else 1)%nat
  /\ filter (fun g => String.eqb (gap_type g) "missing_attribute") gaps
     = map (missing_attribute_gap analysis_id) (missing_signals r)
  /\ (forall signal,
        severity (missing_attribute_gap analysis_id signal) = "medium"%string
        /\ py_in signal (description (missing_attribute_gap analysis_id signal)) = true)
  /\ (forall env brand product_category use_case all_gaps w,
        fst (AnalysisOrchestrator.simulation_step env analysis_id brand product_category
               use_case p all_gaps w)
        = Ok (all_gaps
                ++ simulation_gaps env analysis_id brand product_category use_case p))
  /\ (forall env brand product_category use_case,
        simulation_attempt env analysis_id brand product_category use_case = Some (Ok r) ->
        repo_fault env SaveSimulationResult = None ->
        repo_fault env SaveSimulationData = None ->
        simulation_gaps env analysis_id brand product_category use_case p = gaps).
Proof.
  intros gaps. subst gaps. rewrite extract_simulation_gaps_eq.
  assert (Hnc : forall l,
             filter (fun g => String.eqb (gap_type g) "not_cited_by_ai")
               (map (missing_attribute_gap analysis_id) l) = []).
  { induction l as [|s l IH]; [reflexivity|exact IH]. }
  assert (Hma : forall l,
             filter (fun g => String.eqb (gap_type g) "missing_attribute")
               (map (missing_attribute_gap analysis_id) l)
             = map (missing_attribute_gap analysis_id) l).
  { induction l as [|s l IH]; [reflexivity|]. simpl. f_equal. exact IH. }
  split; [reflexivity|]. split; [|split; [|split; [|split]]].
  - rewrite filter_app, Hnc, app_nil_r. destruct (brand_cited r); reflexivity.
  - rewrite filter_app, Hma. destruct (brand_cited r); reflexivity.
  - intros signal. split; [reflexivity|]. apply py_in_suffix.
  - intros env brand product_category use_case all_gaps w.
    destruct (simulation_step_spec env analysis_id brand product_category use_case
                p all_gaps w) as [h ->]. reflexivity.
  - intros env brand product_category use_case Hatt H1 H2.
    unfold simulation_gaps. rewrite Hatt, H1, H2. apply extract_simulation_gaps_eq.
Qed.

(** The scenario of the specification: the brand is not cited and the
    signals warranty and shipping are missing. *)
Lemma simulation_gap_extraction_witness :
  map (fun g => (gap_type g, severity g))
    (AnalysisOrchestrator._extract_simulation_gaps "a1" sample_simulation
       (assemble_parsed_data empty_page))
  = [("not_cited_by_ai", "critical");
     ("missing_attribute", "medium");
     ("missing_attribute", "medium")]%string
  /\ simulation_gaps (simulated_env (fun _ _ _ _ => Ok sample_simulation) no_fault) "a1"
       (Some "Acme") (Some "kettles") (Some "camping")%string
       (assemble_parsed_data empty_page)
     = [not_cited_gap "a1"; missing_attribute_gap "a1" "warranty";
        missing_attribute_gap "a1" "shipping"].
Proof.
  destruct (simulation_gap_extraction "a1" sample_simulation
              (assemble_parsed_data empty_page)) as (H & _ & _ & _ & _ & Hsim).
  split.
  - rewrite H. reflexivity.
  - rewrite (Hsim (simulated_env (fun _ _ _ _ => Ok sample_simulation) no_fault)
               (Some "Acme") (Some "kettles") (Some "camping")%string
               eq_refl eq_refl eq_refl).
    rewrite H. reflexivity.
Defined.

(* --------------------------------------------------------------------- *)
(** ** The heading hierarchy score of ARCE *)

Lemma count_occ_const_level (lvl : nat) (l : list string) :
  count_occ Nat.eq_dec (map level (map (fun t => mkHeading lvl t) l)) 1%nat
  = if Nat.eqb lvl 1 then List.length l else 0%nat.
Proof.
  induction l as [|t l IH]; simpl.
  - destruct (Nat.eqb lvl 1); reflexivity.
  - destruct (Nat.eq_dec lvl 1) as [->|N]; simpl.
    + rewrite IH. reflexivity.
    + rewrite IH. destruct (Nat.eqb_spec lvl 1); [contradiction|reflexivity].
Qed.

Lemma h1_count_headings (pg : Page) :
  h1_count (HTMLParser.validate_heading_hierarchy pg) = h1_headings pg.
Proof.
  unfold HTMLParser.validate_heading_hierarchy, HTMLParser.extract_headings, h1_headings.
  simpl. rewrite !map_app, !count_occ_app, !count_occ_const_level. simpl. lia.
Qed.

Lemma existsb_count_occ (l : list nat) :
  existsb (Nat.eqb 1) l = (1 <=? count_occ Nat.eq_dec l 1)%nat.
Proof.
  induction l as [|x l IH]; [reflexivity|].
  change (existsb (Nat.eqb 1) (x :: l)) with (Nat.eqb 1 x || existsb (Nat.eqb 1) l).
  rewrite IH. simpl count_occ.
  destruct (Nat.eq_dec x 1) as [->|N]; [reflexivity|].
  destruct (Nat.eqb_spec 1 x); [congruence|reflexivity].
Qed.

Lemma has_h1_headings (pg : Page) :
  has_h1 (HTMLParser.validate_heading_hierarchy pg) = (1 <=? h1_headings pg)%nat.
Proof.
  rewrite <- h1_count_headings.
  unfold HTMLParser.validate_heading_hierarchy. simpl has_h1. simpl h1_count.
  apply existsb_count_occ.
Qed.

Lemma multiple_h1_headings (pg : Page) :
  multiple_h1 (HTMLParser.validate_heading_hierarchy pg) = (1 <? h1_headings pg)%nat.
Proof. rewrite <- h1_count_headings. reflexivity. Qed.

(** C9, as the code has it. The heading score is the sum of 10 points for
    at least one H1, 10 points for at most one H1 (none included) and 5
    points for no skipped level, 25 at most: the two 10-point components
    are earned together exactly by a page with one H1, a page with two or
    more H1 headings earns the first and not the second, and a page
    without H1 earns the second and not the first. *)
Theorem heading_hierarchy_score (pg : Page) :
  let score := ARCEEngine._score_heading_hierarchy (HTMLParser.parse pg) in
  let n := h1_headings pg in
  score == (if (1 <=? n)%nat then 10 else 0)
           + (if (n <=? 1)%nat then 10 else 0)
           + (if no_skipped_level pg then 5 else 0)
  /\ 0 <= score <= 25
  /\ (20 <= score <-> n = 1%nat)
  /\ ((2 <= n)%nat -> score == 10 + (if no_skipped_level pg then 5 else 0))
  /\ (n = 0%nat -> score == 10 + (if no_skipped_level pg then 5 else 0)).
Proof.
  intros score n. subst score.
  unfold ARCEEngine._score_heading_hierarchy. cbv zeta.
  change (heading_validation (HTMLParser.parse pg))
    with (HTMLParser.validate_heading_hierarchy pg).
  rewrite has_h1_headings, multiple_h1_headings. fold n.
  unfold no_skipped_level.
  destruct (skipped_levels (HTMLParser.validate_heading_hierarchy pg)) as [|sk l];
    destruct (Nat.leb_spec 1 n); destruct (Nat.ltb_spec 1 n); destruct (Nat.leb_spec n 1);
    try lia; cbv beta iota delta [negb];
    repeat split; intros; try lia; try lra;
    try (exfalso; lra).
Qed.

(** C9, as claimed, fails: a page with two H1 headings scores 15, the 10
    points for having an H1 among them. *)
Lemma two_h1_earn_ten : ~ claimed_heading_score.
Proof.
  intros H. specialize (H two_h1_page). 
  assert (Hn : (2 <= h1_headings two_h1_page)%nat) by (vm_compute; lia).
  specialize (H Hn). vm_compute in H. apply H. reflexivity.
Qed.

(* --------------------------------------------------------------------- *)
(** ** The short-description gap of ADE *)

Lemma existsb_append_if {A} (f : A -> bool) (cond : bool) (x : A) (l : list A) :
  existsb f (append_if cond x l) = existsb f l || (cond && f x).
Proof.
  unfold append_if. destruct cond; simpl.
  - rewrite existsb_app. simpl. rewrite orb_false_r. reflexivity.
  - rewrite orb_false_r. reflexivity.
Qed.

Lemma str_of_Z_of_nat (n : nat) : str_of_Z (Z.of_nat n) = str_of_nat n.
Proof.
  unfold str_of_Z. destruct (Z.of_nat n) eqn:E; rewrite <- E, Zabs2Nat.id; try reflexivity.
  lia.
Qed.

Lemma Qltb_of_nat (n m : nat) :
  Qltb (inject_Z (Z.of_nat n)) (inject_Z (Z.of_nat m)) = (n <? m)%nat.
Proof.
  destruct (Nat.ltb_spec n m) as [H|H].
  - apply Qltb_true. rewrite <- Zlt_Qlt. lia.
  - apply Qltb_false. rewrite <- Zle_Qle. lia.
Qed.

(** C10. For a page whose Product schema has a textual description of
    [n] characters (none counting as empty), ADE scores, records [n] as
    [description_length], and emits the medium gap [short_description],
    reporting [n] characters, exactly when [n < 100], whatever the meta
    description. The richness sub-score is computed from the description
    if it is not empty and from the meta description otherwise, so the gap
    of an empty description reports 0 characters while the text scored is
    the meta description. *)
Theorem short_description_gap_by_schema (lib : PyLibs) (w : Q)
    (content : CrawledContent) (pg : Page) (p : pydict) (d : string) :
  pg_product pg = Some p ->
  schema_description p = Some d ->
  let parsed := assemble_parsed_data pg in
  let n := String.length d in
  let scored_text := if String.eqb d "" then pg_meta_description pg else d in
  exists sc gaps richness,
    ADEEngine.analyze w content parsed = Ok sc
    /\ dict_get (details sc) "description_length" = Some (PInt (Z.of_nat n))
    /\ ADEEngine.identify_gaps lib sc parsed = Ok gaps
    /\ existsb (fun g => String.eqb (gap_type g) "short_description") gaps = (n <? 100)%nat
    /\ ((n < 100)%nat -> In (short_description_gap (cc_analysis_id content) n) gaps)
    /\ dict_get (details sc) "attribute_richness_score" = Some (PNum richness)
    /\ richness == py_min 1 (Q_of_nat (String.length scored_text) / Q_of_nat 300) * 15
                   + attribute_points (schema parsed) p.
Proof.
  intros Hp Hd parsed n scored_text.
  unfold schema_description in Hd.
  destruct (dict_get_default p "description" (PStr "")) as [| | | |s| |] eqn:Ed;
    try discriminate.
  injection Hd as ->.
  assert (Hget : forall key default,
             ADEEngine.product_get (schema parsed) key default
             = Ok (dict_get_default p key default)).
  { intros key default. unfold ADEEngine.product_get. simpl. rewrite Hp. reflexivity. }
  assert (Hk : py_len (py_or (PStr d) (PStr (meta_description (html parsed))))
               = Ok (String.length scored_text)).
  { unfold py_or, scored_text. simpl. destruct (String.eqb d ""); reflexivity. }
  unfold ADEEngine.analyze, ADEEngine._score_attribute_richness,
    calculate_richness_score. cbv zeta.
  rewrite !Hget. cbn [rbind]. rewrite Ed, Hk. cbn [rbind py_len].
  eexists. eexists. eexists. split; [reflexivity|]. split; [reflexivity|].
  unfold ADEEngine.identify_gaps, py_lt. cbv zeta.
  simpl details. simpl dict_get_default. simpl py_num. simpl rbind.
  split; [reflexivity|].
  change 100 with (inject_Z (Z.of_nat 100)). rewrite Qltb_of_nat. fold n.
  unfold py_str. rewrite str_of_Z_of_nat. simpl es_analysis_id.
  unfold ADEEngine.critical_fields. simpl fold_left.
  split; [|split; [|split]].
  - rewrite !existsb_append_if. simpl.
    rewrite !andb_false_r, !orb_false_r. simpl. rewrite andb_true_r. reflexivity.
  - intros Hn. apply Nat.ltb_lt in Hn. rewrite Hn.
    unfold append_if at 1.
    destruct (py_eq_num _ 0); [apply in_or_app; left|];
      unfold append_if at 1; apply in_or_app; right; left; reflexivity.
  - reflexivity.
  - unfold attribute_points. simpl brand.
    set (m := py_min 1 (Q_of_nat (String.length scored_text) / Q_of_nat 300)).
    destruct (truthy (pg_brand pg));
      destruct (truthy (py_or (py_or (dict_get_default p "sku" PNone)
                                     (dict_get_default p "gtin" PNone))
                              (dict_get_default p "mpn" PNone))); lra.
Qed.

(** An empty schema description beside a meta description of 120
    characters: the richness sub-score is 6, that of the 120 characters,
    and the gap reports a description of 0 characters. *)
Lemma short_description_gap_by_schema_witness :
  String.length (pg_meta_description meta_only_page) = 120%nat
  /\ exists sc gaps richness,
       ADEEngine.analyze (30 # 100) sample_content (assemble_parsed_data meta_only_page)
       = Ok sc
       /\ ADEEngine.identify_gaps (stub_libs 0) sc (assemble_parsed_data meta_only_page)
          = Ok gaps
       /\ In (short_description_gap "a1" 0) gaps
       /\ description (short_description_gap "a1" 0)
          = "Product description is too short (0 characters)"%string
       /\ dict_get (details sc) "attribute_richness_score" = Some (PNum richness)
       /\ richness == 6.
Proof.
  split; [reflexivity|].
  destruct (short_description_gap_by_schema (stub_libs 0) (30 # 100) sample_content
              meta_only_page
              [("@type", PStr "Product"); ("name", PStr "Kettle");
               ("description", PStr "")]%string
              ""%string eq_refl eq_refl)
    as (sc & gaps & richness & H1 & H2 & H3 & H4 & H5 & H6 & H7).
  exists sc, gaps, richness.
  split; [exact H1|]. split; [exact H3|].
  split; [apply H5; simpl; lia|]. split; [reflexivity|].
  split; [exact H6|]. rewrite H7. vm_compute. reflexivity.
Defined.

(* --------------------------------------------------------------------- *)
(** ** The range of the engine scores *)

Lemma Qle_bool_false (a b : Q) : Qle_bool a b = false -> b < a.
Proof.
  intros H. apply Qnot_le_lt. intros Hle. apply Qle_bool_iff in Hle. congruence.
Qed.

Lemma py_min_bounds (a b : Q) : 0 <= a -> 0 <= b -> 0 <= py_min a b <= a.
Proof.
  intros Ha Hb. unfold py_min. destruct (Qle_bool a b) eqn:E.
  - split; [exact Ha|apply Qle_refl].
  - apply Qle_bool_false in E. split; [exact Hb|apply Qlt_le_weak, E].
Qed.

Lemma Q_of_nat_nonneg (n : nat) : 0 <= Q_of_nat n.
Proof.
  unfold Q_of_nat. change 0 with (inject_Z 0). rewrite <- Zle_Qle. lia.
Qed.

Lemma Q_of_nat_ratio (n m : nat) :
  (n <= m)%nat -> (0 < m)%nat -> 0 <= Q_of_nat n / Q_of_nat m <= 1.
Proof.
  intros Hnm Hm.
  assert (Hpos : 0 < Q_of_nat m).
  { unfold Q_of_nat. change 0 with (inject_Z 0). rewrite <- Zlt_Qlt. lia. }
  assert (Hle : Q_of_nat n <= Q_of_nat m).
  { unfold Q_of_nat. rewrite <- Zle_Qle. lia. }
  pose proof (Q_of_nat_nonneg n) as Hn.
  split.
  - apply Qle_shift_div_l; [exact Hpos|lra].
  - apply Qle_shift_div_r; [exact Hpos|lra].
Qed.

Lemma Q_of_nat_div_nonneg (n m : nat) : 0 <= Q_of_nat n / Q_of_nat m.
Proof.
  destruct m as [|m].
  - unfold Qdiv. change (/ Q_of_nat 0) with 0. lra.
  - pose proof (Q_of_nat_nonneg n) as Hn.
    apply Qle_shift_div_l; [|lra].
    unfold Q_of_nat. change 0 with (inject_Z 0). rewrite <- Zlt_Qlt. lia.
Qed.

Lemma completeness_range (product_schema : option pydict) :
  0 <= completeness (SchemaParser.validate_product_schema product_schema) <= 1.
Proof.
  unfold SchemaParser.validate_product_schema.
  destruct product_schema as [[|kv p]|]; cbn [completeness]; try lra.
  apply Q_of_nat_ratio; [apply filter_length_le|simpl; lia].
Qed.

Lemma ade_schema_range (pg : Page) :
  0 <= ADEEngine._score_schema_completeness (schema (assemble_parsed_data pg)) <= 40.
Proof.
  unfold ADEEngine._score_schema_completeness. cbv zeta. simpl product_validation.
  pose proof (completeness_range (pg_product pg)) as [H0 H1].
  destruct (negb (present (SchemaParser.validate_product_schema (pg_product pg)))); lra.
Qed.

Lemma ade_richness_range (schema_data : SchemaData) (html_data : HtmlData) (q : Q) :
  ADEEngine._score_attribute_richness schema_data html_data = Ok q -> 0 <= q <= 30.
Proof.
  unfold ADEEngine._score_attribute_richness, calculate_richness_score. cbv zeta.
  intros H.
  apply rbind_ok in H. destruct H as (d & _ & H).
  apply rbind_ok in H. destruct H as (desc_score & Hdesc & H).
  apply rbind_ok in Hdesc. destruct Hdesc as (k & _ & Hdesc). injection Hdesc as <-.
  apply rbind_ok in H. destruct H as (sku & _ & H).
  apply rbind_ok in H. destruct H as (gtin & _ & H).
  apply rbind_ok in H. destruct H as (mpn & _ & H).
  injection H as <-.
  pose proof (py_min_bounds 1 (Q_of_nat k / Q_of_nat 300)) as Hm.
  assert (Hr : 0 <= py_min 1 (Q_of_nat k / Q_of_nat 300) <= 1).
  { apply Hm; [lra|apply Q_of_nat_div_nonneg]. }
  set (m := py_min 1 (Q_of_nat k / Q_of_nat 300)) in *.
  destruct (truthy (brand schema_data)); destruct (truthy (py_or (py_or sku gtin) mpn));
    lra.
Qed.

Lemma ade_image_range (schema_data : SchemaData) (html_data : HtmlData) :
  0 <= ADEEngine._score_image_quality schema_data html_data <= 20.
Proof.
  unfold ADEEngine._score_image_quality. cbv zeta.
  destruct (images html_data) as [|img imgs] eqn:E; [lra|].
  set (l := img :: imgs).
  pose proof (py_min_bounds 10 (Q_of_nat (List.length l) * (25 # 10))) as Hm.
  assert (Hc : 0 <= py_min 10 (Q_of_nat (List.length l) * (25 # 10)) <= 10).
  { apply Hm; [lra|]. pose proof (Q_of_nat_nonneg (List.length l)). lra. }
  pose proof (Q_of_nat_ratio
                (List.length (filter (fun img => str_truthy (alt img)) l))
                (List.length l)) as Hr.
  assert (Ha : 0 <= Q_of_nat (List.length (filter (fun img => str_truthy (alt img)) l))
                    / Q_of_nat (List.length l) <= 1).
  { apply Hr; [apply filter_length_le|simpl; lia]. }
  set (a := Q_of_nat (List.length (filter (fun img => str_truthy (alt img)) l))
            / Q_of_nat (List.length l)) in *.
  set (c := py_min 10 (Q_of_nat (List.length l) * (25 # 10))) in *.
  lra.
Qed.

Lemma ade_specs_range (html_data : HtmlData) :
  0 <= ADEEngine._score_technical_specs html_data <= 10.
Proof.
  unfold ADEEngine._score_technical_specs. cbv zeta.
  apply py_min_bounds; [lra|].
  match goal with |- 0 <= Q_of_nat ?n * 2 => pose proof (Q_of_nat_nonneg n) end. lra.
Qed.

(** Whenever ADE scores a parsed page, its score lies in [0,100]. *)
Lemma ade_score_range (w : Q) (content : CrawledContent) (pg : Page) (sc : EngineScore) :
  ADEEngine.analyze w content (assemble_parsed_data pg) = Ok sc -> 0 <= score sc <= 100.
Proof.
  unfold ADEEngine.analyze. cbv zeta. intros H.
  apply rbind_ok in H. destruct H as (richness & Hr & H).
  apply rbind_ok in H. destruct H as (d & _ & H).
  apply rbind_ok in H. destruct H as (len & _ & H).
  injection H as <-. unfold BaseEngine.create_score. cbn [score].
  pose proof (ade_schema_range pg).
  pose proof (ade_richness_range _ _ _ Hr).
  pose proof (ade_image_range (schema (assemble_parsed_data pg))
                (html (assemble_parsed_data pg))).
  pose proof (ade_specs_range (html (assemble_parsed_data pg))).
  unfold assemble_parsed_data in *. cbn [schema html] in *.
  lra.
Qed.

(** ADE has no score for a page without Product schema: it raises. *)
Lemma ade_raises_without_schema (w : Q) (content : CrawledContent) (pg : Page) :
  pg_product pg = None ->
  ADEEngine.analyze w content (assemble_parsed_data pg)
  = Raise "'NoneType' object has no attribute 'get'".
Proof.
  intros H. unfold ADEEngine.analyze, ADEEngine._score_attribute_richness,
    ADEEngine.product_get. simpl. rewrite H. reflexivity.
Qed.

(** Whenever TRE scores, its score lies in [0,100]. *)
Lemma tre_score_range (lib : PyLibs) (w : Q) (content : CrawledContent)
    (parsed_data : ParsedData) (sc : EngineScore) :
  TREEngine.analyze lib w content parsed_data = Ok sc -> 0 <= score sc <= 100.
Proof.
  unfold TREEngine.analyze. cbv zeta. intros H.
  apply rbind_ok in H. destruct H as (cta & Hcta & H). injection H as <-.
  unfold BaseEngine.create_score. cbn [score].
  assert (Hc : 0 <= cta <= 30).
  { unfold TREEngine._score_cta_presence in Hcta. cbv zeta in Hcta.
    apply rbind_ok in Hcta. destruct Hcta as (s & Hs & Hcta). injection Hcta as <-.
    assert (0 <= s).
    { destruct (TREEngine._detect_buy_button (html parsed_data));
        destruct (truthy (offers (schema parsed_data)));
        try (injection Hs as <-; lra);
        apply rbind_ok in Hs; destruct Hs as (price & _ & Hs);
        apply rbind_ok in Hs; destruct Hs as (complete & _ & Hs);
        injection Hs as <-; destruct complete; lra. }
    apply py_min_bounds; [lra|assumption]. }
  unfold TREEngine._score_trust_signals, TREEngine._score_contact_info,
    TREEngine._score_payment_shipping_info. cbv zeta.
  destruct (TREEngine.is_https (cc_url content));
    destruct (has_reviews (schema parsed_data));
    destruct (any_keyword TREEngine.policy_keywords _);
    destruct (TREEngine._detect_email lib _);
    destruct (TREEngine._detect_phone lib _);
    destruct (any_keyword TREEngine.address_keywords _);
    destruct (any_keyword TREEngine.payment_keywords _);
    destruct (any_keyword TREEngine.shipping_keywords _); lra.
Qed.

Lemma arce_readability_range (lib : PyLibs) (html_data : HtmlData) :
  ARCEEngine._score_readability lib html_data <= 25
  /\ (0 <= ARCEEngine._calculate_flesch_score lib (text_content html_data) ->
      0 <= ARCEEngine._score_readability lib html_data).
Proof.
  unfold ARCEEngine._score_readability. cbv zeta.
  destruct (negb (str_truthy (text_content html_data))
            || (String.length (text_content html_data) <? 100)%nat); [split; lra|].
  set (f := ARCEEngine._calculate_flesch_score lib (text_content html_data)).
  destruct (Qle_bool 60 f) eqn:E60; [split; lra|].
  apply Qle_bool_false in E60.
  unfold Qdiv. change (/ 60) with (1 # 60). change (/ 30) with (1 # 30).
  destruct (Qle_bool 30 f) eqn:E30.
  - apply Qle_bool_iff in E30. split; intros; lra.
  - apply Qle_bool_false in E30. split; intros; lra.
Qed.

(** The score of ARCE never exceeds 100, and it is not negative when the
    reading ease is not. *)
Lemma arce_score_range (lib : PyLibs) (w : Q) (content : CrawledContent)
    (parsed_data : ParsedData) (sc : EngineScore) :
  ARCEEngine.analyze lib w content parsed_data = Ok sc ->
  score sc <= 100
  /\ (0 <= ARCEEngine._calculate_flesch_score lib (text_content (html parsed_data)) ->
      0 <= score sc).
Proof.
  unfold ARCEEngine.analyze. cbv zeta. intros H. injection H as <-.
  unfold BaseEngine.create_score. cbn [score].
  pose proof (arce_readability_range lib (html parsed_data)) as [Hr1 Hr0].
  assert (Hs : 0 <= ARCEEngine._score_semantic_html (html parsed_data) <= 30).
  { unfold ARCEEngine._score_semantic_html. cbv zeta. apply py_min_bounds; [lra|].
    pose proof (Q_of_nat_nonneg (count_semantic_html_tags (html parsed_data))). lra. }
  assert (Hh : 0 <= ARCEEngine._score_heading_hierarchy (html parsed_data) <= 25).
  { unfold ARCEEngine._score_heading_hierarchy. cbv zeta.
    destruct (has_h1 _); destruct (negb (multiple_h1 _)); destruct (negb _); lra. }
  assert (Hm : 0 <= ARCEEngine._score_metadata (html parsed_data) <= 20).
  { unfold ARCEEngine._score_metadata. cbv zeta.
    destruct (str_truthy (title _)); destruct (str_truthy (meta_description _));
      destruct (3 <=? _)%nat; destruct (str_truthy (dict_get_default _ _ _)); lra. }
  split; [lra|]. intros Hf. specialize (Hr0 Hf). lra.
Qed.

(** C4 fails on ARCE. On a page whose text has 100 characters or more and
    a Flesch reading ease of -60 (textstat has no lower bound), the
    readability sub-score is -25 and the score of ARCE is -10, below 0. *)
Theorem arce_score_below_zero :
  exists sc,
    ARCEEngine.analyze (stub_libs (-60)) (20 # 100) sample_content
      (assemble_parsed_data dense_text_page) = Ok sc
    /\ ARCEEngine._score_readability (stub_libs (-60))
         (html (assemble_parsed_data dense_text_page)) == -25
    /\ score sc == -10
    /\ score sc < 0.
Proof.
  eexists. split; [reflexivity|]. repeat split.
Qed.

(* --------------------------------------------------------------------- *)
(** ** The order of the gaps *)




Section StableSort.

Variable A : Type.
Variable key : A -> nat.

Let le (a b : A) : bool := (key a <=? key b)%nat.







End StableSort.


(* ===================================================================== *)
(** * Further properties of the code *)
(* ===================================================================== *)

(* --------------------------------------------------------------------- *)
(** ** Parsers *)

Lemma levels_of_block (lvl : nat) (ts : list string) :
  map level (map (fun t => mkHeading lvl t) ts) = repeat lvl (List.length ts).
Proof. induction ts as [|t ts IH]; simpl; [reflexivity|]. rewrite IH. reflexivity. Qed.

Lemma blocks_sorted (n : nat -> nat) (lvls : list nat) :
  StronglySorted lt lvls ->
  StronglySorted le (flat_map (fun l => repeat l (n l)) lvls)
  /\ forall x, In x (flat_map (fun l => repeat l (n l)) lvls) -> In x lvls.
Proof.
  induction 1 as [|l lvls Hs [IHs IHin] Hl]; simpl.
  - split; [constructor|tauto].
  - split.
    + induction (n l) as [|k IHk]; simpl; [exact IHs|].
      constructor; [exact IHk|].
      apply Forall_forall. intros x Hx. apply in_app_iff in Hx. destruct Hx as [Hx|Hx].
      * apply repeat_spec in Hx. lia.
      * apply IHin in Hx. rewrite Forall_forall in Hl. specialize (Hl x Hx). lia.
    + intros x Hx. apply in_app_iff in Hx. destruct Hx as [Hx|Hx].
      * apply repeat_spec in Hx. left. congruence.
      * right. apply IHin, Hx.
Qed.

Lemma heading_levels_sorted (pg : Page) :
  StronglySorted le (map level (HTMLParser.extract_headings pg)).
Proof.
  unfold HTMLParser.extract_headings.
  rewrite flat_map_concat_map, concat_map, map_map.
  rewrite (map_ext _ (fun l => repeat l (List.length (pg_find_all_h pg l))))
    by (intros l; apply levels_of_block).
  rewrite <- flat_map_concat_map.
  apply blocks_sorted.
  repeat (constructor; [|repeat constructor; lia]). constructor.
Qed.

Lemma skipped_sorted (L : list nat) :
  StronglySorted le L ->
  forall a b,
    In (a, b) (HTMLParser.skipped L)
    <-> In a L /\ In b L /\ (a + 1 < b)%nat /\ forall c, In c L -> ~ (a < c < b)%nat.
Proof.
  induction 1 as [|x rest Hs IH Hx]; intros a b.
  - simpl. tauto.
  - destruct rest as [|y r].
    + simpl. split; [tauto|]. intros ([<-|[]] & [<-|[]] & H & _). lia.
    + assert (Hxy : (x <= y)%nat) by (inversion Hx; assumption).
      assert (Hrest : forall c, In c (y :: r) -> (y <= c)%nat).
      { intros c [<-|Hc]; [lia|]. inversion Hs as [|? ? ? Hy]; subst.
        rewrite Forall_forall in Hy. apply Hy, Hc. }
      rewrite Forall_forall in Hx.
      change (HTMLParser.skipped (x :: y :: r))
        with (if (1 <? y - x)%nat then (x, y) :: HTMLParser.skipped (y :: r)
              else HTMLParser.skipped (y :: r)).
      split.
      * intros Hin.
        assert (Hcase : ((a, b) = (x, y) /\ (1 < y - x)%nat)
                        \/ In (a, b) (HTMLParser.skipped (y :: r))).
        { destruct (Nat.ltb_spec 1 (y - x)); [|right; exact Hin].
          destruct Hin as [E|Hin]; [left; split; [symmetry; exact E|assumption]|right; exact Hin]. }
        destruct Hcase as [[E Hd]|Hin'].
        -- injection E as -> ->. split; [left; reflexivity|]. split; [right; left; reflexivity|].
           split; [lia|]. intros c [<-|Hc]; [lia|]. specialize (Hrest c Hc). lia.
        -- apply IH in Hin'. destruct Hin' as (Ha & Hb & Hab & Hnone).
           split; [right; exact Ha|]. split; [right; exact Hb|]. split; [exact Hab|].
           intros c [<-|Hc]; [|apply Hnone, Hc].
           specialize (Hx a Ha). lia.
      * intros (Ha & Hb & Hab & Hnone).
        assert (Hb' : In b (y :: r)).
        { destruct Hb as [<-|Hb]; [|exact Hb].
          destruct Ha as [<-|Ha]; [lia|]. specialize (Hx a Ha). lia. }
        destruct (in_dec Nat.eq_dec a (y :: r)) as [Ha'|Ha'].
        -- assert (Hin : In (a, b) (HTMLParser.skipped (y :: r))).
           { apply IH. repeat split; try assumption. intros c Hc. apply Hnone. right. exact Hc. }
           destruct (1 <? y - x)%nat; [right|]; exact Hin.
        -- destruct Ha as [<-|Ha]; [|contradiction].
           assert (x <> y) by (intros ->; apply Ha'; left; reflexivity).
           pose proof (Hrest b Hb') as Hyb.
           assert (y = b).
           { destruct (Nat.eq_dec y b) as [E|N]; [exact E|].
             exfalso. apply (Hnone y); [right; left; reflexivity|lia]. }
           subst b. destruct (Nat.ltb_spec 1 (y - x)); [left; reflexivity|lia].
Qed.

Lemma level_present_extracted (pg : Page) (lvl : nat) :
  In lvl (map level (HTMLParser.extract_headings pg)) <-> level_present pg lvl.
Proof.
  unfold HTMLParser.extract_headings, level_present.
  rewrite in_map_iff. split.
  - intros (h & <- & Hh). apply in_flat_map in Hh. destruct Hh as (l & Hl & Hh).
    apply in_map_iff in Hh. destruct Hh as (t & <- & Ht). cbn [level].
    split; [exact Hl|]. intros E. rewrite E in Ht. exact Ht.
  - intros [Hl Hne]. destruct (pg_find_all_h pg lvl) as [|t ts] eqn:E; [contradiction|].
    exists (mkHeading lvl t). split; [reflexivity|].
    apply in_flat_map. exists lvl. split; [exact Hl|]. rewrite E. left. reflexivity.
Qed.

(** X1. The skipped levels reported by validate_heading_hierarchy depend
    only on which heading levels h1 to h6 occur on the page, not on the
    order of the headings in the document: the pair (a, b) is reported
    exactly when both levels occur, b is more than one level below a, and
    no level strictly between them occurs. *)
Theorem skipped_levels_by_presence (pg : Page) (a b : nat) :
  In (a, b) (skipped_levels (HTMLParser.validate_heading_hierarchy pg))
  <-> level_present pg a /\ level_present pg b /\ (a + 1 < b)%nat
      /\ forall c, (a < c < b)%nat -> ~ level_present pg c.
Proof.
  unfold HTMLParser.validate_heading_hierarchy. cbn [skipped_levels].
  rewrite (skipped_sorted _ (heading_levels_sorted pg)).
  rewrite !level_present_extracted.
  split; intros (Ha & Hb & Hab & Hnone);
    (split; [exact Ha|]); (split; [exact Hb|]); (split; [exact Hab|]).
  - intros c Hc Hin. apply level_present_extracted in Hin. apply (Hnone c Hin Hc).
  - intros c Hin Hc. apply level_present_extracted in Hin. apply (Hnone c Hc Hin).
Qed.

(** X2. ARCE's heading score is the full 25 points exactly when the
    parser's validation calls the hierarchy valid; it is never below 10,
    and a page without any heading scores 15. *)
Theorem heading_score_full_iff_valid (pg : Page) :
  let html_data := HTMLParser.parse pg in
  (ARCEEngine._score_heading_hierarchy html_data == 25
     <-> valid_hierarchy (heading_validation html_data) = true)
  /\ 10 <= ARCEEngine._score_heading_hierarchy html_data
  /\ ((forall lvl, pg_find_all_h pg lvl = []) ->
      ARCEEngine._score_heading_hierarchy html_data == 15).
Proof.
  intros html_data. subst html_data.
  unfold ARCEEngine._score_heading_hierarchy. cbv zeta.
  change (heading_validation (HTMLParser.parse pg))
    with (HTMLParser.validate_heading_hierarchy pg).
  assert (Hv : valid_hierarchy (HTMLParser.validate_heading_hierarchy pg)
               = has_h1 (HTMLParser.validate_heading_hierarchy pg)
                 && (h1_count (HTMLParser.validate_heading_hierarchy pg) =? 1)%nat
                 && match skipped_levels (HTMLParser.validate_heading_hierarchy pg) with
                    | [] => true | _ => false end) by reflexivity.
  rewrite Hv, has_h1_headings, multiple_h1_headings, h1_count_headings.
  assert (Hnone : (forall lvl, pg_find_all_h pg lvl = []) ->
                  h1_headings pg = 0%nat
                  /\ skipped_levels (HTMLParser.validate_heading_hierarchy pg) = []).
  { intros H. unfold h1_headings, HTMLParser.validate_heading_hierarchy,
      HTMLParser.extract_headings. simpl. rewrite !H. simpl. split; reflexivity. }
  destruct (skipped_levels (HTMLParser.validate_heading_hierarchy pg)) as [|sk l];
    destruct (h1_headings pg) as [|[|n]];
    cbv beta iota delta [negb andb Nat.leb Nat.ltb Nat.eqb];
    (split; [split; intros E; try reflexivity; try discriminate; try lra; exfalso; lra|]);
    (split; [lra|]); intros E; destruct (Hnone E) as [E0 Es];
    try discriminate; lra.
Qed.

Lemma filter_partition_length {A} (f : A -> bool) (l : list A) :
  (List.length (filter f l) + List.length (filter (fun x => negb (f x)) l))%nat
  = List.length l.
Proof.
  induction l as [|x l IH]; simpl; [reflexivity|].
  destruct (f x); simpl; lia.
Qed.

(** X3. validate_product_schema splits the ten recommended fields: the
    present and the missing fields together count 10, field_count is the
    number of present fields, completeness is field_count / 10, a
    recommended field is missing exactly when it is not present, every
    present field has a truthy value in the schema, and without a Product
    schema the count and the completeness are 0. *)
Theorem product_validation_partition (product_schema : option pydict) :
  let v := SchemaParser.validate_product_schema product_schema in
  (field_count v + List.length (missing_fields v) = 10)%nat
  /\ field_count v = List.length (present_fields v)
  /\ completeness v == Q_of_nat (field_count v) / 10
  /\ (forall field, In field SchemaParser.recommended_fields ->
        (In field (missing_fields v) <-> ~ In field (present_fields v)))
  /\ (forall field, In field (present_fields v) ->
        present v = true
        /\ exists p value, product_schema = Some p
             /\ dict_get p field = Some value /\ truthy value = true)
  /\ (present v = false -> field_count v = 0%nat /\ completeness v == 0).
Proof.
  intros v. subst v. unfold SchemaParser.validate_product_schema.
  assert (Habsent :
    let v := {| present := false; completeness := 0; present_fields := [];
                missing_fields := SchemaParser.recommended_fields; field_count := 0 |} in
    (field_count v + List.length (missing_fields v) = 10)%nat
    /\ field_count v = List.length (present_fields v)
    /\ completeness v == Q_of_nat (field_count v) / 10
    /\ (forall field, In field SchemaParser.recommended_fields ->
          (In field (missing_fields v) <-> ~ In field (present_fields v)))
    /\ (forall field, In field (present_fields v) ->
          present v = true
          /\ exists p value, product_schema = Some p
               /\ dict_get p field = Some value /\ truthy value = true)
    /\ (present v = false -> field_count v = 0%nat /\ completeness v == 0)).
  { cbv zeta. cbn [field_count missing_fields present_fields completeness present].
    split; [reflexivity|]. split; [reflexivity|]. split; [reflexivity|].
    split; [intros field Hin; simpl In at 2; tauto|].
    split; [intros field []|]. intros _. split; reflexivity. }
  destruct product_schema as [[|kv p]|]; [exact Habsent| |exact Habsent].
  clear Habsent.
  cbn [field_count missing_fields present_fields completeness present].
  set (d := kv :: p).
  split; [|split; [|split; [|split; [|split]]]].
  - pose proof (filter_partition_length (SchemaParser.field_present d)
                  SchemaParser.recommended_fields) as H. simpl List.length in H at 3.
    exact H.
  - reflexivity.
  - reflexivity.
  - intros field Hin. rewrite !filter_In.
    destruct (SchemaParser.field_present d field); split.
    + intros [_ H]. discriminate.
    + intros H. exfalso. apply H. split; [exact Hin|reflexivity].
    + intros _ [_ H]. discriminate.
    + intros _. split; [exact Hin|reflexivity].
  - intros field Hin. apply filter_In in Hin. destruct Hin as [_ Hp].
    split; [reflexivity|]. unfold SchemaParser.field_present in Hp.
    destruct (dict_get d field) as [value|] eqn:E; [|discriminate].
    exists d, value. auto.
  - discriminate.
Qed.

(* --------------------------------------------------------------------- *)
(** ** Engines *)

(** X4. Whenever ADE scores a page, each of its four components stays
    within its budget (schema completeness 0 to 40, attribute richness 0
    to 30, image quality 0 to 20, technical specifications 0 to 10), the
    score is their sum, and it lies between 0 and 100. *)
Theorem ade_score_bounds (w : Q) (content : CrawledContent) (pg : Page) (sc : EngineScore) :
  ADEEngine.analyze w content (assemble_parsed_data pg) = Ok sc ->
  let p := assemble_parsed_data pg in
  0 <= ADEEngine._score_schema_completeness (schema p) <= 40
  /\ (exists richness,
        ADEEngine._score_attribute_richness (schema p) (html p) = Ok richness
        /\ 0 <= richness <= 30
        /\ score sc == ADEEngine._score_schema_completeness (schema p) + richness
                       + ADEEngine._score_image_quality (schema p) (html p)
                       + ADEEngine._score_technical_specs (html p))
  /\ 0 <= ADEEngine._score_image_quality (schema p) (html p) <= 20
  /\ 0 <= ADEEngine._score_technical_specs (html p) <= 10
  /\ 0 <= score sc <= 100.
Proof.
  intros H p.
  split; [apply ade_schema_range|].
  split.
  - unfold ADEEngine.analyze in H. cbv zeta in H.
    apply rbind_ok in H. destruct H as (richness & Hr & H).
    apply rbind_ok in H. destruct H as (d & _ & H).
    apply rbind_ok in H. destruct H as (len & _ & H).
    injection H as <-. exists richness. split; [exact Hr|].
    split; [apply (ade_richness_range _ _ _ Hr)|].
    unfold BaseEngine.create_score. cbn [score]. reflexivity.
  - split; [apply ade_image_range|]. split; [apply ade_specs_range|].
    apply (ade_score_range _ _ _ _ H).
Qed.

Lemma ade_score_bounds_witness :
  exists sc,
    ADEEngine.analyze (30 # 100) sample_content (assemble_parsed_data meta_only_page) = Ok sc
    /\ 0 <= score sc <= 100.
Proof.
  eexists. split; [reflexivity|].
  apply (ade_score_bounds (30 # 100) sample_content meta_only_page _ eq_refl).
Defined.

(** X5. Every score TRE returns lies between 0 and 100; on a page whose
    schema holds no offers TRE always returns a score, and that score is
    at most 85. *)
Theorem tre_score_bounds (lib : PyLibs) (w : Q) (content : CrawledContent)
    (parsed_data : ParsedData) :
  (forall sc, TREEngine.analyze lib w content parsed_data = Ok sc -> 0 <= score sc <= 100)
  /\ (truthy (offers (schema parsed_data)) = false ->
      exists sc, TREEngine.analyze lib w content parsed_data = Ok sc
                 /\ 0 <= score sc <= 85).
Proof.
  split; [intros sc H; apply (tre_score_range _ _ _ _ _ H)|].
  intros Hno. unfold TREEngine.analyze, TREEngine._score_cta_presence. cbv zeta.
  rewrite Hno. cbn [rbind]. eexists. split; [reflexivity|].
  unfold BaseEngine.create_score. cbn [score].
  unfold TREEngine._score_trust_signals, TREEngine._score_contact_info,
    TREEngine._score_payment_shipping_info. cbv zeta.
  destruct (TREEngine._detect_buy_button (html parsed_data));
    destruct (TREEngine.is_https (cc_url content));
    destruct (has_reviews (schema parsed_data));
    destruct (any_keyword TREEngine.policy_keywords _);
    destruct (TREEngine._detect_email lib _);
    destruct (TREEngine._detect_phone lib _);
    destruct (any_keyword TREEngine.address_keywords _);
    destruct (any_keyword TREEngine.payment_keywords _);
    destruct (any_keyword TREEngine.shipping_keywords _);
    vm_compute; split; discriminate.
Qed.

Lemma tre_score_bounds_witness :
  exists sc,
    TREEngine.analyze (stub_libs 0) (20 # 100) sample_content
      (assemble_parsed_data empty_page) = Ok sc
    /\ 0 <= score sc <= 85.
Proof.
  apply (proj2 (tre_score_bounds (stub_libs 0) (20 # 100) sample_content
                  (assemble_parsed_data empty_page))).
  reflexivity.
Defined.

(** X6. ARCE's analyze never raises: it returns a score of at most 100,
    which is not negative when the text is shorter than 100 characters or
    its Flesch score is not negative; when the readability library raises,
    the readability component is 0. *)
Theorem arce_always_scores (lib : PyLibs) (w : Q) (content : CrawledContent)
    (parsed_data : ParsedData) :
  exists sc,
    ARCEEngine.analyze lib w content parsed_data = Ok sc
    /\ score sc <= 100
    /\ ((String.length (text_content (html parsed_data)) < 100)%nat
        \/ 0 <= ARCEEngine._calculate_flesch_score lib (text_content (html parsed_data)) ->
        0 <= score sc)
    /\ ((exists e, flesch_reading_ease lib (text_content (html parsed_data)) = Raise e) ->
        ARCEEngine._score_readability lib (html parsed_data) == 0).
Proof.
  eexists. split; [reflexivity|].
  destruct (arce_score_range lib w content parsed_data _ eq_refl) as [Hle Hge].
  split; [exact Hle|]. split.
  - intros [Hshort|Hf]; [|apply Hge, Hf].
    unfold BaseEngine.create_score. cbn [score].
    assert (Hr : ARCEEngine._score_readability lib (html parsed_data) = 0).
    { unfold ARCEEngine._score_readability. cbv zeta.
      replace (String.length (text_content (html parsed_data)) <? 100)%nat with true
        by (symmetry; apply Nat.ltb_lt, Hshort).
      rewrite orb_true_r. reflexivity. }
    rewrite Hr.
    assert (Hs : 0 <= ARCEEngine._score_semantic_html (html parsed_data)).
    { unfold ARCEEngine._score_semantic_html. cbv zeta. apply py_min_bounds; [lra|].
      pose proof (Q_of_nat_nonneg (count_semantic_html_tags (html parsed_data))). lra. }
    assert (Hh : 0 <= ARCEEngine._score_heading_hierarchy (html parsed_data)).
    { unfold ARCEEngine._score_heading_hierarchy. cbv zeta.
      destruct (has_h1 _); destruct (negb (multiple_h1 _)); destruct (negb _); lra. }
    assert (Hm : 0 <= ARCEEngine._score_metadata (html parsed_data)).
    { unfold ARCEEngine._score_metadata. cbv zeta.
      destruct (str_truthy (title _)); destruct (str_truthy (meta_description _));
        destruct (3 <=? _)%nat; destruct (str_truthy (dict_get_default _ _ _)); lra. }
    lra.
  - intros [e He]. unfold ARCEEngine._score_readability. cbv zeta.
    destruct (negb _ || _); [reflexivity|].
    unfold ARCEEngine._calculate_flesch_score. rewrite He.
    vm_compute. reflexivity.
Qed.

Lemma arce_always_scores_witness :
  exists sc,
    ARCEEngine.analyze (stub_libs 0) (20 # 100) sample_content
      (assemble_parsed_data empty_page) = Ok sc
    /\ 0 <= score sc <= 100.
Proof.
  destruct (arce_always_scores (stub_libs 0) (20 # 100) sample_content
              (assemble_parsed_data empty_page)) as (sc & Hsc & Hle & Hge & _).
  exists sc. split; [exact Hsc|]. split; [|exact Hle].
  apply Hge. left. simpl. lia.
Defined.

Lemma Forall_fold_app_map {A B} (P : A -> Prop) (mk : B -> A) (xs : list B) (l : list A) :
  (forall b, P (mk b)) -> Forall P l ->
  Forall P (fold_left (fun acc b => acc ++ [mk b]) xs l).
Proof.
  intros Hmk. revert l. induction xs as [|b xs IH]; intros l Hl; simpl; [exact Hl|].
  apply IH, Forall_app. split; [exact Hl|]. constructor; [apply Hmk|constructor].
Qed.

(** X7. No gap identified by the ADE, ARCE or TRE engine or extracted from
    a simulation result has a severity other than critical, high or
    medium: the severity low is never emitted. *)
Theorem gaps_never_low (lib : PyLibs) (s : EngineScore) (p : ParsedData) :
  (forall gs, ADEEngine.identify_gaps lib s p = Ok gs -> Forall emitted_severity gs)
  /\ (forall gs, ARCEEngine.identify_gaps lib s p = Ok gs -> Forall emitted_severity gs)
  /\ (forall gs, TREEngine.identify_gaps lib s p = Ok gs -> Forall emitted_severity gs)
  /\ (forall analysis_id r,
        Forall emitted_severity
          (AnalysisOrchestrator._extract_simulation_gaps analysis_id r p)).
Proof.
  assert (Hc : forall g, severity g = "critical" -> emitted_severity g)
    by (intros g E; unfold emitted_severity; rewrite E; simpl; tauto).
  assert (Hh : forall g, severity g = "high" -> emitted_severity g)
    by (intros g E; unfold emitted_severity; rewrite E; simpl; tauto).
  assert (Hm : forall g, severity g = "medium" -> emitted_severity g)
    by (intros g E; unfold emitted_severity; rewrite E; simpl; tauto).
  split; [|split; [|split]].
  - intros gs H. unfold ADEEngine.identify_gaps in H. cbv zeta in H.
    apply rbind_ok in H. destruct H as (short & _ & H). injection H as <-.
    unfold ADEEngine.critical_fields. simpl fold_left.
    repeat (apply Forall_append_if;
            [first [apply Hc; reflexivity|apply Hh; reflexivity|apply Hm; reflexivity]|]).
    constructor.
  - intros gs H. unfold ARCEEngine.identify_gaps in H. cbv zeta in H.
    apply rbind_ok in H. destruct H as (poor & _ & H). injection H as <-.
    repeat (apply Forall_append_if;
            [first [apply Hc; reflexivity|apply Hh; reflexivity|apply Hm; reflexivity]|]).
    constructor.
  - intros gs H. unfold TREEngine.identify_gaps in H. cbv zeta in H. injection H as <-.
    repeat (apply Forall_append_if;
            [first [apply Hc; reflexivity|apply Hh; reflexivity|apply Hm; reflexivity]|]).
    constructor.
  - intros analysis_id r. rewrite extract_simulation_gaps_eq.
    apply Forall_app. split.
    + destruct (brand_cited r); constructor; [apply Hc; reflexivity|constructor].
    + apply Forall_forall. intros g Hg. apply in_map_iff in Hg.
      destruct Hg as (signal & <- & _). apply Hm. reflexivity.
Qed.

Lemma gaps_never_low_witness :
  exists gs,
    TREEngine.identify_gaps (stub_libs 0)
      (mkEngineScore "a1" "TRE" 10 (20 # 100) [("has_ssl", PBool true)])
      (assemble_parsed_data empty_page) = Ok gs
    /\ Forall emitted_severity gs.
Proof.
  eexists. split; [reflexivity|].
  apply (proj1 (proj2 (proj2 (gaps_never_low (stub_libs 0)
                  (mkEngineScore "a1" "TRE" 10 (20 # 100) [("has_ssl", PBool true)])
                  (assemble_parsed_data empty_page))))).
  reflexivity.
Defined.

Lemma count_severity_le (gaps : list Gap) :
  (ReportGenerator.count_severity gaps "critical"
   + ReportGenerator.count_severity gaps "high"
   + ReportGenerator.count_severity gaps "medium"
   + ReportGenerator.count_severity gaps "low" <= List.length gaps)%nat
  /\ (Forall emitted_severity gaps ->
      (ReportGenerator.count_severity gaps "critical"
       + ReportGenerator.count_severity gaps "high"
       + ReportGenerator.count_severity gaps "medium" = List.length gaps)%nat
      /\ ReportGenerator.count_severity gaps "low" = 0%nat).
Proof.
  unfold ReportGenerator.count_severity.
  induction gaps as [|g gaps [IHle IHeq]]; [simpl; auto|].
  cbn [filter].
  destruct (String.eqb_spec (severity g) "critical") as [Ec|Nc];
    destruct (String.eqb_spec (severity g) "high") as [Eh|Nh];
    destruct (String.eqb_spec (severity g) "medium") as [Em|Nm];
    destruct (String.eqb_spec (severity g) "low") as [El|Nl];
    try (exfalso; congruence); cbn [List.length];
    (split; [lia|]); intros Hall; inversion Hall as [|? ? Hg Hrest]; subst;
    destruct (IHeq Hrest) as [H1 H2];
    try (split; lia);
    exfalso; unfold emitted_severity in Hg; simpl in Hg;
    destruct Hg as [E|[E|[E|[]]]]; congruence.
Qed.

(** X8. In the executive summary total_gaps is the number of gaps and the
    four counts by severity sum to at most that number; for gaps of the
    severities the engines emit, the critical, high and medium counts sum
    to total_gaps and the low count is 0. *)
Theorem summary_gap_counts (analysis : Analysis) (scores : list EngineScore)
    (gaps : list Gap) (simulation : option SimulationResult) :
  let summary := ReportGenerator._generate_summary analysis scores gaps simulation in
  let n := fun s => dict_get_default (ReportGenerator.ex_gaps_by_severity summary) s 0%nat in
  ReportGenerator.ex_total_gaps summary = List.length gaps
  /\ (n "critical" + n "high" + n "medium" + n "low"
       <= ReportGenerator.ex_total_gaps summary)%nat
  /\ (Forall emitted_severity gaps ->
      (n "critical" + n "high" + n "medium" = ReportGenerator.ex_total_gaps summary)%nat
      /\ n "low" = 0%nat).
Proof.
  intros summary n.
  assert (Hn : forall s, In s ["critical"; "high"; "medium"; "low"] ->
               n s = ReportGenerator.count_severity gaps s).
  { intros s Hs. subst n summary. unfold ReportGenerator._generate_summary. cbv zeta.
    destruct (fold_left _ scores ([], [])) as [st wk].
    cbn [ReportGenerator.ex_gaps_by_severity].
    simpl in Hs. destruct Hs as [<-|[<-|[<-|[<-|[]]]]]; reflexivity. }
  assert (Ht : ReportGenerator.ex_total_gaps summary = List.length gaps).
  { subst summary. unfold ReportGenerator._generate_summary. cbv zeta.
    destruct (fold_left _ scores ([], [])) as [st wk]. reflexivity. }
  rewrite !Hn by (simpl; tauto). rewrite Ht.
  split; [reflexivity|]. apply count_severity_le.
Qed.

Lemma summary_gap_counts_witness :
  let summary :=
    ReportGenerator._generate_summary
      (mkAnalysis "a1" sample_url COMPLETED (Some (1250 # 100)) None)
      [] sample_engine_gaps None in
  dict_get_default (ReportGenerator.ex_gaps_by_severity summary) "low" 0%nat = 0%nat.
Proof.
  apply (summary_gap_counts
           (mkAnalysis "a1" sample_url COMPLETED (Some (1250 # 100)) None)
           [] sample_engine_gaps None).
  repeat constructor; simpl; tauto.
Defined.

Lemma find_fresh_app (nid : string) (rows : list Analysis) (a : Analysis) :
  (forall r, In r rows -> id r <> nid) -> id a = nid ->
  find (fun r => String.eqb (id r) nid) (rows ++ [a]) = Some a.
Proof.
  intros Hrows Ha. induction rows as [|r rows IH]; simpl.
  - rewrite (proj2 (String.eqb_eq _ _) Ha). reflexivity.
  - destruct (String.eqb_spec (id r) nid) as [E|N].
    + exfalso. apply (Hrows r); [left; reflexivity|exact E].
    + apply IH. intros r' Hr'. apply Hrows. right. exact Hr'.
Qed.

Lemma tre_scores_without_offers (lib : PyLibs) (w : Q) (content : CrawledContent)
    (parsed_data : ParsedData) :
  truthy (offers (schema parsed_data)) = false ->
  exists sc, TREEngine.analyze lib w content parsed_data = Ok sc.
Proof.
  intros Hno. unfold TREEngine.analyze, TREEngine._score_cta_presence. cbv zeta.
  rewrite Hno. cbn [rbind]. eexists. reflexivity.
Qed.

Lemma arce_identifies (lib : PyLibs) (w : Q) (content : CrawledContent) (p : ParsedData)
    (sc : EngineScore) :
  ARCEEngine.analyze lib w content p = Ok sc ->
  exists gs, ARCEEngine.identify_gaps lib sc p = Ok gs.
Proof.
  unfold ARCEEngine.analyze. cbv zeta. intros H. injection H as <-.
  unfold ARCEEngine.identify_gaps. cbv zeta.
  unfold BaseEngine.create_score. cbn [details es_analysis_id].
  change (dict_get_default _ "flesch_reading_ease" (PInt 0))
    with (PNum (ARCEEngine._calculate_flesch_score lib (text_content (html p)))).
  cbn [py_lt py_num rbind]. eexists. reflexivity.
Qed.

Lemma ade_identifies (lib : PyLibs) (w : Q) (content : CrawledContent) (p : ParsedData)
    (sc : EngineScore) :
  ADEEngine.analyze w content p = Ok sc ->
  exists gs, ADEEngine.identify_gaps lib sc p = Ok gs.
Proof.
  unfold ADEEngine.analyze. cbv zeta. intros H.
  apply rbind_ok in H. destruct H as (richness & _ & H).
  apply rbind_ok in H. destruct H as (d & _ & H).
  apply rbind_ok in H. destruct H as (len & _ & H).
  injection H as <-.
  unfold ADEEngine.identify_gaps. cbv zeta.
  unfold BaseEngine.create_score. cbn [details es_analysis_id].
  change (dict_get_default _ "description_length" (PInt 0)) with (PInt (Z.of_nat len)).
  cbn [py_lt py_num rbind]. eexists. reflexivity.
Qed.

(** X9. For the three engines the orchestrator registers, gap
    identification never raises on the scores those engines produced for
    the same content and parsed data, whatever the page: step 7 of the
    analysis always yields a list of gaps. *)
Theorem default_engines_always_identify (lib : PyLibs) (wa wr wt : Q)
    (content : CrawledContent) (p : ParsedData) :
  let registry := AnalysisOrchestrator.default_engines lib wa wr wt in
  exists gaps, engine_gaps registry (scored_by registry content p) p [] = Ok gaps.
Proof.
  intros registry. subst registry.
  unfold scored_by, AnalysisOrchestrator.default_engines. cbn [flat_map snd].
  unfold ADEEngine.engine, ARCEEngine.engine, TREEngine.engine. cbn [BaseEngine.analyze].
  assert (Htre : forall t, exists gt, TREEngine.identify_gaps lib t p = Ok gt)
    by (intros t; eexists; reflexivity).
  destruct (ADEEngine.analyze wa content p) as [a|ea] eqn:Ea;
    destruct (ARCEEngine.analyze lib wr content p) as [r|er] eqn:Er;
    destruct (TREEngine.analyze lib wt content p) as [t|et] eqn:Et;
    try (destruct (ade_score_signed _ _ _ _ Ea) as (Ha1 & _ & _));
    try (destruct (arce_score_signed _ _ _ _ _ Er) as (Hr1 & _ & _));
    try (destruct (tre_score_signed _ _ _ _ _ Et) as (Ht1 & _ & _));
    try (destruct (ade_identifies lib _ _ _ _ Ea) as (ga & Hga));
    try (destruct (arce_identifies _ _ _ _ _ Er) as (gr & Hgr));
    try (destruct (Htre t) as (gt & Hgt));
    cbn [app engine_gaps];
    rewrite ?Ha1, ?Hr1, ?Ht1;
    unfold ADEEngine.name, ARCEEngine.name, TREEngine.name;
    cbn [dict_get String.eqb Ascii.eqb Bool.eqb BaseEngine.identify_gaps app];
    rewrite ?Hga; cbn [app]; rewrite ?Hgr; cbn [app]; rewrite ?Hgt;
    eexists; reflexivity.
Qed.

(** X10. With the default engines and a store whose core writes succeed, a
    page without Product schema makes ADE raise; the run still completes,
    stores exactly the ARCE and the TRE score, sets the composite score to
    the weighted mean of these two, and stores no gap whose source is ADE. *)
Theorem no_schema_no_ade (lib : PyLibs) (env : Env) (url : string)
    (brand product_category use_case : option string) (w0 : World)
    (content : CrawledContent) (pg : Page) (wa wr wt : Q) :
  engines env = AnalysisOrchestrator.default_engines lib wa wr wt ->
  fresh_id (new_id env) (db w0) ->
  core_writes_succeed env ->
  crawl_outcome env url (new_id env) = Ok content ->
  parse_markup env (html_content content) (cc_url content) = Ok pg ->
  pg_product pg = None ->
  exists w arce tre new_gaps,
    AnalysisOrchestrator.analyze_url env url brand product_category use_case w0
    = (Ok (new_id env), w)
    /\ (exists e, ADEEngine.analyze wa content (assemble_parsed_data pg) = Raise e)
    /\ ARCEEngine.analyze lib wr content (assemble_parsed_data pg) = Ok arce
    /\ TREEngine.analyze lib wt content (assemble_parsed_data pg) = Ok tre
    /\ tbl_engine_scores (db w) = tbl_engine_scores (db w0) ++ [arce; tre]
    /\ Repository.get_analysis (db w) (new_id env)
       = Some (mkAnalysis (new_id env) url COMPLETED
                 (Some (AnalysisOrchestrator._calculate_composite_score [arce; tre])) None)
    /\ tbl_gaps (db w) = tbl_gaps (db w0) ++ new_gaps
    /\ Forall (fun g => engine_source g <> "ADE") new_gaps.
Proof.
  intros Hengines Hfresh Hw Hcrawl Hparse Hnone.
  set (p := assemble_parsed_data pg).
  pose proof (ade_raises_without_schema wa content pg Hnone) as Hade. fold p in Hade.
  assert (Harce : exists arce, ARCEEngine.analyze lib wr content p = Ok arce)
    by (eexists; reflexivity).
  destruct Harce as (arce & Harce).
  destruct (tre_scores_without_offers lib wt content p) as (tre & Htre).
  { unfold p, assemble_parsed_data. cbn [schema offers]. rewrite Hnone. reflexivity. }
  assert (Hscored : scored_by (engines env) content p = [arce; tre]).
  { rewrite Hengines. unfold scored_by, AnalysisOrchestrator.default_engines.
    cbn [flat_map snd]. unfold ADEEngine.engine, ARCEEngine.engine, TREEngine.engine.
    cbn [BaseEngine.analyze]. rewrite Hade, Harce, Htre. reflexivity. }
  destruct (arce_identifies lib wr content p arce Harce) as (ga & Hga).
  assert (Hgt : exists gt, TREEngine.identify_gaps lib tre p = Ok gt)
    by (eexists; reflexivity).
  destruct Hgt as (gt & Hgt).
  assert (Hna : engine_name arce = "ARCE") by apply (arce_score_signed _ _ _ _ _ Harce).
  assert (Hnt : engine_name tre = "TRE") by apply (tre_score_signed _ _ _ _ _ Htre).
  assert (Hgaps : engine_gaps (engines env) (scored_by (engines env) content p) p []
                  = Ok (ga ++ gt)).
  { rewrite Hscored, Hengines. unfold AnalysisOrchestrator.default_engines.
    cbn [engine_gaps]. rewrite Hna, Hnt. cbn [dict_get String.eqb Ascii.eqb Bool.eqb].
    unfold ARCEEngine.engine, TREEngine.engine. cbn [BaseEngine.identify_gaps].
    rewrite Hga, Hgt. reflexivity. }
  destruct (analyze_url_completes env url brand product_category use_case w0
              content pg (ga ++ gt) Hfresh Hw Hcrawl Hparse Hgaps) as (w & Hrun & Hdb & _).
  fold p in Hdb. rewrite Hscored in Hdb.
  exists w, arce, tre,
    ((ga ++ gt) ++ simulation_gaps env (new_id env) brand product_category use_case p).
  split; [exact Hrun|]. split; [eexists; exact Hade|].
  split; [exact Harce|]. split; [exact Htre|].
  rewrite Hdb. unfold completed_db. cbn [tbl_engine_scores tbl_gaps].
  split; [reflexivity|]. split.
  - unfold Repository.get_analysis. cbn [tbl_analyses].
    apply find_fresh_app; [exact Hfresh|reflexivity].
  - split; [reflexivity|].
    apply Forall_app. split; [apply Forall_app; split|].
    + eapply Forall_impl; [|apply (arce_gaps_signed _ _ _ _ Hga)].
      intros g [E _]. rewrite E. discriminate.
    + eapply Forall_impl; [|apply (tre_gaps_signed _ _ _ _ Hgt)].
      intros g [E _]. rewrite E. discriminate.
    + apply Forall_forall. intros g Hg.
      rewrite (simulation_gaps_all_sourced _ _ _ _ _ _ _ Hg). discriminate.
Qed.

Lemma no_schema_no_ade_witness :
  exists w new_gaps,
    AnalysisOrchestrator.analyze_url (sample_env (stub_libs 0) empty_page no_fault)
      sample_url None None None empty_world = (Ok "a1", w)
    /\ map engine_name (tbl_engine_scores (db w)) = ["ARCE"; "TRE"]
    /\ tbl_gaps (db w) = new_gaps
    /\ Forall (fun g => engine_source g <> "ADE") new_gaps.
Proof.
  destruct (no_schema_no_ade (stub_libs 0) (sample_env (stub_libs 0) empty_page no_fault)
              sample_url None None None empty_world sample_content empty_page
              (30 # 100) (20 # 100) (20 # 100)
              eq_refl sample_fresh (no_fault_succeeds _ _) eq_refl eq_refl eq_refl)
    as (w & arce & tre & new_gaps & Hrun & _ & Ha & Ht & Hs & _ & Hg & Hno).
  exists w, new_gaps. split; [exact Hrun|]. split; [|split; [exact Hg|exact Hno]].
  rewrite Hs. cbn [map app empty_world db tbl_engine_scores].
  destruct (arce_score_signed _ _ _ _ _ Ha) as (-> & _).
  destruct (tre_score_signed _ _ _ _ _ Ht) as (-> & _). reflexivity.
Defined.

(* --------------------------------------------------------------------- *)
(** ** Repository *)

Lemma find_other_app (nid other : string) (rows : list Analysis) (a : Analysis) :
  id a = nid -> other <> nid ->
  find (fun r => String.eqb (id r) other) (rows ++ [a])
  = find (fun r => String.eqb (id r) other) rows.
Proof.
  intros Ha Hne. induction rows as [|r rows IH]; simpl.
  - destruct (String.eqb_spec (id a) other) as [E|N]; [congruence|reflexivity].
  - destruct (String.eqb (id r) other); [reflexivity|exact IH].
Qed.

(** X11. create_analysis with an id not yet in the table returns a pending
    analysis without score and error, get_analysis then returns exactly
    this analysis, and every other id reads as before; with an id already
    in the table the insert raises and the database is unchanged. *)
Theorem create_analysis_round_trip (env : Env) (url : string) (w : World) :
  repo_fault env CreateAnalysis = None ->
  let analysis := mkAnalysis (new_id env) url PENDING None None in
  (fresh_id (new_id env) (db w) ->
   exists w',
     Repository.create_analysis env url w = (Ok analysis, w')
     /\ Repository.get_analysis (db w') (new_id env) = Some analysis
     /\ (forall other, other <> new_id env ->
           Repository.get_analysis (db w') other = Repository.get_analysis (db w) other)
     /\ tbl_analyses (db w') = tbl_analyses (db w) ++ [analysis])
  /\ (~ fresh_id (new_id env) (db w) ->
      exists e w',
        Repository.create_analysis env url w = (Raise e, w') /\ db w' = db w).
Proof.
  intros Hf analysis. split.
  - intros Hfresh.
    pose proof (fresh_id_existsb _ _ Hfresh) as Hex.
    unfold Repository.create_analysis. fold analysis.
    erewrite bind_ok.
    2:{ apply execute_ok; [exact Hf|].
        unfold Repository.insert_analysis. cbn [id analysis]. rewrite Hex. reflexivity. }
    eexists. split; [reflexivity|]. cbn [db Repository.set_analyses tbl_analyses].
    unfold Repository.get_analysis. cbn [tbl_analyses].
    split; [apply find_fresh_app; [exact Hfresh|reflexivity]|].
    split; [|reflexivity].
    intros other Hne. apply (find_other_app (new_id env)); [reflexivity|exact Hne].
  - intros Hnot.
    assert (Hex : existsb (fun r => String.eqb (id r) (new_id env)) (tbl_analyses (db w))
                  = true).
    { destruct (existsb _ _) eqn:E; [reflexivity|]. exfalso. apply Hnot.
      intros a Ha Hid. rewrite <- not_true_iff_false in E. apply E.
      apply existsb_exists. exists a. split; [exact Ha|]. apply String.eqb_eq, Hid. }
    unfold Repository.create_analysis, execute, bind, call. cbn [db calls history].
    rewrite Hf. unfold Repository.insert_analysis. cbn [id]. rewrite Hex.
    eexists. eexists. split; reflexivity.
Qed.

Lemma create_analysis_round_trip_witness :
  exists w',
    Repository.create_analysis (sample_env (stub_libs 0) empty_page no_fault)
      sample_url empty_world
    = (Ok (mkAnalysis "a1" sample_url PENDING None None), w')
    /\ Repository.get_analysis (db w') "a1"
       = Some (mkAnalysis "a1" sample_url PENDING None None).
Proof.
  destruct (proj1 (create_analysis_round_trip
                     (sample_env (stub_libs 0) empty_page no_fault)
                     sample_url empty_world eq_refl) sample_fresh)
    as (w' & Hrun & Hget & _).
  exists w'. split; [exact Hrun|exact Hget].
Defined.

Lemma find_map_update (nid : string) (f : Analysis -> Analysis) (rows : list Analysis) :
  (forall r, id (f r) = id r) ->
  forall other,
    find (fun r => String.eqb (id r) other)
         (map (fun r => if String.eqb (id r) nid then f r else r) rows)
    = match find (fun r => String.eqb (id r) other) rows with
      | Some a => Some (if String.eqb other nid then f a else a)
      | None => None
      end.
Proof.
  intros Hid other. induction rows as [|r rows IH]; simpl; [reflexivity|].
  destruct (String.eqb_spec (id r) nid) as [E|N].
  - rewrite Hid. destruct (String.eqb_spec (id r) other) as [E'|N']; [|exact IH].
    subst. rewrite String.eqb_refl. reflexivity.
  - destruct (String.eqb_spec (id r) other) as [E'|N']; [|exact IH].
    subst. destruct (String.eqb_spec (id r) nid); [contradiction|reflexivity].
Qed.

Lemma map_update_fresh (nid : string) (f : Analysis -> Analysis) (rows : list Analysis) :
  (forall r, In r rows -> id r <> nid) ->
  map (fun r => if String.eqb (id r) nid then f r else r) rows = rows.
Proof.
  intros H. induction rows as [|r rows IH]; simpl; [reflexivity|].
  destruct (String.eqb_spec (id r) nid) as [E|N].
  - exfalso. apply (H r); [left; reflexivity|exact E].
  - f_equal. apply IH. intros r' Hr'. apply H. right. exact Hr'.
Qed.

(** X12. update_analysis_status replaces the status and the error message
    of the analysis it addresses, update_composite_score replaces its
    score; the other fields of that analysis and every other analysis read
    as before, and for an id that is not in the table both succeed without
    changing the database. *)
Theorem update_then_get (env : Env) (analysis_id : string) (w : World)
    (st : AnalysisStatus) (err : option string) (q : Q) :
  repo_fault env (UpdateAnalysisStatus st) = None ->
  repo_fault env UpdateCompositeScore = None ->
  exists w1 w2,
    Repository.update_analysis_status env analysis_id st err w = (Ok tt, w1)
    /\ Repository.update_composite_score env analysis_id q w = (Ok tt, w2)
    /\ (forall a, Repository.get_analysis (db w) analysis_id = Some a ->
          Repository.get_analysis (db w1) analysis_id
          = Some (mkAnalysis (id a) (url a) st (composite_score a) err)
          /\ Repository.get_analysis (db w2) analysis_id
             = Some (mkAnalysis (id a) (url a) (status a) (Some q) (error_message a)))
    /\ (forall other, other <> analysis_id ->
          Repository.get_analysis (db w1) other = Repository.get_analysis (db w) other
          /\ Repository.get_analysis (db w2) other = Repository.get_analysis (db w) other)
    /\ (fresh_id analysis_id (db w) -> db w1 = db w /\ db w2 = db w).
Proof.
  intros Hs Hc.
  unfold Repository.update_analysis_status, Repository.update_composite_score.
  eexists. eexists.
  split; [apply execute_ok; [exact Hs|reflexivity]|].
  split; [apply execute_ok; [exact Hc|reflexivity]|].
  cbn [db]. unfold Repository.get_analysis, Repository.update_analysis,
    Repository.set_analyses. cbn [tbl_analyses].
  split; [|split].
  - intros a Ha. rewrite !find_map_update by reflexivity. rewrite Ha, String.eqb_refl.
    split; reflexivity.
  - intros other Hne. rewrite !find_map_update by reflexivity.
    destruct (find _ (tbl_analyses (db w))) as [a|]; [|split; reflexivity].
    destruct (String.eqb_spec other analysis_id); [contradiction|split; reflexivity].
  - intros Hfresh. rewrite !map_update_fresh by exact Hfresh.
    destruct (db w). split; reflexivity.
Qed.

Lemma update_then_get_witness :
  exists w1,
    Repository.update_analysis_status (sample_env (stub_libs 0) empty_page no_fault)
      "a1" FAILED (Some "boom") empty_world = (Ok tt, w1)
    /\ db w1 = db empty_world.
Proof.
  destruct (update_then_get (sample_env (stub_libs 0) empty_page no_fault)
              "a1" empty_world FAILED (Some "boom") 0 eq_refl eq_refl)
    as (w1 & w2 & H1 & _ & _ & _ & Hfresh).
  exists w1. split; [exact H1|]. apply Hfresh, sample_fresh.
Defined.

(** X13. After save_engine_score, get_engine_scores for the analysis of
    the score returns the scores it returned before followed by the new
    one, and the scores of every other analysis are unchanged. *)
Theorem engine_score_round_trip (env : Env) (s : EngineScore) (w : World) :
  repo_fault env (SaveEngineScore (engine_name s)) = None ->
  exists w',
    Repository.save_engine_score env s w = (Ok tt, w')
    /\ Repository.get_engine_scores (db w') (es_analysis_id s)
       = Repository.get_engine_scores (db w) (es_analysis_id s) ++ [s]
    /\ (forall other, other <> es_analysis_id s ->
          Repository.get_engine_scores (db w') other
          = Repository.get_engine_scores (db w) other).
Proof.
  intros Hf. unfold Repository.save_engine_score.
  eexists. split; [apply execute_ok; [exact Hf|reflexivity]|].
  cbn [db]. unfold Repository.get_engine_scores. cbn [tbl_engine_scores].
  split.
  - rewrite filter_app. cbn [filter]. rewrite String.eqb_refl. reflexivity.
  - intros other Hne. rewrite filter_app. cbn [filter].
    destruct (String.eqb_spec (es_analysis_id s) other); [congruence|].
    apply app_nil_r.
Qed.

Lemma engine_score_round_trip_witness :
  exists w',
    Repository.save_engine_score (sample_env (stub_libs 0) empty_page no_fault)
      (mkEngineScore "a1" "TRE" 40 (20 # 100) []) empty_world = (Ok tt, w')
    /\ Repository.get_engine_scores (db w') "a1" = [mkEngineScore "a1" "TRE" 40 (20 # 100) []]
    /\ Repository.get_engine_scores (db w') "a2" = [].
Proof.
  destruct (engine_score_round_trip (sample_env (stub_libs 0) empty_page no_fault)
              (mkEngineScore "a1" "TRE" 40 (20 # 100) []) empty_world eq_refl)
    as (w' & Hrun & Hsame & Hother).
  exists w'. split; [exact Hrun|]. split.
  - cbn [es_analysis_id] in Hsame. rewrite Hsame. reflexivity.
  - rewrite (Hother "a2"); [reflexivity|discriminate].
Defined.

(* --------------------------------------------------------------------- *)
(** ** Reports *)

Lemma Qle_bool_mono (c a b : Q) : a <= b -> Qle_bool c a = true -> Qle_bool c b = true.
Proof. intros Hab H. apply Qle_bool_iff in H. apply Qle_bool_iff. lra. Qed.

(** X14. The letter grade never gets worse when the score rises; F is
    given exactly below 60 and goes with the interpretations Poor and
    Critical, and A goes exactly with the interpretation Excellent. *)
Theorem grade_monotone (s1 s2 : Q) :
  s1 <= s2 ->
  (grade_rank (ReportGenerator._score_to_grade s1)
   <= grade_rank (ReportGenerator._score_to_grade s2))%nat
  /\ (ReportGenerator._score_to_grade s1 = "F" <-> s1 < 60)
  /\ (ReportGenerator._score_to_grade s1 = "F"
      <-> ReportGenerator._interpret_score s1
            = "Poor - Limited AI comprehension, significant gaps"
          \/ ReportGenerator._interpret_score s1
            = "Critical - Major barriers to AI recommendations")
  /\ (ReportGenerator._score_to_grade s1 = "A"
      <-> ReportGenerator._interpret_score s1
            = "Excellent - Highly optimized for AI recommendations").
Proof.
  intros Hle. unfold ReportGenerator._score_to_grade, ReportGenerator._interpret_score.
  destruct (Qle_bool 90 s1) eqn:E90.
  { rewrite (Qle_bool_mono 90 s1 s2 Hle E90). apply Qle_bool_iff in E90.
    split; [vm_compute; lia|]. split; [split; [discriminate|intros; lra]|].
    split; [split; [discriminate|intros [H|H]; discriminate]|]. split; reflexivity. }
  destruct (Qle_bool 80 s1) eqn:E80.
  { pose proof (Qle_bool_mono 80 s1 s2 Hle E80) as E80'. apply Qle_bool_iff in E80.
    split; [destruct (Qle_bool 90 s2); rewrite ?E80'; vm_compute; lia|].
    split; [split; [discriminate|intros; lra]|].
    split; [split; [discriminate|intros [H|H]; discriminate]|]. split; discriminate. }
  destruct (Qle_bool 70 s1) eqn:E70.
  { pose proof (Qle_bool_mono 70 s1 s2 Hle E70) as E70'. apply Qle_bool_iff in E70.
    split; [destruct (Qle_bool 90 s2); destruct (Qle_bool 80 s2); rewrite ?E70';
            vm_compute; lia|].
    split; [split; [discriminate|intros; lra]|].
    split; [split; [discriminate|intros [H|H]; discriminate]|]. split; discriminate. }
  destruct (Qle_bool 60 s1) eqn:E60.
  { pose proof (Qle_bool_mono 60 s1 s2 Hle E60) as E60'. apply Qle_bool_iff in E60.
    split; [destruct (Qle_bool 90 s2); destruct (Qle_bool 80 s2); destruct (Qle_bool 70 s2);
            rewrite ?E60'; vm_compute; lia|].
    split; [split; [discriminate|intros; lra]|].
    split; [split; [discriminate|intros [H|H]; discriminate]|]. split; discriminate. }
  apply Qle_bool_false in E60.
  split; [vm_compute; lia|].
  split; [split; [intros _; exact E60|reflexivity]|].
  destruct (Qle_bool 50 s1).
  - split; [split; [intros _; left; reflexivity|reflexivity]|split; discriminate].
  - split; [split; [intros _; right; reflexivity|reflexivity]|split; discriminate].
Qed.

Lemma grade_monotone_witness :
  (grade_rank (ReportGenerator._score_to_grade (1250 # 100))
   <= grade_rank (ReportGenerator._score_to_grade 85))%nat.
Proof.
  apply (grade_monotone (1250 # 100) 85). vm_compute. discriminate.
Defined.

(** X15. The readiness verdict is Not tested exactly when there is no
    simulation; the verdicts Ready and Mostly Ready require a score of at
    least 70 and a cited brand; a brand that was not cited, with a score
    of at least 60, is always Partially Ready. *)
Theorem readiness_needs_citation (score : Q) (simulation : option SimulationResult) :
  let verdict := ReportGenerator._assess_ai_readiness score simulation in
  (simulation = None <-> verdict = "Not tested")
  /\ (verdict = "Ready - High confidence for AI-led transactions"
      \/ verdict = "Mostly Ready - Good foundation with minor improvements needed" ->
      70 <= score /\ exists r, simulation = Some r /\ brand_cited r = true)
  /\ (forall r, simulation = Some r -> brand_cited r = false -> 60 <= score ->
      verdict = "Partially Ready - Needs optimization for reliable AI recommendations").
Proof.
  intros verdict. subst verdict. unfold ReportGenerator._assess_ai_readiness.
  destruct simulation as [r|].
  - destruct (Qle_bool 80 score) eqn:E80; destruct (Qle_bool 70 score) eqn:E70;
      destruct (Qle_bool 60 score) eqn:E60; destruct (brand_cited r) eqn:Ec;
      cbn [andb];
      try apply Qle_bool_iff in E80; try apply Qle_bool_iff in E70;
      try apply Qle_bool_iff in E60;
      (split; [split; discriminate|]);
      (split; [intros [H|H]; try discriminate; (split; [lra|exists r; auto])|]);
      intros r' Hr Hc H60; try discriminate; try reflexivity;
      injection Hr as <-; try congruence;
      exfalso;
      match goal with
      | E : Qle_bool 60 score = false |- _ => apply Qle_bool_false in E; lra
      end.
  - split; [split; reflexivity|].
    split; [intros [H|H]; discriminate|]. intros r Hr. discriminate.
Qed.

Lemma readiness_needs_citation_witness :
  ReportGenerator._assess_ai_readiness 100 (Some sample_simulation)
  = "Partially Ready - Needs optimization for reliable AI recommendations".
Proof.
  apply (proj2 (proj2 (readiness_needs_citation 100 (Some sample_simulation)))
           sample_simulation eq_refl eq_refl).
  vm_compute. discriminate.
Defined.

(** X16. generate_report raises 'Analysis <id> not found' for an unknown
    id; otherwise it returns a report with the status and composite score
    of the record, whose grade equals the grade of its summary; for an
    analysis without composite score (pending or failed) the grade is F,
    the score of the summary is 0 and the interpretation is Critical. *)
Theorem report_without_score (order_by : (Gap -> string) -> list Gap -> list Gap)
    (d : Db) (analysis_id : string) :
  (Repository.get_analysis d analysis_id = None ->
   ReportGenerator.generate_report order_by d analysis_id
   = Raise ("Analysis " ++ analysis_id ++ " not found"))
  /\ (forall a, Repository.get_analysis d analysis_id = Some a ->
      exists r,
        ReportGenerator.generate_report order_by d analysis_id = Ok r
        /\ ReportGenerator.rp_status r = status_value (status a)
        /\ ReportGenerator.rp_composite_score r = composite_score a
        /\ ReportGenerator.rp_grade r
           = ReportGenerator.ex_grade (ReportGenerator.rp_summary r)
        /\ (composite_score a = None ->
            ReportGenerator.rp_grade r = "F"
            /\ ReportGenerator.ex_composite_score (ReportGenerator.rp_summary r) = 0
            /\ ReportGenerator.ex_interpretation (ReportGenerator.rp_summary r)
               = "Critical - Major barriers to AI recommendations")).
Proof.
  unfold ReportGenerator.generate_report. split.
  - intros H. rewrite H. reflexivity.
  - intros a Ha. rewrite Ha. eexists. split; [reflexivity|].
    cbn [ReportGenerator.rp_status ReportGenerator.rp_composite_score
         ReportGenerator.rp_grade ReportGenerator.rp_summary].
    split; [reflexivity|]. split; [reflexivity|].
    unfold ReportGenerator._generate_summary. cbv zeta.
    destruct (fold_left _ _ ([], [])) as [st wk].
    cbn [ReportGenerator.ex_grade ReportGenerator.ex_composite_score
         ReportGenerator.ex_interpretation].
    split; [reflexivity|]. intros Hnone. rewrite Hnone. repeat split.
Qed.

Lemma report_without_score_witness :
  ReportGenerator.generate_report order_by_text (db empty_world) "a1"
  = Raise "Analysis a1 not found".
Proof.
  apply (proj1 (report_without_score order_by_text (db empty_world) "a1")).
  reflexivity.
Defined.








(* --------------------------------------------------------------------- *)
(** ** The summary of an analysis *)

(* ---- theorems ---- *)

Lemma crawl_outcome_id (env : Env) (url analysis_id : string) (content : CrawledContent) :
  crawl_outcome env url analysis_id = Ok content -> cc_analysis_id content = analysis_id.
Proof.
  unfold crawl_outcome, BeautifulSoupCrawler.crawl, PlaywrightCrawler.crawl.
  destruct (httpx_get env url) as [r|e]; cbn [rbind].
  - intros H. injection H as <-. reflexivity.
  - destruct (playwright_goto env url) as [r|e']; cbn [rbind]; [|discriminate].
    intros H. injection H as <-. reflexivity.
Qed.

Lemma dict_set_fresh {V} (d : list (string * V)) (k : string) (v : V) :
  ~ In k (map fst d) -> dict_set d k v = d ++ [(k, v)].
Proof.
  induction d as [|[k' v'] d IH]; simpl; intros H; [reflexivity|].
  destruct (String.eqb_spec k' k) as [E|N]; [exfalso; apply H; left; exact E|].
  rewrite IH; [reflexivity|]. intros Hin. apply H. right. exact Hin.
Qed.

Lemma fold_dict_set_distinct {A V} (key : A -> string) (mk : A -> V) (l : list A)
    (acc : list (string * V)) :
  NoDup (map fst acc ++ map key l) ->
  fold_left (fun d x => dict_set d (key x) (mk x)) l acc
  = acc ++ map (fun x => (key x, mk x)) l.
Proof.
  revert acc. induction l as [|x l IH]; intros acc Hnd; simpl.
  - rewrite app_nil_r. reflexivity.
  - assert (Hx : ~ In (key x) (map fst acc)).
    { intros Hin. apply NoDup_remove_2 in Hnd. apply Hnd. apply in_or_app. left. exact Hin. }
    rewrite (dict_set_fresh _ _ _ Hx), IH.
    + rewrite <- app_assoc. reflexivity.
    + rewrite map_app. simpl. rewrite <- app_assoc. simpl.
      exact Hnd.
Qed.

Lemma default_scores_distinct (lib : PyLibs) (wa wr wt : Q) (c : CrawledContent)
    (p : ParsedData) :
  let scores := scored_by (AnalysisOrchestrator.default_engines lib wa wr wt) c p in
  NoDup (map engine_name scores)
  /\ Forall (fun s => es_analysis_id s = cc_analysis_id c) scores.
Proof.
  unfold scored_by, AnalysisOrchestrator.default_engines. cbn [flat_map snd].
  unfold ADEEngine.engine, ARCEEngine.engine, TREEngine.engine. cbn [BaseEngine.analyze].
  destruct (ADEEngine.analyze wa c p) as [a|ea] eqn:Ea;
    destruct (ARCEEngine.analyze lib wr c p) as [r|er] eqn:Er;
    destruct (TREEngine.analyze lib wt c p) as [t|et] eqn:Et;
    try (destruct (ade_score_signed _ _ _ _ Ea) as (Ha1 & _ & Ha2));
    try (destruct (arce_score_signed _ _ _ _ _ Er) as (Hr1 & _ & Hr2));
    try (destruct (tre_score_signed _ _ _ _ _ Et) as (Ht1 & _ & Ht2));
    cbn [app map]; rewrite ?Ha1, ?Hr1, ?Ht1;
    (split; [repeat constructor; simpl; intuition discriminate
            |repeat constructor; assumption]).
Qed.

Lemma filter_all {A} (f : A -> bool) (l : list A) :
  Forall (fun x => f x = true) l -> filter f l = l.
Proof.
  induction 1 as [|x l Hx Hl IH]; simpl; [reflexivity|]. rewrite Hx, IH. reflexivity.
Qed.

(** X18. After a completed run with the default engines, on a database
    without earlier scores for the new id, get_analysis_summary returns
    the new id, the url, the status completed, the composite score
    computed from the stored engine scores, and one entry for each engine
    that scored, with its score, weight and details. *)
Theorem summary_of_completed_run (lib : PyLibs) (env : Env) (url : string)
    (brand product_category use_case : option string) (w0 : World)
    (order_by : (Gap -> string) -> list Gap -> list Gap)
    (content : CrawledContent) (pg : Page) (gaps : list Gap) (wa wr wt : Q) :
  engines env = AnalysisOrchestrator.default_engines lib wa wr wt ->
  fresh_id (new_id env) (db w0) ->
  Repository.get_engine_scores (db w0) (new_id env) = [] ->
  core_writes_succeed env ->
  crawl_outcome env url (new_id env) = Ok content ->
  parse_markup env (html_content content) (cc_url content) = Ok pg ->
  engine_gaps (engines env)
    (scored_by (engines env) content (assemble_parsed_data pg))
    (assemble_parsed_data pg) [] = Ok gaps ->
  let scores := scored_by (engines env) content (assemble_parsed_data pg) in
  exists w summary,
    AnalysisOrchestrator.analyze_url env url brand product_category use_case w0
    = (Ok (new_id env), w)
    /\ AnalysisOrchestrator.get_analysis_summary order_by (db w) (new_id env) = Some summary
    /\ AnalysisOrchestrator.sum_analysis_id summary = new_id env
    /\ AnalysisOrchestrator.sum_url summary = url
    /\ AnalysisOrchestrator.sum_status summary = "completed"
    /\ Repository.get_engine_scores (db w) (new_id env) = scores
    /\ AnalysisOrchestrator.sum_composite_score summary
       = Some (AnalysisOrchestrator._calculate_composite_score
                 (Repository.get_engine_scores (db w) (new_id env)))
    /\ AnalysisOrchestrator.sum_engine_scores summary
       = map (fun s => (engine_name s,
                        AnalysisOrchestrator.mkScoreSummary (score s) (weight s) (details s)))
             scores.
Proof.
  intros Hengines Hfresh Hold Hw Hcrawl Hparse Hgaps scores.
  destruct (analyze_url_completes env url brand product_category use_case w0
              content pg gaps Hfresh Hw Hcrawl Hparse Hgaps) as (w & Hrun & Hdb & _).
  fold scores in Hdb.
  pose proof (default_scores_distinct lib wa wr wt content (assemble_parsed_data pg))
    as [Hnd Hids].
  rewrite <- Hengines in Hnd, Hids. fold scores in Hnd, Hids. cbv zeta in Hnd, Hids.
  rewrite (crawl_outcome_id _ _ _ _ Hcrawl) in Hids.
  assert (Hget : Repository.get_engine_scores (db w) (new_id env) = scores).
  { rewrite Hdb. unfold Repository.get_engine_scores, completed_db. cbn [tbl_engine_scores].
    rewrite filter_app. unfold Repository.get_engine_scores in Hold. rewrite Hold.
    apply filter_all. eapply Forall_impl; [|exact Hids].
    intros s Hs. cbv beta in Hs. rewrite Hs. apply String.eqb_refl. }
  assert (Hrow : Repository.get_analysis (db w) (new_id env)
                 = Some (mkAnalysis (new_id env) url COMPLETED
                           (Some (AnalysisOrchestrator._calculate_composite_score scores))
                           None)).
  { rewrite Hdb. unfold Repository.get_analysis, completed_db. cbn [tbl_analyses].
    apply find_fresh_app; [exact Hfresh|reflexivity]. }
  exists w. unfold AnalysisOrchestrator.get_analysis_summary. rewrite Hrow, Hget.
  eexists. split; [exact Hrun|]. split; [reflexivity|].
  cbn [AnalysisOrchestrator.sum_analysis_id AnalysisOrchestrator.sum_url
       AnalysisOrchestrator.sum_status AnalysisOrchestrator.sum_composite_score
       AnalysisOrchestrator.sum_engine_scores].
  split; [reflexivity|]. split; [reflexivity|]. split; [reflexivity|].
  split; [reflexivity|]. split; [reflexivity|].
  rewrite fold_dict_set_distinct; [reflexivity|exact Hnd].
Qed.

Lemma summary_of_completed_run_witness :
  exists w summary,
    AnalysisOrchestrator.analyze_url (sample_env (stub_libs 0) empty_page no_fault)
      sample_url None None None empty_world = (Ok "a1", w)
    /\ AnalysisOrchestrator.get_analysis_summary order_by_text (db w) "a1" = Some summary
    /\ AnalysisOrchestrator.sum_status summary = "completed"
    /\ AnalysisOrchestrator.sum_url summary = sample_url.
Proof.
  destruct (summary_of_completed_run (stub_libs 0)
              (sample_env (stub_libs 0) empty_page no_fault)
              sample_url None None None empty_world order_by_text
              sample_content empty_page sample_engine_gaps
              (30 # 100) (20 # 100) (20 # 100)
              eq_refl sample_fresh eq_refl (no_fault_succeeds _ _) eq_refl eq_refl eq_refl)
    as (w & summary & Hrun & Hsum & _ & Hurl & Hstatus & _).
  exists w, summary. repeat split; assumption.
Defined.

(* --------------------------------------------------------------------- *)
(** ** Web interface *)

(** X19. GET /analysis/{id} and GET /report/{id} answer an unknown id with
    status 500, not 404: the 404 of get_analysis is raised inside the try
    block and re-raised as 500 by its handler, and get_report never raises
    a 404. For a known id both routes respond, and no error of either
    route has a status other than 500. *)
Theorem read_routes_never_404 (str_of_exception : Z -> string -> string)
    (order_by : (Gap -> string) -> list Gap -> list Gap) (d : Db) (analysis_id : string) :
  (Repository.get_analysis d analysis_id = None ->
   Routes.get_analysis str_of_exception order_by d analysis_id
   = Routes.HTTPException 500 (str_of_exception 404%Z "Analysis not found")
   /\ Routes.get_report order_by d analysis_id
      = Routes.HTTPException 500 ("Analysis " ++ analysis_id ++ " not found"))
  /\ (Repository.get_analysis d analysis_id <> None ->
      (exists summary,
         Routes.get_analysis str_of_exception order_by d analysis_id = Routes.Respond summary)
      /\ (exists report, Routes.get_report order_by d analysis_id = Routes.Respond report))
  /\ (forall status_code detail,
        Routes.get_analysis str_of_exception order_by d analysis_id
        = Routes.HTTPException status_code detail
        \/ Routes.get_report order_by d analysis_id
           = Routes.HTTPException status_code detail ->
        status_code = 500%Z).
Proof.
  unfold Routes.get_analysis, Routes.get_report, AnalysisOrchestrator.get_analysis_summary,
    ReportGenerator.generate_report.
  destruct (Repository.get_analysis d analysis_id) as [a|].
  - split; [discriminate|]. split.
    + intros _. split; eexists; reflexivity.
    + intros status_code detail [H|H]; discriminate.
  - split; [intros _; split; reflexivity|]. split; [intros H; contradiction|].
    intros status_code detail [H|H]; injection H as <- _; reflexivity.
Qed.

Lemma read_routes_never_404_witness :
  Routes.get_report order_by_text (db empty_world) "a1"
  = Routes.HTTPException 500 "Analysis a1 not found".
Proof.
  apply (proj1 (read_routes_never_404 (fun _ detail => detail) order_by_text
                  (db empty_world) "a1")).
  reflexivity.
Defined.

Lemma the_record_untouched (nid : string) (P : Analysis -> Prop) (w w' : World) :
  the_record nid P w -> analyses_untouched w w' -> the_record nid P w'.
Proof.
  intros (a & Ha & HP) [Ht _]. exists a. split; [|exact HP].
  unfold Repository.get_analysis in *. rewrite Ht. exact Ha.
Qed.

Lemma hoare_record_untouched {A} (nid : string) (P : Analysis -> Prop) (m : M A) :
  respects analyses_untouched m ->
  hoare (the_record nid P) m (fun _ => the_record nid P) (the_record nid P).
Proof.
  intros Hm. eapply hoare_respects; [exact Hm|].
  intros w w' Hw Hr. apply (the_record_untouched _ _ _ _ Hw Hr).
Qed.

Lemma hoare_record_update (env : Env) (c : RepoCall) (nid : string)
    (P P' : Analysis -> Prop) (f : Analysis -> Analysis) :
  (forall r, id (f r) = id r) ->
  (forall r, P r -> P' (f r)) ->
  hoare (the_record nid P)
    (execute env c (fun d => Ok (Repository.update_analysis nid f d)))
    (fun _ => the_record nid P') (the_record nid P).
Proof.
  intros Hid Hf w (a & Ha & HP). unfold hoare.
  destruct (repo_fault env c) as [e|] eqn:Ef.
  - rewrite (execute_fault env c _ w e Ef). exists a. auto.
  - rewrite (execute_ok env c (fun d => Ok (Repository.update_analysis nid f d)) w _
               Ef eq_refl).
    exists (f a). split; [|apply Hf, HP].
    unfold Repository.get_analysis, Repository.update_analysis, Repository.set_analyses in *.
    cbn [db tbl_analyses]. rewrite (find_map_update nid f _ Hid nid), Ha, String.eqb_refl.
    reflexivity.
Qed.

Lemma record_after_pipeline (env : Env) (u : string)
    (brand product_category use_case : option string) (analysis : Analysis) :
  hoare (the_record (id analysis) (fun a => url a = u))
    (AnalysisOrchestrator.pipeline env u brand product_category use_case analysis)
    (fun _ => the_record (id analysis)
                (fun a => url a = u /\ status a = COMPLETED
                          /\ error_message a = None /\ composite_score a <> None))
    (the_record (id analysis) (fun a => url a = u)).
Proof.
  set (nid := id analysis).
  set (any := fun a : Analysis => url a = u).
  set (scored := fun a : Analysis => url a = u /\ composite_score a <> None).
  set (done := fun a : Analysis =>
                 url a = u /\ status a = COMPLETED
                 /\ error_message a = None /\ composite_score a <> None).
  assert (Hquiet : forall (P : Analysis -> Prop) A (m : M A),
             (forall a, P a -> any a) ->
             respects analyses_untouched m ->
             hoare (the_record nid P) m (fun _ => the_record nid P) (the_record nid any)).
  { intros P A m HP Hm.
    apply (hoare_weaken _ _ _ _ _ _ _ (hoare_record_untouched nid P m Hm)
             (fun w H => H) (fun _ w H => H)).
    intros w (a & Ha & Hp). exists a. split; [exact Ha|apply HP, Hp]. }
  assert (Hany : forall a, any a -> any a) by auto.
  assert (Hscored : forall a, scored a -> any a) by (intros a [H _]; exact H).
  unfold AnalysisOrchestrator.pipeline.
  eapply hoare_bind.
  { unfold Repository.update_analysis_status.
    apply (hoare_record_update env _ nid any any); [reflexivity|].
    intros r Hr. exact Hr. }
  intros ?.
  eapply hoare_bind; [apply (Hquiet any _ _ Hany), untouched_crawl_url|]. intros crawled_content.
  eapply hoare_bind; [apply (Hquiet any _ _ Hany), untouched_save_crawled_content|]. intros ?.
  eapply hoare_bind; [apply (Hquiet any _ _ Hany), untouched_parse_content|]. intros parsed_data.
  eapply hoare_bind; [apply (Hquiet any _ _ Hany), untouched_run_engines|]. intros engine_scores.
  eapply hoare_bind.
  { apply (Hquiet any _ _ Hany).
    apply respects_for_in;
      [apply analyses_untouched_refl|apply analyses_untouched_trans|].
    intros score u0. apply untouched_save_engine_score. }
  intros ?.
  eapply hoare_bind.
  { unfold Repository.update_composite_score.
    apply (hoare_record_update env _ nid any scored); [reflexivity|].
    intros r Hr. split; [exact Hr|discriminate]. }
  intros ?.
  eapply hoare_bind; [apply (Hquiet scored _ _ Hscored), untouched_identify_engine_gaps|].
  intros all_gaps.
  eapply hoare_bind; [apply (Hquiet scored _ _ Hscored), untouched_simulation_step|].
  intros all_gaps'.
  eapply hoare_bind; [apply (Hquiet scored _ _ Hscored), untouched_save_gaps|]. intros ?.
  eapply hoare_bind.
  { unfold Repository.update_analysis_status.
    assert (H : hoare (the_record nid scored)
                  (execute env (UpdateAnalysisStatus COMPLETED)
                     (fun d => Ok (Repository.update_analysis nid
                                     (fun r => mkAnalysis (id r) (url r) COMPLETED
                                                 (composite_score r) None) d)))
                  (fun _ => the_record nid done) (the_record nid scored)).
    { apply hoare_record_update; [reflexivity|].
      intros r [Hu Hc]. repeat split; assumption. }
    apply (hoare_weaken _ _ _ _ _ _ _ H (fun w H => H) (fun _ w H => H)).
    intros w (r & Hr & Hp). exists r. split; [exact Hr|apply Hscored, Hp]. }
  intros ?. apply hoare_ret. auto.
Qed.

Lemma update_status_ok (env : Env) (analysis_id : string) (st : AnalysisStatus)
    (err : option string) (w : World) :
  repo_fault env (UpdateAnalysisStatus st) = None ->
  Repository.update_analysis_status env analysis_id st err w
  = (Ok tt,
     let d := Repository.update_analysis analysis_id
                (fun r => mkAnalysis (id r) (url r) st (composite_score r) err) (db w) in
     mkWorld d (history w ++ [d]) (calls w ++ [Repo (UpdateAnalysisStatus st)])).
Proof.
  intros Hf. unfold Repository.update_analysis_status, execute, bind, call. simpl.
  rewrite Hf. reflexivity.
Qed.

Lemma update_status_fault (env : Env) (analysis_id : string) (st : AnalysisStatus)
    (err : option string) (w : World) (e : string) :
  repo_fault env (UpdateAnalysisStatus st) = Some e ->
  Repository.update_analysis_status env analysis_id st err w
  = (Raise e, mkWorld (db w) (history w) (calls w ++ [Repo (UpdateAnalysisStatus st)])).
Proof.
  intros Hf. unfold Repository.update_analysis_status, execute, bind, call. simpl.
  rewrite Hf. reflexivity.
Qed.

Lemma hoare_any {A} (m : M A) :
  hoare (fun _ => True) m (fun _ _ => True) (fun _ => True).
Proof. intros w _. destruct (m w) as [[a|e] w']; exact I. Qed.

Lemma pipeline_returns_id (env : Env) (u : string)
    (brand product_category use_case : option string) (analysis : Analysis) :
  hoare (fun _ => True)
    (AnalysisOrchestrator.pipeline env u brand product_category use_case analysis)
    (fun r _ => r = id analysis) (fun _ => True).
Proof.
  unfold AnalysisOrchestrator.pipeline.
  repeat (eapply hoare_bind; [apply hoare_any|intros ?]).
  apply hoare_ret. reflexivity.
Qed.

(** X20. POST /analyze either responds with the new id and the status
    completed, and then the stored record is completed with a composite
    score and no error message; or it fails with status 500, and then (if
    the status update succeeds) the stored record is failed with the
    detail of the error as its message. *)
Theorem analyze_route_agrees_with_record (env : Env) (url_str : string)
    (brand category use_case : option string) (w0 : World) :
  fresh_id (new_id env) (db w0) ->
  repo_fault env CreateAnalysis = None ->
  match Routes.analyze_url env url_str brand category use_case w0 with
  | (Routes.Respond r, w) =>
      Routes.ar_analysis_id r = new_id env
      /\ Routes.ar_status r = "completed"
      /\ the_record (new_id env)
           (fun a => url a = url_str /\ status a = COMPLETED
                     /\ error_message a = None /\ composite_score a <> None) w
  | (Routes.HTTPException status_code detail, w) =>
      status_code = 500%Z
      /\ (repo_fault env (UpdateAnalysisStatus FAILED) = None ->
          the_record (new_id env)
            (fun a => url a = url_str /\ status a = FAILED
                      /\ error_message a = Some detail) w)
  end.
Proof.
  intros Hfresh Hf.
  unfold Routes.analyze_url, AnalysisOrchestrator.analyze_url, Repository.create_analysis.
  set (analysis := mkAnalysis (new_id env) url_str PENDING None None).
  pose proof (fresh_id_existsb _ _ Hfresh) as Hex.
  erewrite bind_ok.
  2:{ erewrite bind_ok; [reflexivity|].
      apply execute_ok; [exact Hf|].
      unfold Repository.insert_analysis. cbn [id analysis]. rewrite Hex. reflexivity. }
  match goal with |- context [try_except _ _ ?w] => set (w1 := w) end.
  assert (H1 : the_record (new_id env) (fun a => url a = url_str) w1).
  { exists analysis. split; [|reflexivity]. subst w1.
    unfold Repository.get_analysis, Repository.set_analyses. cbn [db tbl_analyses].
    apply find_fresh_app; [exact Hfresh|reflexivity]. }
  pose proof (record_after_pipeline env url_str brand category use_case analysis w1 H1) as Hp.
  unfold try_except.
  destruct (AnalysisOrchestrator.pipeline env url_str brand category use_case analysis w1)
    as [[nid|e] w2] eqn:Erun.
  - (* the run returned *)
    assert (nid = new_id env).
    { pose proof (pipeline_returns_id env url_str brand category use_case analysis w1 I)
        as Hid.
      rewrite Erun in Hid. exact Hid. }
    subst nid. split; [reflexivity|]. split; [reflexivity|exact Hp].
  - (* the run raised: the handler *)
    cbn [id analysis]. unfold bind.
    destruct (repo_fault env (UpdateAnalysisStatus FAILED)) as [e'|] eqn:Efail.
    + rewrite (update_status_fault env (new_id env) FAILED (Some e) w2 e' Efail).
      split; [reflexivity|discriminate].
    + rewrite (update_status_ok env (new_id env) FAILED (Some e) w2 Efail). unfold raise.
      split; [reflexivity|]. intros _.
      change (id analysis) with (new_id env) in Hp.
      destruct Hp as (a & Ha & Hu).
      exists (mkAnalysis (id a) (url a) FAILED (composite_score a) (Some e)).
      split; [|repeat split; exact Hu].
      unfold Repository.get_analysis, Repository.update_analysis, Repository.set_analyses in *.
      cbn [db tbl_analyses].
      rewrite (find_map_update (new_id env)
                 (fun r => mkAnalysis (id r) (url r) FAILED (composite_score r) (Some e))
                 _ (fun r => eq_refl) (new_id env)).
      rewrite Ha, String.eqb_refl. reflexivity.
Qed.

Lemma analyze_route_agrees_with_record_witness :
  fst (Routes.analyze_url (sample_env (stub_libs 0) empty_page fault_on_save_gaps)
         sample_url None None None empty_world)
  = Routes.HTTPException 500 "database is locked"
  /\ the_record "a1"
       (fun a => url a = sample_url /\ status a = FAILED
                 /\ error_message a = Some "database is locked")
       (snd (Routes.analyze_url (sample_env (stub_libs 0) empty_page fault_on_save_gaps)
               sample_url None None None empty_world)).
Proof.
  pose proof (analyze_route_agrees_with_record
                (sample_env (stub_libs 0) empty_page fault_on_save_gaps)
                sample_url None None None empty_world sample_fresh eq_refl) as H.
  destruct (Routes.analyze_url (sample_env (stub_libs 0) empty_page fault_on_save_gaps)
              sample_url None None None empty_world) as [out w] eqn:E.
  assert (Hout : out = Routes.HTTPException 500 "database is locked").
  { apply (f_equal fst) in E. cbn [fst] in E. rewrite <- E. vm_compute. reflexivity. }
  subst out. cbn [fst snd]. split; [reflexivity|]. apply H. reflexivity.
Defined.

(* --------------------------------------------------------------------- *)
(** ** Configuration *)

(** X21. The provider ollama always yields a simulator; any other provider
    without API keys, and any provider other than openai, claude and
    ollama, yields none; an orchestrator constructed without simulator
    never calls a simulator during analyze_url. *)
Theorem simulator_needs_configuration (settings : Settings) :
  (llm_provider settings = "ollama" ->
   AnalysisOrchestrator.choose_simulator settings
   = Some (AnalysisOrchestrator.UseOllama (ollama_base_url settings) (ollama_model settings)))
  /\ (llm_provider settings <> "ollama" ->
      opt_truthy (openai_api_key settings) = false ->
      opt_truthy (anthropic_api_key settings) = false ->
      AnalysisOrchestrator.choose_simulator settings = None)
  /\ (llm_provider settings <> "openai" -> llm_provider settings <> "claude" ->
      llm_provider settings <> "ollama" ->
      AnalysisOrchestrator.choose_simulator settings = None)
  /\ (AnalysisOrchestrator.choose_simulator settings = None ->
      forall lib simulate env url brand product_category use_case,
        respects no_simulate
          (AnalysisOrchestrator.analyze_url
             (AnalysisOrchestrator.__init__ settings lib simulate env)
             url brand product_category use_case)).
Proof.
  split; [|split; [|split]].
  - intros E. unfold AnalysisOrchestrator.choose_simulator. rewrite E. reflexivity.
  - intros Hno Ho Ha. unfold AnalysisOrchestrator.choose_simulator.
    rewrite Ho, Ha, !andb_false_r.
    destruct (String.eqb_spec (llm_provider settings) "ollama"); [contradiction|reflexivity].
  - intros H1 H2 H3. unfold AnalysisOrchestrator.choose_simulator.
    destruct (String.eqb_spec (llm_provider settings) "openai"); [contradiction|].
    destruct (String.eqb_spec (llm_provider settings) "claude"); [contradiction|].
    destruct (String.eqb_spec (llm_provider settings) "ollama"); [contradiction|].
    reflexivity.
  - intros Hnone lib simulate env url brand product_category use_case.
    apply simulate_only_if_configured.
    unfold AnalysisOrchestrator.simulation_enabled, AnalysisOrchestrator.__init__.
    cbn [simulator]. rewrite Hnone. reflexivity.
Qed.

Lemma simulator_needs_configuration_witness :
  AnalysisOrchestrator.choose_simulator default_settings = None
  /\ respects no_simulate
       (AnalysisOrchestrator.analyze_url
          (AnalysisOrchestrator.__init__ default_settings (stub_libs 0)
             (fun _ => unreachable_simulator)
             (sample_env (stub_libs 0) empty_page no_fault))
          sample_url (Some "Acme") (Some "kettles") (Some "camping")).
Proof.
  split; [reflexivity|].
  apply (proj2 (proj2 (proj2 (simulator_needs_configuration default_settings)))).
  reflexivity.
Defined.

(* --------------------------------------------------------------------- *)
(** ** Citations and simulators *)

Lemma prefix_iff (a b : string) :
  String.prefix a b = true <-> exists r, b = (a ++ r)%string.
Proof.
  revert b. induction a as [|c a IH]; intros b.
  - split; [intros _; exists b; reflexivity|]. intros _. destruct b; reflexivity.
  - destruct b as [|c' b]; simpl; [split; [discriminate|intros [r H]; discriminate]|].
    destruct (ascii_dec c c') as [->|N].
    + rewrite IH. split; intros [r H]; exists r; [rewrite H; reflexivity|].
      injection H as H. exact H.
    + split; [discriminate|]. intros [r H]. injection H as H1 H2. congruence.
Qed.



Lemma py_in_iff (needle hay : string) :
  py_in needle hay = true <-> exists l r, hay = (l ++ needle ++ r)%string.
Proof.
  induction hay as [|c hay IH].
  - change (py_in needle "") with (if String.prefix needle "" then true else false).
    destruct (String.prefix needle "") eqn:E.
    + split; [|reflexivity]. intros _. apply prefix_iff in E. destruct E as [r E].
      exists "", r. exact E.
    + split; [discriminate|]. intros (l & r & H).
      destruct l as [|c l]; [|discriminate].
      assert (String.prefix needle "" = true) by (apply prefix_iff; exists r; exact H).
      congruence.
  - rewrite py_in_cons. destruct (String.prefix needle (String c hay)) eqn:E.
    + split; [|reflexivity]. intros _. apply prefix_iff in E. destruct E as [r E].
      exists "", r. exact E.
    + rewrite IH. split.
      * intros (l & r & H). exists (String c l), r. rewrite H. reflexivity.
      * intros (l & r & H). destruct l as [|c' l].
        -- assert (String.prefix needle (String c hay) = true)
             by (apply prefix_iff; exists r; exact H). congruence.
        -- injection H as _ H. exists l, r. exact H.
Qed.

Lemma append_assoc (a b c : string) : ((a ++ b) ++ c = a ++ (b ++ c))%string.
Proof. induction a as [|x a IH]; simpl; [reflexivity|]. rewrite IH. reflexivity. Qed.

Lemma py_in_longer (pre s hay : string) :
  py_in (pre ++ s)%string hay = true -> py_in s hay = true.
Proof.
  rewrite !py_in_iff. intros (l & r & H). exists (l ++ pre)%string, r.
  rewrite H, !append_assoc. reflexivity.
Qed.












Lemma add_keyword_hits_eq (keywords : list string) (context_lower : string) (score : nat) :
  CitationAnalyzer.add_keyword_hits keywords context_lower score
  = (score + keyword_hits keywords context_lower)%nat.
Proof.
  unfold CitationAnalyzer.add_keyword_hits, keyword_hits.
  revert score. induction keywords as [|k ks IH]; intros score; simpl; [lia|].
  rewrite IH. destruct (py_in k context_lower); simpl; lia.
Qed.

Lemma sentiment_scores (contexts : list string) (p n : nat) :
  (forall context, In context contexts ->
     (keyword_hits CitationAnalyzer.negative_keywords (py_lower context)
      <= keyword_hits CitationAnalyzer.positive_keywords (py_lower context))%nat) ->
  (n <= p)%nat ->
  let '(p', n') :=
    fold_left
      (fun '(positive_score, negative_score) context =>
         let context_lower := py_lower context in
         (CitationAnalyzer.add_keyword_hits CitationAnalyzer.positive_keywords
            context_lower positive_score,
          CitationAnalyzer.add_keyword_hits CitationAnalyzer.negative_keywords
            context_lower negative_score))
      contexts (p, n) in
  (n' <= p')%nat.
Proof.
  revert p n. induction contexts as [|c cs IH]; intros p n Hall Hle;
    cbn [fold_left]; [exact Hle|].
  apply IH.
  - intros context Hc. apply Hall. right. exact Hc.
  - rewrite !add_keyword_hits_eq. specialize (Hall c (or_introl eq_refl)). lia.
Qed.

(** X23. Contexts whose only negative keyword is 'not recommend' are never
    classified as negative: the phrase contains the positive keyword
    'recommend', so every such hit is matched by a positive one. *)
Theorem not_recommend_is_not_negative (contexts : list string) :
  (forall context keyword,
     In context contexts -> In keyword other_negative_keywords ->
     py_in keyword (py_lower context) = false) ->
  CitationAnalyzer._analyze_sentiment contexts <> "negative".
Proof.
  intros Hother. unfold CitationAnalyzer._analyze_sentiment.
  pose proof (sentiment_scores contexts 0 0) as H.
  destruct (fold_left _ contexts (0%nat, 0%nat)) as [p n].
  assert (Hle : (n <= p)%nat).
  { apply H; [|lia]. intros context Hc.
    unfold keyword_hits, CitationAnalyzer.negative_keywords.
    change ["not recommend"; "avoid"; "poor"; "lacking"; "missing"; "insufficient";
            "weak"; "limited"; "concerns"]
      with ("not recommend" :: other_negative_keywords).
    cbn [filter].
    assert (Hnone' : filter (fun keyword => py_in keyword (py_lower context))
                       other_negative_keywords = []).
    { assert (G : forall ks, (forall k, In k ks -> In k other_negative_keywords) ->
                  filter (fun keyword => py_in keyword (py_lower context)) ks = []).
      { induction ks as [|k ks IHk]; intros Hin; [reflexivity|]. cbn [filter].
        rewrite (Hother context k Hc (Hin k (or_introl eq_refl))).
        apply IHk. intros k' Hk'. apply Hin. right. exact Hk'. }
      apply G. auto. }
    rewrite Hnone'.
    destruct (py_in "not recommend" (py_lower context)) eqn:E; [|simpl; lia].
    assert (Hrec : py_in "recommend" (py_lower context) = true)
      by (apply (py_in_longer "not " "recommend"), E).
    unfold CitationAnalyzer.positive_keywords. cbn [filter]. rewrite Hrec. simpl. lia. }
  destruct (Nat.ltb_spec n p); [discriminate|].
  destruct (Nat.ltb_spec p n); [lia|discriminate].
Qed.

Lemma not_recommend_is_not_negative_witness :
  CitationAnalyzer._analyze_sentiment ["I would not recommend Acme kettles."] <> "negative".
Proof.
  apply not_recommend_is_not_negative.
  intros context keyword [<-|[]] Hk.
  repeat (destruct Hk as [<-|Hk]; [vm_compute; reflexivity|]). destruct Hk.
Defined.



(** X25. With the Ollama simulator configured but its model call failing,
    a run with brand, category and use case on a working store still
    completes; it stores the fallback result (brand not cited, response
    '[Ollama not available: <error>]') and, after the gaps of the engines,
    the critical gap not_cited_by_ai. *)
Theorem ollama_unreachable_is_not_cited (backend : Backend) (env : Env) (url : string)
    (brand product_category use_case : option string) (w0 : World)
    (content : CrawledContent) (pg : Page) (gaps : list Gap) (e : string) :
  simulator env = Some (OllamaSimulator.simulate_recommendation backend) ->
  supplied brand -> supplied product_category -> supplied use_case ->
  query backend
    (get_recommendation_prompt (AnalysisOrchestrator.opt_str product_category)
       (AnalysisOrchestrator.opt_str use_case)) = Raise e ->
  (forall c, repo_fault env c = None) ->
  fresh_id (new_id env) (db w0) ->
  crawl_outcome env url (new_id env) = Ok content ->
  parse_markup env (html_content content) (cc_url content) = Ok pg ->
  engine_gaps (engines env)
    (scored_by (engines env) content (assemble_parsed_data pg))
    (assemble_parsed_data pg) [] = Ok gaps ->
  exists w r,
    AnalysisOrchestrator.analyze_url env url brand product_category use_case w0
    = (Ok (new_id env), w)
    /\ tbl_simulation_results (db w) = tbl_simulation_results (db w0) ++ [r]
    /\ brand_cited r = false
    /\ response r = ("[Ollama not available: " ++ e ++ "]")%string
    /\ tbl_gaps (db w) = tbl_gaps (db w0) ++ gaps ++ [not_cited_gap (new_id env)].
Proof.
  intros Hsim Hb Hp Hu Hq Hw Hfresh Hcrawl Hparse Hgaps.
  assert (Hcore : core_writes_succeed env) by (intros []; try exact I; apply Hw).
  destruct (analyze_url_completes env url brand product_category use_case w0
              content pg gaps Hfresh Hcore Hcrawl Hparse Hgaps) as (w & Hrun & Hdb & _).
  set (r := OllamaSimulator._create_fallback_result (new_id env)
              (AnalysisOrchestrator.opt_str brand)
              (get_recommendation_prompt (AnalysisOrchestrator.opt_str product_category)
                 (AnalysisOrchestrator.opt_str use_case)) e).
  assert (Hatt : simulation_attempt env (new_id env) brand product_category use_case
                 = Some (Ok r)).
  { unfold simulation_attempt. rewrite Hsim.
    rewrite (proj2 (opt_truthy_supplied brand) Hb),
      (proj2 (opt_truthy_supplied product_category) Hp),
      (proj2 (opt_truthy_supplied use_case) Hu). cbn [andb].
    unfold OllamaSimulator.simulate_recommendation. cbv zeta. rewrite Hq. reflexivity. }
  exists w, r. split; [exact Hrun|]. rewrite Hdb. unfold completed_db.
  cbn [tbl_simulation_results tbl_gaps].
  unfold simulation_rows, simulation_gaps. rewrite Hatt, !Hw.
  split; [reflexivity|]. split; [reflexivity|]. split; [reflexivity|].
  rewrite extract_simulation_gaps_eq. reflexivity.
Qed.

Lemma ollama_unreachable_is_not_cited_witness :
  exists w r,
    AnalysisOrchestrator.analyze_url ollama_env
      sample_url (Some "Acme") (Some "kettles") (Some "camping") empty_world = (Ok "a1", w)
    /\ tbl_simulation_results (db w) = [r]
    /\ brand_cited r = false
    /\ response r = "[Ollama not available: connection refused]"
    /\ tbl_gaps (db w) = sample_engine_gaps ++ [not_cited_gap "a1"].
Proof.
  destruct (ollama_unreachable_is_not_cited offline_backend ollama_env
              sample_url (Some "Acme") (Some "kettles") (Some "camping") empty_world
              sample_content empty_page sample_engine_gaps "connection refused"
              eq_refl) as (w & r & H); try reflexivity.
  all: try (eexists; split; [reflexivity|discriminate]).
  - exact sample_fresh.
  - exists w, r. exact H.
Defined.

Lemma untyped_step_agrees (env : Env)
    (simulate : string -> string -> string -> string -> Result SimulationResult)
    (analysis_id : string) (brand product_category use_case : option string)
    (parsed_data : ParsedData) (all_gaps : list Gap) (w : World) :
  simulator env = Some simulate ->
  Untyped.simulation_step env (Some (Untyped.typed simulate)) analysis_id
    brand product_category use_case parsed_data all_gaps w
  = AnalysisOrchestrator.simulation_step env analysis_id
      brand product_category use_case parsed_data all_gaps w.
Proof.
  intros Hs. unfold Untyped.simulation_step, AnalysisOrchestrator.simulation_step.
  rewrite Hs.
  destruct (opt_truthy brand && opt_truthy product_category && opt_truthy use_case);
    [|reflexivity].
  unfold try_except, bind, Untyped._run_simulation, AnalysisOrchestrator._run_simulation,
    try_except, bind, call, lift, raise, Untyped.typed.
  destruct (simulate analysis_id _ _ _) as [r|e]; [|reflexivity].
  cbn [Untyped.save_simulation_result Untyped._extract_simulation_gaps].
  destruct (Repository.save_simulation_result env r _) as [[u|e] w']; reflexivity.
Qed.


(** X26. The OpenAI simulator as the orchestrator constructs it (with a
    repository) always returns a dict with brand_cited False,
    citation_count 0 and no missing signals, because its own call of
    save_simulation_result passes keywords the method does not take. Step
    8 with this simulator never stores a simulation result and never adds
    a gap, because save_simulation_result reads attributes a dict does not
    have: it leaves the database as it was and the gaps of the engines
    unchanged. *)
Theorem openai_simulation_leaves_no_trace (client : OpenAISimulator.Client) (model : string)
    (env : Env) (analysis_id : string) (brand product_category use_case : option string)
    (parsed_data : ParsedData) (all_gaps : list Gap) (w : World) :
  (forall b c u,
     let result :=
       OpenAISimulator.simulate_recommendation client model true analysis_id
         (Some b) (Some c) (Some u) None in
     dict_get result "brand_cited" = Some (PBool false)
     /\ dict_get result "citation_count" = Some (PInt 0)
     /\ dict_get result "missing_signals" = Some (PList []))
  /\ exists w',
       Untyped.simulation_step env (Some (Untyped.openai client model)) analysis_id
         brand product_category use_case parsed_data all_gaps w = (Ok all_gaps, w')
       /\ db w' = db w
       /\ history w' = history w
       /\ (calls w' = calls w \/ calls w' = calls w ++ [Simulate]).
Proof.
  split.
  - intros b c u. cbv zeta. unfold OpenAISimulator.simulate_recommendation.
    destruct (negb (str_truthy b) || negb (str_truthy c) || negb (str_truthy u)).
    + repeat split.
    + unfold OpenAISimulator.attempt. cbv zeta.
      destruct (OpenAISimulator.completion client _) as [response_text|e];
        cbn [rbind]; repeat split.
  - unfold Untyped.simulation_step.
    destruct (opt_truthy brand && opt_truthy product_category && opt_truthy use_case).
    + eexists. split; [reflexivity|]. cbn. auto.
    + eexists. split; [reflexivity|]. auto.
Qed.

(* --------------------------------------------------------------------- *)
(** ** Scoring utilities *)

Lemma py_max_bounds (a b : Q) : a <= py_max a b /\ b <= py_max a b.
Proof.
  unfold py_max. destruct (Qle_bool b a) eqn:E.
  - apply Qle_bool_iff in E. split; lra.
  - apply Qle_bool_false in E. split; lra.
Qed.

(** X27. normalize_score always returns a value between 0 and 100: 0 when
    max_score is 0, raw_score / max_score * 100 when 0 <= raw_score <=
    max_score, 0 for a raw score that is not positive and 100 for one of
    at least max_score (max_score positive). *)
Theorem normalize_score_range (raw_score max_score : Q) :
  0 <= BaseEngine.normalize_score raw_score max_score <= 100
  /\ (max_score == 0 -> BaseEngine.normalize_score raw_score max_score = 0)
  /\ (0 < max_score -> 0 <= raw_score <= max_score ->
      BaseEngine.normalize_score raw_score max_score == raw_score / max_score * 100)
  /\ (0 < max_score -> raw_score <= 0 ->
      BaseEngine.normalize_score raw_score max_score == 0)
  /\ (0 < max_score -> max_score <= raw_score ->
      BaseEngine.normalize_score raw_score max_score == 100).
Proof.
  unfold BaseEngine.normalize_score. cbv zeta.
  destruct (Qeq_bool max_score 0) eqn:E.
  - apply Qeq_bool_iff in E.
    split; [lra|]. split; [reflexivity|]. repeat split; intros; lra.
  - assert (Hne : ~ max_score == 0).
    { intros H. apply Qeq_bool_iff in H. congruence. }
    set (x := raw_score / max_score * 100).
    assert (Hrange : 0 <= py_min 100 (py_max 0 x) <= 100).
    { apply py_min_bounds; [lra|apply py_max_bounds]. }
    split; [exact Hrange|]. split; [intros H; contradiction|].
    assert (Hx : forall lo hi, 0 < max_score ->
                 lo * max_score <= raw_score <= hi * max_score ->
                 lo * 100 <= x <= hi * 100).
    { intros lo hi Hpos [H1 H2]. subst x.
      assert (lo <= raw_score / max_score) by (apply Qle_shift_div_l; assumption).
      assert (raw_score / max_score <= hi) by (apply Qle_shift_div_r; assumption).
      lra. }
    unfold py_min, py_max.
    split; [|split].
    + intros Hpos [H0 H1]. destruct (Hx 0 1 Hpos) as [Hx0 Hx1]; [lra|].
      destruct (Qle_bool x 0) eqn:E0.
      * apply Qle_bool_iff in E0. destruct (Qle_bool 100 0) eqn:E1.
        -- apply Qle_bool_iff in E1. lra.
        -- lra.
      * destruct (Qle_bool 100 x) eqn:E1; [apply Qle_bool_iff in E1; lra|reflexivity].
    + intros Hpos Hneg.
      assert (x <= 0).
      { subst x. assert (raw_score / max_score <= 0)
          by (apply Qle_shift_div_r; [assumption|lra]). lra. }
      destruct (Qle_bool x 0) eqn:E0.
      * destruct (Qle_bool 100 0) eqn:E1; [apply Qle_bool_iff in E1; lra|reflexivity].
      * apply Qle_bool_false in E0. lra.
    + intros Hpos Hbig. destruct (Hx 1 (raw_score / max_score) Hpos) as [Hx1 _].
      { split; [lra|]. unfold Qdiv. rewrite <- Qmult_assoc, (Qmult_comm (/ max_score)),
          Qmult_inv_r by exact Hne. lra. }
      destruct (Qle_bool x 0) eqn:E0; [apply Qle_bool_iff in E0; lra|].
      destruct (Qle_bool 100 x) eqn:E1; [reflexivity|apply Qle_bool_false in E1; lra].
Qed.

Lemma normalize_score_range_witness :
  BaseEngine.normalize_score 130 100 == 100.
Proof.
  apply (proj2 (proj2 (proj2 (proj2 (normalize_score_range 130 100)))));
    vm_compute; [reflexivity|discriminate].
Defined.

Lemma Q_of_nat_le (n m : nat) : (n <= m)%nat -> Q_of_nat n <= Q_of_nat m.
Proof. intros H. unfold Q_of_nat. rewrite <- Zle_Qle. lia. Qed.

Lemma Q_of_nat_pos (n : nat) : (0 < n)%nat -> 0 < Q_of_nat n.
Proof. intros H. unfold Q_of_nat. change 0 with (inject_Z 0). rewrite <- Zlt_Qlt. lia. Qed.

Lemma py_min_mono (c a b : Q) : a <= b -> py_min c a <= py_min c b.
Proof.
  intros H. unfold py_min.
  destruct (Qle_bool c a) eqn:Ea; destruct (Qle_bool c b) eqn:Eb;
    try apply Qle_bool_iff in Ea; try apply Qle_bool_iff in Eb;
    try apply Qle_bool_false in Ea; try apply Qle_bool_false in Eb; lra.
Qed.

(** X28. For a positive benchmark and non-negative max_points,
    calculate_richness_score of a string lies between 0 and max_points, is
    max_points from benchmark_chars characters on, 0 for the empty string,
    and does not decrease when the text gets longer; for None instead of a
    string it raises. *)
Theorem richness_score_saturates (content content' : string) (benchmark_chars : nat)
    (max_points : Q) :
  (0 < benchmark_chars)%nat -> 0 <= max_points ->
  exists score score',
    calculate_richness_score (PStr content) benchmark_chars max_points = Ok score
    /\ calculate_richness_score (PStr content') benchmark_chars max_points = Ok score'
    /\ 0 <= score <= max_points
    /\ ((benchmark_chars <= String.length content)%nat -> score == max_points)
    /\ (content = "" -> score == 0)
    /\ ((String.length content <= String.length content')%nat -> score <= score')
    /\ (exists e, calculate_richness_score PNone benchmark_chars max_points = Raise e).
Proof.
  intros Hb Hm. unfold calculate_richness_score. cbn [py_len rbind].
  eexists. eexists. split; [reflexivity|]. split; [reflexivity|].
  pose proof (Q_of_nat_pos _ Hb) as Hpos.
  set (r := fun s : string => Q_of_nat (String.length s) / Q_of_nat benchmark_chars).
  fold (r content). fold (r content').
  assert (Hr0 : forall s, 0 <= r s) by (intros s; apply Q_of_nat_div_nonneg).
  assert (Hmin : forall s, 0 <= py_min 1 (r s) <= 1)
    by (intros s; apply py_min_bounds; [lra|apply Hr0]).
  split.
  { destruct (Hmin content) as [H0 H1]. split.
    - apply Qmult_le_0_compat; assumption.
    - rewrite <- (Qmult_1_l max_points) at 2. apply Qmult_le_compat_r; assumption. }
  split.
  { intros Hlong.
    assert (1 <= r content).
    { unfold r. apply Qle_shift_div_l; [exact Hpos|]. rewrite Qmult_1_l.
      apply Q_of_nat_le, Hlong. }
    unfold py_min. destruct (Qle_bool 1 (r content)) eqn:E; [lra|].
    apply Qle_bool_false in E. lra. }
  split.
  { intros ->. unfold r. simpl String.length.
    assert (E : Q_of_nat 0 / Q_of_nat benchmark_chars == 0) by (unfold Qdiv; reflexivity).
    unfold py_min. destruct (Qle_bool 1 _) eqn:E1.
    - apply Qle_bool_iff in E1. rewrite E in E1. lra.
    - rewrite E. lra. }
  split.
  { intros Hle.
    assert (r content <= r content').
    { unfold r. apply Qle_shift_div_l; [exact Hpos|].
      unfold Qdiv. rewrite <- Qmult_assoc, (Qmult_comm (/ _)), Qmult_inv_r, Qmult_1_r
        by lra.
      apply Q_of_nat_le, Hle. }
    apply Qmult_le_compat_r; [apply py_min_mono; assumption|exact Hm]. }
  eexists. reflexivity.
Qed.

Lemma richness_score_saturates_witness :
  exists score,
    calculate_richness_score (PStr "kettle") 3 15 = Ok score /\ score == 15.
Proof.
  destruct (richness_score_saturates "kettle" "" 3 15) as (score & _ & H & _ & _ & Hs & _).
  - lia.
  - vm_compute. discriminate.
  - exists score. split; [exact H|]. apply Hs. simpl. lia.
Defined.

Lemma filter_in_expected (expected present : list string) :
  NoDup present ->
  (List.length (filter (fun f => existsb (String.eqb f) expected) present)
   <= List.length expected)%nat.
Proof.
  intros Hnd. apply NoDup_incl_length.
  - apply NoDup_filter, Hnd.
  - intros f Hf. apply filter_In in Hf. destruct Hf as [_ Hf].
    apply existsb_exists in Hf. destruct Hf as (x & Hx & E).
    apply String.eqb_eq in E. subst. exact Hx.
Qed.

Lemma filter_filter_same {A} (f g : A -> bool) (l : list A) :
  (forall x, In x l -> f x = true -> g x = true) ->
  filter g (filter f l) = filter f l.
Proof.
  intros H. induction l as [|x l IH]; simpl; [reflexivity|].
  destruct (f x) eqn:E.
  - simpl. rewrite (H x (or_introl eq_refl) E). f_equal.
    apply IH. intros y Hy. apply H. right. exact Hy.
  - apply IH. intros y Hy. apply H. right. exact Hy.
Qed.

(** X29. calculate_completeness_score returns max_points when nothing is
    expected and, for present fields without duplicates, a value between 0
    and max_points; on a page with Product schema, applied to the present
    fields of the validation, the recommended fields and 40 points, it
    equals ADE's schema completeness score. *)
Theorem completeness_score_agrees (found expected : list string) (max_points : Q) :
  (expected = [] -> calculate_completeness_score found expected max_points = max_points)
  /\ (NoDup found -> 0 <= max_points ->
      0 <= calculate_completeness_score found expected max_points <= max_points)
  /\ (forall pg,
        let schema_data := schema (assemble_parsed_data pg) in
        present (product_validation schema_data) = true ->
        calculate_completeness_score (present_fields (product_validation schema_data))
          SchemaParser.recommended_fields 40
        == ADEEngine._score_schema_completeness schema_data).
Proof.
  split; [intros ->; reflexivity|]. split.
  - intros Hnd Hm. unfold calculate_completeness_score.
    destruct expected as [|x xs] eqn:E; [lra|]. rewrite <- E.
    cbv zeta.
    assert (Hlen : (0 < List.length expected)%nat) by (rewrite E; simpl; lia).
    pose proof (Q_of_nat_ratio _ _ (filter_in_expected expected found Hnd)
                  Hlen) as [H0 H1].
    split.
    + apply Qmult_le_0_compat; assumption.
    + rewrite <- (Qmult_1_l max_points) at 2. apply Qmult_le_compat_r; assumption.
  - intros pg schema_data Hp. subst schema_data.
    unfold ADEEngine._score_schema_completeness. cbv zeta.
    rewrite Hp. cbn [negb].
    unfold assemble_parsed_data in *. cbn [schema product_validation] in *.
    unfold SchemaParser.validate_product_schema in *.
    destruct (pg_product pg) as [[|kv p]|]; try discriminate.
    cbn [present_fields completeness].
    unfold calculate_completeness_score.
    change SchemaParser.recommended_fields
      with ("name" :: tl SchemaParser.recommended_fields) at 1.
    cbv zeta. cbv iota.
    change ("name" :: tl SchemaParser.recommended_fields)
      with SchemaParser.recommended_fields.
    rewrite filter_filter_same; [reflexivity|].
    intros f Hin _. apply existsb_exists. exists f. split; [exact Hin|apply String.eqb_refl].
Qed.

Lemma completeness_score_agrees_witness :
  0 <= calculate_completeness_score ["name"; "offers"] SchemaParser.recommended_fields 40
    <= 40.
Proof.
  apply (completeness_score_agrees ["name"; "offers"] SchemaParser.recommended_fields 40).
  - repeat constructor; simpl; intuition discriminate.
  - vm_compute. discriminate.
Defined.
